(** * GlobalWarmingTrends: the temperature map (scripts/temperature-map.js)

    A shallow embedding of the data loader, the heatmap frame assembly, the
    per-country trend aggregation and the interaction handlers, together with
    the properties the specification states about them.

    Modelling conventions
    - JavaScript numbers are IEEE 754 binary64 values ([number]), with the
      rounding of every operation, as specified by the library's SpecFloat;
      a counter or an index is a natural number (an array has fewer than
      2^32 elements, where a counter is exact).
    - An array element is [JUndefined] (index out of range), [JNull] or a
      number; arithmetic coerces with [ToNumber] as the language does.
    - Objects used as maps ([allTemperatureData], [baselineData]) are finite
      maps over strings.  [allTemperatureData] is read at its own keys, or
      at the name of no property; [baselineData] is read at names computed
      from the data, with the properties it inherits ([baseline_get]).
    - The d3 primitives (projection, geoContains, timeParse) are parameters,
      and so is what the document finds for a selector that is not plain.
    - A function that can raise (a TypeError, or the SyntaxError of a
      rejected selector) returns the store it had reached together with the
      completion ([Normal] or [Thrown]). *)

From Stdlib Require Import QArith Ascii String.
From Stdlib Require Import Floats.SpecFloat.
From stdpp Require Import base numbers option list sorting strings gmap.

#[local] Set Warnings "-clear-no-such-hyp".


(** ** Numbers and array elements *)

(** A number is an IEEE 754 binary64 value: a signed zero, a signed infinity,
    NaN, or a finite value [(-1)^s * m * 2^e].  The numbers of a payload are
    in canonical form ([valid_binary]), and the operations keep that form;
    no statement below depends on it. *)
Definition number : Type := spec_float.

Abbreviation NaN := S754_nan.

Definition is_NaN (a : number) : bool :=
  match a with
  | NaN => true
  | _ => false
  end.

(** The precision and the exponent bound of binary64. *)
Definition double_prec : Z := 53.
Definition double_emax : Z := 1024.

(** The number nearest to an integer (ties to even); exact up to [2^53]. *)
Definition num_of_Z (z : Z) : number :=
  binary_normalize double_prec double_emax z 0 false.
Definition num_of_nat (n : nat) : number := num_of_Z (Z.of_nat n).
Definition num_zero : number := num_of_Z 0.

(** [a + b], [a - b] and [a / b], each rounded to nearest, ties to even. *)
Definition num_add (a b : number) : number :=
  SFadd double_prec double_emax a b.

Definition num_sub (a b : number) : number :=
  SFsub double_prec double_emax a b.

Definition num_div (a b : number) : number :=
  SFdiv double_prec double_emax a b.

(** The decimal literal [m * 10^-k] as JSON.parse reads it, for an [m] and a
    power of ten that are exact as numbers ([|m| < 2^53], [k <= 22]): the
    quotient of two exact numbers is rounded once. *)
Definition decimal (m : Z) (k : nat) : number :=
  num_div (num_of_Z m) (num_of_Z (10 ^ Z.of_nat k)).

(** The exact value of a zero or a finite number. *)
Definition exact_value (a : number) : option Q :=
  match a with
  | S754_zero _ => Some (0 # 1)
  | S754_finite s m e =>
      Some (Qmult (inject_Z (cond_Zopp s (Zpos m))) (Qpower (2 # 1) e))
  | _ => None
  end.

Inductive jsval : Type :=
  | JUndefined
  | JNull
  | JNum (x : number).

Definition ToNumber (v : jsval) : number :=
  match v with
  | JUndefined => NaN
  | JNull => num_zero
  | JNum x => x
  end.

(** [arr[i]] on an array of readings. *)
Definition arr_get (arr : list jsval) (i : nat) : jsval :=
  default JUndefined (arr !! i).

(** [o[k]] where [k] may be [undefined]: the key is converted to a string. *)
Definition prop_key (k : option string) : string := default "undefined" k.

(** ** Strings *)

(** [s.split(sep)] for a one-character separator. *)
Fixpoint split_on (sep : ascii) (s : string) : list string :=
  match s with
  | EmptyString => [EmptyString]
  | String c rest =>
      if Ascii.eqb c sep then EmptyString :: split_on sep rest
      else match split_on sep rest with
           | [] => [String c EmptyString]
           | w :: ws => String c w :: ws
           end
  end.

Definition dash : ascii := "-"%char.

(** [dateStr.split('-')[1]] *)
Definition month_of (dateStr : string) : option string :=
  split_on dash dateStr !! 1.

Definition startsWith (s p : string) : bool := String.prefix p s.

(** [Object.keys(o).sort()]: the own keys in code-unit order. *)
Definition sorted_keys {V} (o : gmap string V) : list string :=
  merge_sort String.le (map fst (map_to_list o)).

(** ** Outcome of a computation that may raise *)

Inductive result (A : Type) : Type :=
  | Ok (a : A)
  | TypeError.
Arguments Ok {A} a.
Arguments TypeError {A}.

Definition rbind {A B} (r : result A) (k : A → result B) : result B :=
  match r with
  | Ok a => k a
  | TypeError => TypeError
  end.

Fixpoint rmap_list {A B} (f : A → result B) (l : list A) : result (list B) :=
  match l with
  | [] => Ok []
  | a :: l' =>
      rbind (f a) (λ b, rbind (rmap_list f l') (λ bs, Ok (b :: bs)))
  end.

(** ** Data model *)

(** A raw coordinate [[lon, lat]] and a projected screen position [{x, y}]. *)
Definition coord : Type := number * number.

Record point : Type := { x : number; y : number }.

(** A GeoJSON geometry, as the boundary file provides it. *)
Inductive geometry : Type :=
  | Polygon (rings : list (list coord))
  | MultiPolygon (polygons : list (list (list coord))).

(** A country boundary feature: the properties and the id read by
    [getCountryId] and [getCountryName], and the geometry. *)
Record feature : Type := {
  iso_a3 : option string;
  adm0_a3 : option string;
  fid : option string;
  name : option string;
  geom : geometry
}.

(** A [Date] is its time value in milliseconds. *)
Definition Date : Type := Z.

(** One element of a trend series: [{date, val, rawDate}]. *)
Record entry : Type := {
  date : option Date;
  val : number;
  rawDate : string
}.

Inductive color_scale : Type :=
  | absoluteColorScale
  | anomalyColorScale.

(** One element of [renderData]. *)
Record datum : Type := { dx : number; dy : number; dval : jsval }.

(** A [.data-point] circle: its position and its fill, the colour a scale
    gives to a value. *)
Record circle : Type := {
  cx : number;
  cy : number;
  fill : color_scale * jsval
}.

(** *** Sidebar *)

Inductive display : Type :=
  | DisplayDefault
  | DisplayNone
  | DisplayFlex.

(** The statistics box: its [style.display] and the series and unit whose
    figures (average, extremes, seasonal averages) its text shows. *)
Record stats_box : Type := {
  statsDisplay : display;
  statsShown : option (list entry * bool)
}.

(** A drawn chart: the series of its line, the mode of its colours and unit
    label, and the sync marker (hidden when [None]; otherwise the element it
    points at and the unit of its label). *)
Record chart : Type := {
  line : list entry;
  lineAnomaly : bool;
  marker : option (entry * bool)
}.

(** A child of a chart container; [Svg None] is an svg element appended by a
    draw that raised before drawing anything into it. *)
Inductive chart_child : Type :=
  | LoadingText
  | NoDataText
  | Svg (c : option chart).

Record chart_container : Type := {
  children : list chart_child;
  chartMeta : option (list entry)
}.

(** A [li] of the selection list; [node] identifies the element. *)
Record item : Type := {
  node : nat;
  countryId : string;
  countryName : string;
  featureData : feature;
  statsBox : stats_box;
  chartContainer : chart_container
}.

(** *** Map layers *)

(** A [path.country] with its datum and the two classes the handlers set. *)
Record path_el : Type := {
  datum_of : feature;
  revealedClass : bool;
  hoverClass : bool
}.

(** A [path.country-border] with its datum and the two styles that change. *)
Record border_el : Type := {
  border_datum : feature;
  stroke : string;
  stroke_width : string
}.

(** A deferred draw scheduled by [addToSelectionList]: the elements of the
    item it closes over (by node), the country id and the feature. *)
Record job : Type := {
  job_node : nat;
  job_id : string;
  job_feature : feature
}.

(** ** The store: module variables, the document and the task sources *)

Record state : Type := mkState {
  revealedCountries : gset string;
  allTemperatureData : option (gmap string (list jsval));
  screenCoords : list (option point);
  rawCoords : option (list coord);
  timePoints : list string;
  baselineData : gmap string (list jsval);
  isPlaying : bool;
  animationInterval : option nat;
  isAnomalyMode : bool;
  currentColorScale : color_scale;
  timeDisplay : string;
  sliderValue : nat;
  sliderMax : Z;
  controlsReady : bool;
  dataPoints : list circle;
  selectionList : list item;
  legendAnomaly : bool;
  countryPaths : list path_el;
  countryBorders : list border_el;
  intervals : list nat;
  nextHandle : nat;
  timeouts : list job;
  frames : nat;
  nextNode : nat
}.

Definition set_revealedCountries (v : gset string) (st : state) : state :=
  {| revealedCountries := v; allTemperatureData := allTemperatureData st;
     screenCoords := screenCoords st; rawCoords := rawCoords st;
     timePoints := timePoints st; baselineData := baselineData st;
     isPlaying := isPlaying st; animationInterval := animationInterval st;
     isAnomalyMode := isAnomalyMode st;
     currentColorScale := currentColorScale st;
     timeDisplay := timeDisplay st; sliderValue := sliderValue st;
     sliderMax := sliderMax st; controlsReady := controlsReady st;
     dataPoints := dataPoints st; selectionList := selectionList st;
     legendAnomaly := legendAnomaly st; countryPaths := countryPaths st;
     countryBorders := countryBorders st; intervals := intervals st;
     nextHandle := nextHandle st; timeouts := timeouts st;
     frames := frames st; nextNode := nextNode st |}.

Definition set_allTemperatureData (v : option (gmap string (list jsval))) (st : state) : state :=
  {| revealedCountries := revealedCountries st; allTemperatureData := v;
     screenCoords := screenCoords st; rawCoords := rawCoords st;
     timePoints := timePoints st; baselineData := baselineData st;
     isPlaying := isPlaying st; animationInterval := animationInterval st;
     isAnomalyMode := isAnomalyMode st;
     currentColorScale := currentColorScale st;
     timeDisplay := timeDisplay st; sliderValue := sliderValue st;
     sliderMax := sliderMax st; controlsReady := controlsReady st;
     dataPoints := dataPoints st; selectionList := selectionList st;
     legendAnomaly := legendAnomaly st; countryPaths := countryPaths st;
     countryBorders := countryBorders st; intervals := intervals st;
     nextHandle := nextHandle st; timeouts := timeouts st;
     frames := frames st; nextNode := nextNode st |}.

Definition set_screenCoords (v : list (option point)) (st : state) : state :=
  {| revealedCountries := revealedCountries st;
     allTemperatureData := allTemperatureData st; screenCoords := v;
     rawCoords := rawCoords st; timePoints := timePoints st;
     baselineData := baselineData st; isPlaying := isPlaying st;
     animationInterval := animationInterval st;
     isAnomalyMode := isAnomalyMode st;
     currentColorScale := currentColorScale st;
     timeDisplay := timeDisplay st; sliderValue := sliderValue st;
     sliderMax := sliderMax st; controlsReady := controlsReady st;
     dataPoints := dataPoints st; selectionList := selectionList st;
     legendAnomaly := legendAnomaly st; countryPaths := countryPaths st;
     countryBorders := countryBorders st; intervals := intervals st;
     nextHandle := nextHandle st; timeouts := timeouts st;
     frames := frames st; nextNode := nextNode st |}.

Definition set_rawCoords (v : option (list coord)) (st : state) : state :=
  {| revealedCountries := revealedCountries st;
     allTemperatureData := allTemperatureData st;
     screenCoords := screenCoords st; rawCoords := v;
     timePoints := timePoints st; baselineData := baselineData st;
     isPlaying := isPlaying st; animationInterval := animationInterval st;
     isAnomalyMode := isAnomalyMode st;
     currentColorScale := currentColorScale st;
     timeDisplay := timeDisplay st; sliderValue := sliderValue st;
     sliderMax := sliderMax st; controlsReady := controlsReady st;
     dataPoints := dataPoints st; selectionList := selectionList st;
     legendAnomaly := legendAnomaly st; countryPaths := countryPaths st;
     countryBorders := countryBorders st; intervals := intervals st;
     nextHandle := nextHandle st; timeouts := timeouts st;
     frames := frames st; nextNode := nextNode st |}.

Definition set_timePoints (v : list string) (st : state) : state :=
  {| revealedCountries := revealedCountries st;
     allTemperatureData := allTemperatureData st;
     screenCoords := screenCoords st; rawCoords := rawCoords st;
     timePoints := v; baselineData := baselineData st;
     isPlaying := isPlaying st; animationInterval := animationInterval st;
     isAnomalyMode := isAnomalyMode st;
     currentColorScale := currentColorScale st;
     timeDisplay := timeDisplay st; sliderValue := sliderValue st;
     sliderMax := sliderMax st; controlsReady := controlsReady st;
     dataPoints := dataPoints st; selectionList := selectionList st;
     legendAnomaly := legendAnomaly st; countryPaths := countryPaths st;
     countryBorders := countryBorders st; intervals := intervals st;
     nextHandle := nextHandle st; timeouts := timeouts st;
     frames := frames st; nextNode := nextNode st |}.

Definition set_baselineData (v : gmap string (list jsval)) (st : state) : state :=
  {| revealedCountries := revealedCountries st;
     allTemperatureData := allTemperatureData st;
     screenCoords := screenCoords st; rawCoords := rawCoords st;
     timePoints := timePoints st; baselineData := v;
     isPlaying := isPlaying st; animationInterval := animationInterval st;
     isAnomalyMode := isAnomalyMode st;
     currentColorScale := currentColorScale st;
     timeDisplay := timeDisplay st; sliderValue := sliderValue st;
     sliderMax := sliderMax st; controlsReady := controlsReady st;
     dataPoints := dataPoints st; selectionList := selectionList st;
     legendAnomaly := legendAnomaly st; countryPaths := countryPaths st;
     countryBorders := countryBorders st; intervals := intervals st;
     nextHandle := nextHandle st; timeouts := timeouts st;
     frames := frames st; nextNode := nextNode st |}.

Definition set_isPlaying (v : bool) (st : state) : state :=
  {| revealedCountries := revealedCountries st;
     allTemperatureData := allTemperatureData st;
     screenCoords := screenCoords st; rawCoords := rawCoords st;
     timePoints := timePoints st; baselineData := baselineData st;
     isPlaying := v; animationInterval := animationInterval st;
     isAnomalyMode := isAnomalyMode st;
     currentColorScale := currentColorScale st;
     timeDisplay := timeDisplay st; sliderValue := sliderValue st;
     sliderMax := sliderMax st; controlsReady := controlsReady st;
     dataPoints := dataPoints st; selectionList := selectionList st;
     legendAnomaly := legendAnomaly st; countryPaths := countryPaths st;
     countryBorders := countryBorders st; intervals := intervals st;
     nextHandle := nextHandle st; timeouts := timeouts st;
     frames := frames st; nextNode := nextNode st |}.

Definition set_animationInterval (v : option nat) (st : state) : state :=
  {| revealedCountries := revealedCountries st;
     allTemperatureData := allTemperatureData st;
     screenCoords := screenCoords st; rawCoords := rawCoords st;
     timePoints := timePoints st; baselineData := baselineData st;
     isPlaying := isPlaying st; animationInterval := v;
     isAnomalyMode := isAnomalyMode st;
     currentColorScale := currentColorScale st;
     timeDisplay := timeDisplay st; sliderValue := sliderValue st;
     sliderMax := sliderMax st; controlsReady := controlsReady st;
     dataPoints := dataPoints st; selectionList := selectionList st;
     legendAnomaly := legendAnomaly st; countryPaths := countryPaths st;
     countryBorders := countryBorders st; intervals := intervals st;
     nextHandle := nextHandle st; timeouts := timeouts st;
     frames := frames st; nextNode := nextNode st |}.

Definition set_isAnomalyMode (v : bool) (st : state) : state :=
  {| revealedCountries := revealedCountries st;
     allTemperatureData := allTemperatureData st;
     screenCoords := screenCoords st; rawCoords := rawCoords st;
     timePoints := timePoints st; baselineData := baselineData st;
     isPlaying := isPlaying st; animationInterval := animationInterval st;
     isAnomalyMode := v; currentColorScale := currentColorScale st;
     timeDisplay := timeDisplay st; sliderValue := sliderValue st;
     sliderMax := sliderMax st; controlsReady := controlsReady st;
     dataPoints := dataPoints st; selectionList := selectionList st;
     legendAnomaly := legendAnomaly st; countryPaths := countryPaths st;
     countryBorders := countryBorders st; intervals := intervals st;
     nextHandle := nextHandle st; timeouts := timeouts st;
     frames := frames st; nextNode := nextNode st |}.

Definition set_currentColorScale (v : color_scale) (st : state) : state :=
  {| revealedCountries := revealedCountries st;
     allTemperatureData := allTemperatureData st;
     screenCoords := screenCoords st; rawCoords := rawCoords st;
     timePoints := timePoints st; baselineData := baselineData st;
     isPlaying := isPlaying st; animationInterval := animationInterval st;
     isAnomalyMode := isAnomalyMode st; currentColorScale := v;
     timeDisplay := timeDisplay st; sliderValue := sliderValue st;
     sliderMax := sliderMax st; controlsReady := controlsReady st;
     dataPoints := dataPoints st; selectionList := selectionList st;
     legendAnomaly := legendAnomaly st; countryPaths := countryPaths st;
     countryBorders := countryBorders st; intervals := intervals st;
     nextHandle := nextHandle st; timeouts := timeouts st;
     frames := frames st; nextNode := nextNode st |}.

Definition set_timeDisplay (v : string) (st : state) : state :=
  {| revealedCountries := revealedCountries st;
     allTemperatureData := allTemperatureData st;
     screenCoords := screenCoords st; rawCoords := rawCoords st;
     timePoints := timePoints st; baselineData := baselineData st;
     isPlaying := isPlaying st; animationInterval := animationInterval st;
     isAnomalyMode := isAnomalyMode st;
     currentColorScale := currentColorScale st; timeDisplay := v;
     sliderValue := sliderValue st; sliderMax := sliderMax st;
     controlsReady := controlsReady st; dataPoints := dataPoints st;
     selectionList := selectionList st; legendAnomaly := legendAnomaly st;
     countryPaths := countryPaths st; countryBorders := countryBorders st;
     intervals := intervals st; nextHandle := nextHandle st;
     timeouts := timeouts st; frames := frames st; nextNode := nextNode st |}.

Definition set_sliderValue (v : nat) (st : state) : state :=
  {| revealedCountries := revealedCountries st;
     allTemperatureData := allTemperatureData st;
     screenCoords := screenCoords st; rawCoords := rawCoords st;
     timePoints := timePoints st; baselineData := baselineData st;
     isPlaying := isPlaying st; animationInterval := animationInterval st;
     isAnomalyMode := isAnomalyMode st;
     currentColorScale := currentColorScale st;
     timeDisplay := timeDisplay st; sliderValue := v;
     sliderMax := sliderMax st; controlsReady := controlsReady st;
     dataPoints := dataPoints st; selectionList := selectionList st;
     legendAnomaly := legendAnomaly st; countryPaths := countryPaths st;
     countryBorders := countryBorders st; intervals := intervals st;
     nextHandle := nextHandle st; timeouts := timeouts st;
     frames := frames st; nextNode := nextNode st |}.

Definition set_sliderMax (v : Z) (st : state) : state :=
  {| revealedCountries := revealedCountries st;
     allTemperatureData := allTemperatureData st;
     screenCoords := screenCoords st; rawCoords := rawCoords st;
     timePoints := timePoints st; baselineData := baselineData st;
     isPlaying := isPlaying st; animationInterval := animationInterval st;
     isAnomalyMode := isAnomalyMode st;
     currentColorScale := currentColorScale st;
     timeDisplay := timeDisplay st; sliderValue := sliderValue st;
     sliderMax := v; controlsReady := controlsReady st;
     dataPoints := dataPoints st; selectionList := selectionList st;
     legendAnomaly := legendAnomaly st; countryPaths := countryPaths st;
     countryBorders := countryBorders st; intervals := intervals st;
     nextHandle := nextHandle st; timeouts := timeouts st;
     frames := frames st; nextNode := nextNode st |}.

Definition set_controlsReady (v : bool) (st : state) : state :=
  {| revealedCountries := revealedCountries st;
     allTemperatureData := allTemperatureData st;
     screenCoords := screenCoords st; rawCoords := rawCoords st;
     timePoints := timePoints st; baselineData := baselineData st;
     isPlaying := isPlaying st; animationInterval := animationInterval st;
     isAnomalyMode := isAnomalyMode st;
     currentColorScale := currentColorScale st;
     timeDisplay := timeDisplay st; sliderValue := sliderValue st;
     sliderMax := sliderMax st; controlsReady := v;
     dataPoints := dataPoints st; selectionList := selectionList st;
     legendAnomaly := legendAnomaly st; countryPaths := countryPaths st;
     countryBorders := countryBorders st; intervals := intervals st;
     nextHandle := nextHandle st; timeouts := timeouts st;
     frames := frames st; nextNode := nextNode st |}.

Definition set_dataPoints (v : list circle) (st : state) : state :=
  {| revealedCountries := revealedCountries st;
     allTemperatureData := allTemperatureData st;
     screenCoords := screenCoords st; rawCoords := rawCoords st;
     timePoints := timePoints st; baselineData := baselineData st;
     isPlaying := isPlaying st; animationInterval := animationInterval st;
     isAnomalyMode := isAnomalyMode st;
     currentColorScale := currentColorScale st;
     timeDisplay := timeDisplay st; sliderValue := sliderValue st;
     sliderMax := sliderMax st; controlsReady := controlsReady st;
     dataPoints := v; selectionList := selectionList st;
     legendAnomaly := legendAnomaly st; countryPaths := countryPaths st;
     countryBorders := countryBorders st; intervals := intervals st;
     nextHandle := nextHandle st; timeouts := timeouts st;
     frames := frames st; nextNode := nextNode st |}.

Definition set_selectionList (v : list item) (st : state) : state :=
  {| revealedCountries := revealedCountries st;
     allTemperatureData := allTemperatureData st;
     screenCoords := screenCoords st; rawCoords := rawCoords st;
     timePoints := timePoints st; baselineData := baselineData st;
     isPlaying := isPlaying st; animationInterval := animationInterval st;
     isAnomalyMode := isAnomalyMode st;
     currentColorScale := currentColorScale st;
     timeDisplay := timeDisplay st; sliderValue := sliderValue st;
     sliderMax := sliderMax st; controlsReady := controlsReady st;
     dataPoints := dataPoints st; selectionList := v;
     legendAnomaly := legendAnomaly st; countryPaths := countryPaths st;
     countryBorders := countryBorders st; intervals := intervals st;
     nextHandle := nextHandle st; timeouts := timeouts st;
     frames := frames st; nextNode := nextNode st |}.

Definition set_legendAnomaly (v : bool) (st : state) : state :=
  {| revealedCountries := revealedCountries st;
     allTemperatureData := allTemperatureData st;
     screenCoords := screenCoords st; rawCoords := rawCoords st;
     timePoints := timePoints st; baselineData := baselineData st;
     isPlaying := isPlaying st; animationInterval := animationInterval st;
     isAnomalyMode := isAnomalyMode st;
     currentColorScale := currentColorScale st;
     timeDisplay := timeDisplay st; sliderValue := sliderValue st;
     sliderMax := sliderMax st; controlsReady := controlsReady st;
     dataPoints := dataPoints st; selectionList := selectionList st;
     legendAnomaly := v; countryPaths := countryPaths st;
     countryBorders := countryBorders st; intervals := intervals st;
     nextHandle := nextHandle st; timeouts := timeouts st;
     frames := frames st; nextNode := nextNode st |}.

Definition set_countryPaths (v : list path_el) (st : state) : state :=
  {| revealedCountries := revealedCountries st;
     allTemperatureData := allTemperatureData st;
     screenCoords := screenCoords st; rawCoords := rawCoords st;
     timePoints := timePoints st; baselineData := baselineData st;
     isPlaying := isPlaying st; animationInterval := animationInterval st;
     isAnomalyMode := isAnomalyMode st;
     currentColorScale := currentColorScale st;
     timeDisplay := timeDisplay st; sliderValue := sliderValue st;
     sliderMax := sliderMax st; controlsReady := controlsReady st;
     dataPoints := dataPoints st; selectionList := selectionList st;
     legendAnomaly := legendAnomaly st; countryPaths := v;
     countryBorders := countryBorders st; intervals := intervals st;
     nextHandle := nextHandle st; timeouts := timeouts st;
     frames := frames st; nextNode := nextNode st |}.

Definition set_countryBorders (v : list border_el) (st : state) : state :=
  {| revealedCountries := revealedCountries st;
     allTemperatureData := allTemperatureData st;
     screenCoords := screenCoords st; rawCoords := rawCoords st;
     timePoints := timePoints st; baselineData := baselineData st;
     isPlaying := isPlaying st; animationInterval := animationInterval st;
     isAnomalyMode := isAnomalyMode st;
     currentColorScale := currentColorScale st;
     timeDisplay := timeDisplay st; sliderValue := sliderValue st;
     sliderMax := sliderMax st; controlsReady := controlsReady st;
     dataPoints := dataPoints st; selectionList := selectionList st;
     legendAnomaly := legendAnomaly st; countryPaths := countryPaths st;
     countryBorders := v; intervals := intervals st;
     nextHandle := nextHandle st; timeouts := timeouts st;
     frames := frames st; nextNode := nextNode st |}.

Definition set_intervals (v : list nat) (st : state) : state :=
  {| revealedCountries := revealedCountries st;
     allTemperatureData := allTemperatureData st;
     screenCoords := screenCoords st; rawCoords := rawCoords st;
     timePoints := timePoints st; baselineData := baselineData st;
     isPlaying := isPlaying st; animationInterval := animationInterval st;
     isAnomalyMode := isAnomalyMode st;
     currentColorScale := currentColorScale st;
     timeDisplay := timeDisplay st; sliderValue := sliderValue st;
     sliderMax := sliderMax st; controlsReady := controlsReady st;
     dataPoints := dataPoints st; selectionList := selectionList st;
     legendAnomaly := legendAnomaly st; countryPaths := countryPaths st;
     countryBorders := countryBorders st; intervals := v;
     nextHandle := nextHandle st; timeouts := timeouts st;
     frames := frames st; nextNode := nextNode st |}.

Definition set_nextHandle (v : nat) (st : state) : state :=
  {| revealedCountries := revealedCountries st;
     allTemperatureData := allTemperatureData st;
     screenCoords := screenCoords st; rawCoords := rawCoords st;
     timePoints := timePoints st; baselineData := baselineData st;
     isPlaying := isPlaying st; animationInterval := animationInterval st;
     isAnomalyMode := isAnomalyMode st;
     currentColorScale := currentColorScale st;
     timeDisplay := timeDisplay st; sliderValue := sliderValue st;
     sliderMax := sliderMax st; controlsReady := controlsReady st;
     dataPoints := dataPoints st; selectionList := selectionList st;
     legendAnomaly := legendAnomaly st; countryPaths := countryPaths st;
     countryBorders := countryBorders st; intervals := intervals st;
     nextHandle := v; timeouts := timeouts st; frames := frames st;
     nextNode := nextNode st |}.

Definition set_timeouts (v : list job) (st : state) : state :=
  {| revealedCountries := revealedCountries st;
     allTemperatureData := allTemperatureData st;
     screenCoords := screenCoords st; rawCoords := rawCoords st;
     timePoints := timePoints st; baselineData := baselineData st;
     isPlaying := isPlaying st; animationInterval := animationInterval st;
     isAnomalyMode := isAnomalyMode st;
     currentColorScale := currentColorScale st;
     timeDisplay := timeDisplay st; sliderValue := sliderValue st;
     sliderMax := sliderMax st; controlsReady := controlsReady st;
     dataPoints := dataPoints st; selectionList := selectionList st;
     legendAnomaly := legendAnomaly st; countryPaths := countryPaths st;
     countryBorders := countryBorders st; intervals := intervals st;
     nextHandle := nextHandle st; timeouts := v; frames := frames st;
     nextNode := nextNode st |}.

Definition set_frames (v : nat) (st : state) : state :=
  {| revealedCountries := revealedCountries st;
     allTemperatureData := allTemperatureData st;
     screenCoords := screenCoords st; rawCoords := rawCoords st;
     timePoints := timePoints st; baselineData := baselineData st;
     isPlaying := isPlaying st; animationInterval := animationInterval st;
     isAnomalyMode := isAnomalyMode st;
     currentColorScale := currentColorScale st;
     timeDisplay := timeDisplay st; sliderValue := sliderValue st;
     sliderMax := sliderMax st; controlsReady := controlsReady st;
     dataPoints := dataPoints st; selectionList := selectionList st;
     legendAnomaly := legendAnomaly st; countryPaths := countryPaths st;
     countryBorders := countryBorders st; intervals := intervals st;
     nextHandle := nextHandle st; timeouts := timeouts st; frames := v;
     nextNode := nextNode st |}.

Definition set_nextNode (v : nat) (st : state) : state :=
  {| revealedCountries := revealedCountries st;
     allTemperatureData := allTemperatureData st;
     screenCoords := screenCoords st; rawCoords := rawCoords st;
     timePoints := timePoints st; baselineData := baselineData st;
     isPlaying := isPlaying st; animationInterval := animationInterval st;
     isAnomalyMode := isAnomalyMode st;
     currentColorScale := currentColorScale st;
     timeDisplay := timeDisplay st; sliderValue := sliderValue st;
     sliderMax := sliderMax st; controlsReady := controlsReady st;
     dataPoints := dataPoints st; selectionList := selectionList st;
     legendAnomaly := legendAnomaly st; countryPaths := countryPaths st;
     countryBorders := countryBorders st; intervals := intervals st;
     nextHandle := nextHandle st; timeouts := timeouts st;
     frames := frames st; nextNode := v |}.

(** ** Decidable equality, for evaluating the model on concrete stores *)

#[global] Instance number_eq_dec : EqDecision number.
Proof. solve_decision. Defined.

#[global] Instance jsval_eq_dec : EqDecision jsval.
Proof. solve_decision. Defined.

#[global] Instance point_eq_dec : EqDecision point.
Proof. solve_decision. Defined.

#[global] Instance geometry_eq_dec : EqDecision geometry.
Proof. solve_decision. Defined.

#[global] Instance feature_eq_dec : EqDecision feature.
Proof. solve_decision. Defined.

#[global] Instance entry_eq_dec : EqDecision entry.
Proof. solve_decision. Defined.

#[global] Instance color_scale_eq_dec : EqDecision color_scale.
Proof. solve_decision. Defined.

#[global] Instance datum_eq_dec : EqDecision datum.
Proof. solve_decision. Defined.

#[global] Instance circle_eq_dec : EqDecision circle.
Proof. solve_decision. Defined.

#[global] Instance display_eq_dec : EqDecision display.
Proof. solve_decision. Defined.

#[global] Instance stats_box_eq_dec : EqDecision stats_box.
Proof. solve_decision. Defined.

#[global] Instance chart_eq_dec : EqDecision chart.
Proof. solve_decision. Defined.

#[global] Instance chart_child_eq_dec : EqDecision chart_child.
Proof. solve_decision. Defined.

#[global] Instance chart_container_eq_dec : EqDecision chart_container.
Proof. solve_decision. Defined.

#[global] Instance item_eq_dec : EqDecision item.
Proof. solve_decision. Defined.

#[global] Instance path_el_eq_dec : EqDecision path_el.
Proof. solve_decision. Defined.

#[global] Instance border_el_eq_dec : EqDecision border_el.
Proof. solve_decision. Defined.

#[global] Instance job_eq_dec : EqDecision job.
Proof. solve_decision. Defined.

#[global] Instance state_eq_dec : EqDecision state.
Proof. solve_decision. Defined.

#[global] Instance result_eq_dec {A} `{EqDecision A} : EqDecision (result A).
Proof. solve_decision. Defined.

Inductive completion : Type :=
  | Normal
  | Thrown.

#[global] Instance completion_eq_dec : EqDecision completion.
Proof. solve_decision. Defined.

(** Run [k] on the store reached by a step that completed normally. *)
Definition and_then (r : state * completion)
    (k : state → state * completion) : state * completion :=
  match r with
  | (st, Normal) => k st
  | (st, Thrown) => (st, Thrown)
  end.

Notation "r ;;; k" := (and_then r k) (at level 61, left associativity).

(** ** Helpers of the script *)

(** The operand of [||] when it is a truthy string. *)
Definition truthy (o : option string) : option string :=
  match o with
  | Some s => if decide (s = "") then None else Some s
  | None => None
  end.

Definition getCountryId (feature : feature) : string :=
  match truthy (iso_a3 feature) with
  | Some s => s
  | None =>
      match truthy (adm0_a3 feature) with
      | Some s => s
      | None =>
          match truthy (fid feature) with
          | Some s => s
          | None => default "unknown" (truthy (name feature))
          end
      end
  end.

Definition getCountryName (feature : feature) : string :=
  default "Unknown" (truthy (name feature)).

(** [left-fold] of a step that may raise. *)
Fixpoint rfold_left {A B} (f : A → B → result A) (l : list B) (a : A)
    : result A :=
  match l with
  | [] => Ok a
  | b :: l' => rbind (f a b) (rfold_left f l')
  end.

(** ** Reading the baseline object *)

(** The property names of [Object.prototype]. *)
Definition object_prototype_names : list string :=
  ["constructor"; "__defineGetter__"; "__defineSetter__"; "hasOwnProperty";
   "__lookupGetter__"; "__lookupSetter__"; "isPrototypeOf";
   "propertyIsEnumerable"; "toString"; "valueOf"; "__proto__";
   "toLocaleString"].

(** The string-named properties of [Array.prototype] (ECMAScript 2023). *)
Definition array_prototype_names : list string :=
  ["at"; "concat"; "constructor"; "copyWithin"; "entries"; "every"; "fill";
   "filter"; "find"; "findIndex"; "findLast"; "findLastIndex"; "flat";
   "flatMap"; "forEach"; "includes"; "indexOf"; "join"; "keys";
   "lastIndexOf"; "map"; "pop"; "push"; "reduce"; "reduceRight"; "reverse";
   "shift"; "slice"; "some"; "sort"; "splice"; "toLocaleString";
   "toReversed"; "toSorted"; "toSpliced"; "toString"; "unshift"; "values";
   "with"].

(** Whether a number is truthy: neither a zero nor NaN. *)
Definition num_truthy (a : number) : bool :=
  match a with
  | S754_zero _ | NaN => false
  | _ => true
  end.

Definition digit_of (c : ascii) : option nat :=
  let n := nat_of_ascii c in
  if (48 <=? n) && (n <=? 57) then Some (n - 48) else None.

Fixpoint digits_value (s : string) (acc : nat) : option nat :=
  match s with
  | EmptyString => Some acc
  | String c rest =>
      match digit_of c with
      | Some d => digits_value rest (10 * acc + d)
      | None => None
      end
  end.

(** The array index that a property name denotes: the name is the decimal
    numeral of the index, without leading zeros. *)
Definition array_index (k : string) : option nat :=
  match k with
  | EmptyString => None
  | String c rest =>
      if (nat_of_ascii c =? 48) && negb (String.eqb rest EmptyString)
      then None
      else digits_value k 0
  end.

(** What [proto[k]] gives to a reader that only tests the value and then
    indexes it, for an array [proto]: nothing when the value is falsy or
    there is none, and otherwise an array without elements, which stands for
    a truthy value that has no element at any index (a number, a method). *)
Definition inherited_from_array (proto : list jsval) (k : string)
    : option (list jsval) :=
  match array_index k with
  | Some i =>
      match proto !! i with
      | Some (JNum a) => if num_truthy a then Some [] else None
      | _ => None
      end
  | None =>
      if String.eqb k "length"
      then match proto with
           | [] => None
           | _ :: _ => Some []
           end
      else if bool_decide
                (k ∈ array_prototype_names ++ object_prototype_names)
      then Some []
      else None
  end.

(** [baselineData[k]].  The object starts as [{}] and gets arrays assigned:
    an own property is found first.  An assignment to the name ["__proto__"]
    makes the array the prototype of the object instead, which is what the
    entry of the map under that name stands for, and other names are then
    looked up through that array; without it they are looked up in
    [Object.prototype].  An inherited value is given as described with
    [inherited_from_array]. *)
Definition baseline_get (o : gmap string (list jsval)) (k : string)
    : option (list jsval) :=
  match o !! k with
  | Some a => Some a
  | None =>
      match o !! "__proto__" with
      | Some proto => inherited_from_array proto k
      | None =>
          if bool_decide (k ∈ object_prototype_names) then Some [] else None
      end
  end.

(** ** Selectors *)

(** The characters that a quoted string of a selector cannot hold as they
    are: NUL, line feed, form feed, carriage return, the double quote and
    the backslash. *)
Definition selector_special (c : ascii) : bool :=
  bool_decide (nat_of_ascii c ∈ [0; 10; 12; 13; 34; 92]).

(** Whether the text [li[data-country-id="<id>"]] is the attribute selector
    for the value [id]: no character of [id] ends or escapes the quoted
    string. *)
Fixpoint selector_plain (id : string) : bool :=
  match id with
  | EmptyString => true
  | String c rest => negb (selector_special c) && selector_plain rest
  end.

Inductive query_result : Type :=
  | QueryRaises
  | QueryNone
  | QueryItem (k : nat).

Section Program.

(** The d3 primitives: the configured [projection], [d3.geoContains] and the
    parser [d3.timeParse("%Y-%m-%d %H:%M:%S")], which gives [null] on a string
    it cannot parse. *)
Variable projection : coord → option (number * number).
Variable geoContains : feature → coord → bool.
Variable dateParser : string → option Date.

(** What [document.querySelector] finds for the selector that
    [removeFromSelectionList] builds from an identifier it inserts as it is,
    when the selector is not a plain attribute selector (see
    [selector_plain]): the call raises a SyntaxError, or finds no element of
    the list, or finds the element at a position of the list.  The elements
    of the page outside the list, which such a selector could name as well,
    are not represented. *)
Variable querySelector : string → list item → query_result.

(** *** calculateCountryTrend *)

(** The loop over [rawCoords] from index [i] on: the indices whose coordinate
    the feature contains. *)
Fixpoint indices_from (feature : feature) (i : nat) (coords : list coord)
    : list nat :=
  match coords with
  | [] => []
  | coord :: rest =>
      if geoContains feature coord
      then i :: indices_from feature (S i) rest
      else indices_from feature (S i) rest
  end.

(** The value a contained point contributes: [temps[idx]], less the baseline
    of the point when anomaly mode has a baseline array. *)
Definition point_value (anomaly : bool) (temps : list jsval)
    (baselineTemps : option (list jsval)) (idx : nat) : jsval :=
  let val := arr_get temps idx in
  match anomaly, baselineTemps with
  | true, Some base =>
      JNum (num_sub (ToNumber val) (ToNumber (arr_get base idx)))
  | _, _ => val
  end.

(** The body of [indicesInCountry.forEach]: [temps[idx]] raises when [temps]
    is undefined. *)
Definition add_reading (anomaly : bool)
    (temps baselineTemps : option (list jsval))
    (acc : number * nat) (idx : nat) : result (number * nat) :=
  match temps with
  | None => TypeError
  | Some temps =>
      let val := point_value anomaly temps baselineTemps idx in
      Ok (num_add (fst acc) (ToNumber val), S (snd acc))
  end.

(** The baseline array a date is compared with: [baselineData[month]] in
    anomaly mode, [null] otherwise. *)
Definition baseline_for (st : state) (dateStr : string)
    : option (list jsval) :=
  if isAnomalyMode st
  then baseline_get (baselineData st) (prop_key (month_of dateStr))
  else None.

(** The callback of [timePoints.map]. *)
Definition trend_entry (st : state) (indicesInCountry : list nat)
    (dateStr : string) : result entry :=
  match allTemperatureData st with
  | None => TypeError
  | Some data =>
      let temps := data !! dateStr in
      let baselineTemps := baseline_for st dateStr in
      rbind
        (rfold_left (add_reading (isAnomalyMode st) temps baselineTemps)
           indicesInCountry (num_zero, 0))
        (λ acc,
           let sum := fst acc in
           let count := snd acc in
           Ok {| date := dateParser dateStr;
                 val := if bool_decide (0 < count)
                        then num_div sum (num_of_nat count)
                        else num_zero;
                 rawDate := dateStr |})
  end.

Definition calculateCountryTrend (st : state) (feature : feature)
    : result (option (list entry)) :=
  match rawCoords st with
  | None | Some [] => Ok None
  | Some coords =>
      let indicesInCountry := indices_from feature 0 coords in
      match indicesInCountry with
      | [] => Ok None
      | _ =>
          rbind (rmap_list (trend_entry st indicesInCountry) (timePoints st))
            (λ series, Ok (Some series))
      end
  end.

(** *** renderHeatmap *)

(** The value shown for the point [i] of a frame: [currentTemps[i]]; in
    anomaly mode with a baseline array, its difference to the baseline of the
    point, or zero when the baseline has no value there. *)
Definition frame_value (anomaly : bool) (currentTemps : list jsval)
    (baselineTemps : option (list jsval)) (i : nat) : jsval :=
  let val := arr_get currentTemps i in
  match anomaly, baselineTemps with
  | true, Some base =>
      match arr_get base i with
      | JNum baseVal => JNum (num_sub (ToNumber val) baseVal)
      | JUndefined | JNull => JNum num_zero
      end
  | _, _ => val
  end.

(** The loop that assembles [renderData], from index [i] on; a point without
    a screen position is passed over, and [currentTemps[i]] raises when
    [currentTemps] is undefined. *)
Fixpoint assemble (anomaly : bool)
    (currentTemps baselineTemps : option (list jsval))
    (i : nat) (coords : list (option point)) : result (list datum) :=
  match coords with
  | [] => Ok []
  | None :: rest => assemble anomaly currentTemps baselineTemps (S i) rest
  | Some coord :: rest =>
      match currentTemps with
      | None => TypeError
      | Some temps =>
          let val := frame_value anomaly temps baselineTemps i in
          rbind (assemble anomaly currentTemps baselineTemps (S i) rest)
            (λ renderData,
               Ok ({| dx := x coord; dy := y coord; dval := val |}
                     :: renderData))
      end
  end.

(** The marker of the first svg of a container is moved to [currentPoint];
    an svg without a drawing has no marker. *)
Fixpoint sync_first_svg (anomaly : bool) (currentPoint : entry)
    (cs : list chart_child) : list chart_child :=
  match cs with
  | [] => []
  | Svg (Some c) :: rest =>
      Svg (Some {| line := line c; lineAnomaly := lineAnomaly c;
                   marker := Some (currentPoint, anomaly) |}) :: rest
  | Svg None :: rest => Svg None :: rest
  | other :: rest => other :: sync_first_svg anomaly currentPoint rest
  end.

Definition sync_container (anomaly : bool) (timeIndex : nat)
    (container : chart_container) : chart_container :=
  match chartMeta container with
  | None => container
  | Some data =>
      match data !! timeIndex with
      | None => container
      | Some currentPoint =>
          {| children :=
               sync_first_svg anomaly currentPoint (children container);
             chartMeta := chartMeta container |}
      end
  end.

Definition set_chartContainer (c : chart_container) (it : item) : item :=
  {| node := node it; countryId := countryId it;
     countryName := countryName it; featureData := featureData it;
     statsBox := statsBox it; chartContainer := c |}.

Definition set_statsBox (b : stats_box) (it : item) : item :=
  {| node := node it; countryId := countryId it;
     countryName := countryName it; featureData := featureData it;
     statsBox := b; chartContainer := chartContainer it |}.

Definition updateChartsSync (timeIndex : nat) (st : state) : state :=
  set_selectionList
    (map (λ it, set_chartContainer
                  (sync_container (isAnomalyMode st) timeIndex
                     (chartContainer it)) it)
       (selectionList st)) st.

Definition circle_of (scale : color_scale) (d : datum) : circle :=
  {| cx := dx d; cy := dy d; fill := (scale, dval d) |}.

Definition renderHeatmap (timeIndex : nat) (st : state)
    : state * completion :=
  match timePoints st with
  | [] => (st, Normal)
  | _ =>
      let currentTime := timePoints st !! timeIndex in
      let st := set_timeDisplay (default "" currentTime) st in
      match allTemperatureData st with
      | None => (st, Thrown)
      | Some data =>
          let currentTemps := data !! prop_key currentTime in
          let baselineTemps :=
            if isAnomalyMode st
            then match currentTime with
                 | None => TypeError
                 | Some t =>
                     Ok (baseline_get (baselineData st)
                           (prop_key (month_of t)))
                 end
            else Ok None in
          match baselineTemps with
          | TypeError => (st, Thrown)
          | Ok baselineTemps =>
              match assemble (isAnomalyMode st) currentTemps baselineTemps
                      0 (screenCoords st) with
              | TypeError => (st, Thrown)
              | Ok renderData =>
                  let st :=
                    set_dataPoints
                      (map (circle_of (currentColorScale st)) renderData)
                      st in
                  (updateChartsSync timeIndex st, Normal)
              end
          end
      end
  end.

(** *** Data loading *)

(** The parsed JSON payload: [coords] and the readings under [temperatures]
    or [data]; a missing field is [None]. *)
Record parsed : Type := {
  coords : option (list coord);
  temperatures : option (gmap string (list jsval));
  data : option (gmap string (list jsval))
}.

(** What the download gives: no usable payload (network error, bad archive,
    malformed JSON) or the parsed payload. *)
Inductive bundle : Type :=
  | Unavailable
  | Payload (parsedData : parsed).

Definition project (d : coord) : option point :=
  match projection d with
  | Some p => Some {| x := fst p; y := snd p |}
  | None => None
  end.

(** The body of [timePoints.forEach] that extracts the baseline of 2015. *)
Definition baseline_step (allData : gmap string (list jsval))
    (baseline : gmap string (list jsval)) (dateStr : string)
    : gmap string (list jsval) :=
  if startsWith dateStr "2015" then
    match split_on dash dateStr with
    | _ :: month :: _ =>
        match allData !! dateStr with
        | Some temps => <[month := temps]> baseline
        | None => baseline
        end
    | _ => baseline
    end
  else baseline.

Definition extract_baseline (allData : gmap string (list jsval))
    (dates : list string) (baseline : gmap string (list jsval))
    : gmap string (list jsval) :=
  fold_left (baseline_step allData) dates baseline.

Definition setupControls (st : state) : state :=
  let st := set_sliderMax (Z.of_nat (length (timePoints st)) - 1)%Z st in
  let st := set_sliderValue 0 st in
  set_controlsReady true st.

(** [parsedData.temperatures || parsedData.data] *)
Definition temperature_source (parsedData : parsed)
    : option (gmap string (list jsval)) :=
  match temperatures parsedData with
  | Some t => Some t
  | None => data parsedData
  end.

(** The [try] block of [loadTemperatureData] once the payload is parsed. *)
Definition load_body (parsedData : parsed) (st : state)
    : state * completion :=
  let st := set_timeDisplay "Processing..." st in
  let st := set_rawCoords (coords parsedData) st in
  match rawCoords st with
  | None => (st, Thrown)
  | Some raw =>
      let st := set_screenCoords (map project raw) st in
      let st := set_allTemperatureData (temperature_source parsedData) st in
      match allTemperatureData st with
      | None => (st, Thrown)
      | Some allData =>
          let st := set_timePoints (sorted_keys allData) st in
          let st :=
            set_baselineData
              (extract_baseline allData (timePoints st) (baselineData st))
              st in
          let st := setupControls st in
          renderHeatmap 0 st
      end
  end.

Definition loadTemperatureData (b : bundle) (st : state) : state :=
  let st := set_timeDisplay "Downloading data..." st in
  match b with
  | Unavailable => set_timeDisplay "Data Load Failed" st
  | Payload parsedData =>
      match load_body parsedData st with
      | (st', Normal) => st'
      | (st', Thrown) => set_timeDisplay "Data Load Failed" st'
      end
  end.

(** *** Sidebar *)

(** Whether writing the figures of a non-empty series raises: on an element
    whose date is [null] ([d.date.getMonth()]) and on a series without any
    number ([d3.mean] is then undefined and [avg.toFixed] raises). *)
Definition stats_raise (series : list entry) : bool :=
  negb (forallb (λ d, bool_decide (is_Some (date d))) series
        && existsb (λ d, negb (is_NaN (val d))) series).

(** [updateCountryStats]: hides the box when there is no series; otherwise
    shows it and writes the figures. *)
Definition updateCountryStats (anomaly : bool) (box : stats_box)
    (trendData : option (list entry)) : stats_box * completion :=
  match trendData with
  | None | Some [] =>
      ({| statsDisplay := DisplayNone; statsShown := statsShown box |},
       Normal)
  | Some series =>
      if stats_raise series
      then ({| statsDisplay := DisplayFlex; statsShown := statsShown box |},
            Thrown)
      else ({| statsDisplay := DisplayFlex;
               statsShown := Some (series, anomaly) |}, Normal)
  end.

(** [drawDetailedChart]: appends an svg, then computes the scales with
    [d3.extent(data, ...)], which raises on [null] (it iterates [data]);
    otherwise draws the line and a hidden marker and records [chartMeta]. *)
Definition drawDetailedChart (anomaly : bool) (container : chart_container)
    (trendData : option (list entry)) : chart_container * completion :=
  match trendData with
  | None =>
      ({| children := children container ++ [Svg None];
          chartMeta := chartMeta container |}, Thrown)
  | Some series =>
      ({| children :=
            children container
            ++ [Svg (Some {| line := series; lineAnomaly := anomaly;
                             marker := None |})];
          chartMeta := Some series |}, Normal)
  end.

Definition clear_chart (container : chart_container) : chart_container :=
  {| children := []; chartMeta := chartMeta container |}.

(** The body of [listItems.forEach] in [toggleAnomalyMode]. *)
Definition refresh_item (st : state) (it : item) : item * completion :=
  let it := set_chartContainer (clear_chart (chartContainer it)) it in
  match calculateCountryTrend st (featureData it) with
  | TypeError => (it, Thrown)
  | Ok trendData =>
      match updateCountryStats (isAnomalyMode st) (statsBox it) trendData with
      | (box, Thrown) => (set_statsBox box it, Thrown)
      | (box, Normal) =>
          let it := set_statsBox box it in
          let (container, c) :=
            drawDetailedChart (isAnomalyMode st) (chartContainer it)
              trendData in
          (set_chartContainer container it, c)
      end
  end.

(** [listItems.forEach]: an exception leaves the remaining items as they
    are. *)
Fixpoint refresh_items (st : state) (items : list item)
    : list item * completion :=
  match items with
  | [] => ([], Normal)
  | it :: rest =>
      match refresh_item st it with
      | (it', Thrown) => (it' :: rest, Thrown)
      | (it', Normal) =>
          let (rest', c) := refresh_items st rest in
          (it' :: rest', c)
      end
  end.

Definition updateLegend (st : state) : state :=
  set_legendAnomaly (isAnomalyMode st) st.

Definition toggleAnomalyMode (enabled : bool) (st : state)
    : state * completion :=
  let st := set_isAnomalyMode enabled st in
  let st :=
    set_currentColorScale
      (if enabled then anomalyColorScale else absoluteColorScale) st in
  let st := updateLegend st in
  let (items, c) := refresh_items st (selectionList st) in
  (set_selectionList items st, c) ;;; (λ st,
  renderHeatmap (sliderValue st) st).

(** *** Selection of countries *)

Definition initial_item (n : nat) (id name : string) (feature : feature)
    : item :=
  {| node := n; countryId := id; countryName := name;
     featureData := feature;
     statsBox := {| statsDisplay := DisplayDefault; statsShown := None |};
     chartContainer := {| children := [LoadingText]; chartMeta := None |} |}.

(** Appends the cloned template item and schedules its deferred draw. *)
Definition addToSelectionList (id name : string) (feature : feature)
    (st : state) : state :=
  let n := nextNode st in
  let st := set_nextNode (S n) st in
  let st :=
    set_selectionList (selectionList st ++ [initial_item n id name feature])
      st in
  set_timeouts
    (timeouts st ++ [{| job_node := n; job_id := id;
                        job_feature := feature |}]) st.

(** Removes the first [li] whose [data-country-id] is [id]. *)
Fixpoint remove_first (id : string) (items : list item) : list item :=
  match items with
  | [] => []
  | it :: rest =>
      if decide (countryId it = id) then rest
      else it :: remove_first id rest
  end.

(** [removeFromSelectionList]: the selector [li[data-country-id="<id>"]] is
    built from the identifier without escaping.  For a plain identifier it
    selects the first item with that identifier; otherwise the outcome is
    that of [querySelector], and a SyntaxError ends the function. *)
Definition removeFromSelectionList (id : string) (st : state)
    : state * completion :=
  if selector_plain id
  then (set_selectionList (remove_first id (selectionList st)) st, Normal)
  else match querySelector id (selectionList st) with
       | QueryRaises => (st, Thrown)
       | QueryNone => (st, Normal)
       | QueryItem k =>
           (set_selectionList (delete k (selectionList st)) st, Normal)
       end.

Definition style_border (isRevealed : bool) (b : border_el) : border_el :=
  {| border_datum := border_datum b;
     stroke := if isRevealed then "#3b82f6" else "#94a3b8";
     stroke_width := if isRevealed then "1.2px" else "0.5px" |}.

Definition updateBorderStyle (id : string) (isRevealed : bool) (st : state)
    : state :=
  set_countryBorders
    (map (λ b, if decide (getCountryId (border_datum b) = id)
               then style_border isRevealed b else b)
       (countryBorders st)) st.

Definition set_revealedClass (v : bool) (p : path_el) : path_el :=
  {| datum_of := datum_of p; revealedClass := v; hoverClass := hoverClass p |}.

Definition set_hoverClass (v : bool) (p : path_el) : path_el :=
  {| datum_of := datum_of p; revealedClass := revealedClass p;
     hoverClass := v |}.

(** Applies [f] to the element [event.target]. *)
Definition on_target (target : nat) (f : path_el → path_el) (st : state)
    : state :=
  set_countryPaths (alter f target (countryPaths st)) st.

(** [handleClick(event, feature)], where [target] is the position of the
    clicked [path.country] and [feature] its datum; the store when the
    listener ends, which is before the border is restyled when the removal
    from the list raises. *)
Definition handleClick (target : nat) (st : state) : state :=
  match countryPaths st !! target with
  | None => st
  | Some p =>
      let feature := datum_of p in
      let id := getCountryId feature in
      let countryName := getCountryName feature in
      let r :=
        if bool_decide (id ∈ revealedCountries st) then
          let st :=
            set_revealedCountries (revealedCountries st ∖ {[id]}) st in
          let st := on_target target (set_revealedClass false) st in
          removeFromSelectionList id st
        else
          let st :=
            set_revealedCountries ({[id]} ∪ revealedCountries st) st in
          let st := on_target target (set_revealedClass true) st in
          (addToSelectionList id countryName feature st, Normal) in
      fst (r ;;; (λ st,
        (updateBorderStyle id (bool_decide (id ∈ revealedCountries st)) st,
         Normal)))
  end.

Definition handleMouseEnter (target : nat) (st : state) : state :=
  match countryPaths st !! target with
  | None => st
  | Some p =>
      if bool_decide (getCountryId (datum_of p) ∈ revealedCountries st)
      then st
      else on_target target (set_hoverClass true) st
  end.

Definition handleMouseLeave (target : nat) (st : state) : state :=
  match countryPaths st !! target with
  | None => st
  | Some p =>
      if bool_decide (getCountryId (datum_of p) ∈ revealedCountries st)
      then st
      else on_target target (set_hoverClass false) st
  end.

(** [window.removeCountry]; the store when the listener ends. *)
Definition removeCountry (id : string) (st : state) : state :=
  let st := set_revealedCountries (revealedCountries st ∖ {[id]}) st in
  let st :=
    set_countryPaths
      (map (λ p, if decide (getCountryId (datum_of p) = id)
                 then set_hoverClass false (set_revealedClass false p)
                 else p)
         (countryPaths st)) st in
  let st := updateBorderStyle id false st in
  fst (removeFromSelectionList id st).

(** The callback of [setTimeout] in [addToSelectionList], on the item whose
    elements it closes over. *)
Definition draw_item (anomaly : bool) (trendData : option (list entry))
    (it : item) : item * completion :=
  let it := set_chartContainer (clear_chart (chartContainer it)) it in
  match trendData with
  | Some (_ :: _) =>
      match updateCountryStats anomaly (statsBox it) trendData with
      | (box, Thrown) => (set_statsBox box it, Thrown)
      | (box, Normal) =>
          let it := set_statsBox box it in
          let (container, c) :=
            drawDetailedChart anomaly (chartContainer it) trendData in
          (set_chartContainer container it, c)
      end
  | _ =>
      let it :=
        set_chartContainer
          {| children := [NoDataText];
             chartMeta := chartMeta (chartContainer it) |} it in
      (set_statsBox {| statsDisplay := DisplayNone;
                       statsShown := statsShown (statsBox it) |} it,
       Normal)
  end.

(** The deferred draw of job [j].  The elements of an item that has left the
    list are not represented; the callback still runs to its end. *)
Definition deferred_draw (j : job) (st : state) : state * completion :=
  match calculateCountryTrend st (job_feature j) with
  | TypeError => (st, Thrown)
  | Ok trendData =>
      let st :=
        set_selectionList
          (map (λ it, if decide (node it = job_node j)
                      then fst (draw_item (isAnomalyMode st) trendData it)
                      else it)
             (selectionList st)) st in
      match trendData with
      | Some ((_ :: _) as series) =>
          if stats_raise series then (st, Thrown)
          else (updateChartsSync (sliderValue st) st, Normal)
      | _ => (st, Normal)
      end
  end.

(** *** Playback and the time slider *)

Definition clearInterval (h : option nat) (st : state) : state :=
  match h with
  | None => st
  | Some h => set_intervals (filter (λ h', h' ≠ h) (intervals st)) st
  end.

(** [setInterval]: a fresh handle becomes active. *)
Definition setInterval (st : state) : nat * state :=
  let h := nextHandle st in
  (h, set_nextHandle (S h) (set_intervals (intervals st ++ [h]) st)).

Definition togglePlay (st : state) : state :=
  if isPlaying st then
    let st := clearInterval (animationInterval st) st in
    set_isPlaying false st
  else
    let st := set_isPlaying true st in
    let (h, st) := setInterval st in
    set_animationInterval (Some h) st.

(** The callback of the playback interval. *)
Definition advance (st : state) : state * completion :=
  let nextVal := sliderValue st + 1 in
  let nextVal :=
    if bool_decide (Z.of_nat nextVal > sliderMax st)%Z then 0 else nextVal in
  let st := set_sliderValue nextVal st in
  renderHeatmap nextVal st.

(** The [input] listener of the slider, after the control took the value
    [v]: pauses a running playback and requests a frame. *)
Definition slider_input (v : nat) (st : state) : state :=
  let st := set_sliderValue v st in
  let st := if isPlaying st then togglePlay st else st in
  set_frames (S (frames st)) st.

(** The frame callback [() => renderHeatmap(+this.value)]. *)
Definition animation_frame (st : state) : state * completion :=
  let st := set_frames (pred (frames st)) st in
  renderHeatmap (sliderValue st) st.

(** ** Events *)

(** The store when [init] awaits the bundle: layers, countries and legend are
    set up, nothing is loaded. *)
Definition init_state (features : list feature) : state :=
  {| revealedCountries := ∅; allTemperatureData := None;
     screenCoords := []; rawCoords := Some []; timePoints := [];
     baselineData := ∅; isPlaying := false; animationInterval := None;
     isAnomalyMode := false; currentColorScale := absoluteColorScale;
     timeDisplay := ""; sliderValue := 0; sliderMax := 0%Z;
     controlsReady := false; dataPoints := []; selectionList := [];
     legendAnomaly := false;
     countryPaths :=
       map (λ f, {| datum_of := f; revealedClass := false;
                    hoverClass := false |}) features;
     countryBorders :=
       map (λ f, {| border_datum := f; stroke := "#94a3b8";
                    stroke_width := "0.5px" |}) features;
     intervals := []; nextHandle := 1; timeouts := []; frames := 0;
     nextNode := 0 |}.

Inductive event : Type :=
  | Click (target : nat)
  | MouseEnter (target : nat)
  | MouseLeave (target : nat)
  | RemoveButton (id : string)
  | PlayButton
  | SliderInput (v : nat)
  | AnomalyToggle (checked : bool)
  | IntervalTick (h : nat)
  | TimeoutFires (k : nat)
  | AnimationFrame.

(** When the browser can deliver an event: the controls have their listeners
    after [setupControls], the slider only takes values up to its maximum, a
    remove button belongs to a listed item, and callbacks fire for active
    timers, pending timeouts and requested frames. *)
Definition enabled (ev : event) (st : state) : bool :=
  match ev with
  | Click _ | MouseEnter _ | MouseLeave _ => true
  | RemoveButton id =>
      bool_decide (id ∈ map countryId (selectionList st))
  | PlayButton | AnomalyToggle _ => controlsReady st
  | SliderInput v =>
      controlsReady st && bool_decide (Z.of_nat v ≤ sliderMax st)%Z
  | IntervalTick h => bool_decide (h ∈ intervals st)
  | TimeoutFires k => bool_decide (k < length (timeouts st))
  | AnimationFrame => bool_decide (0 < frames st)
  end.

(** The store after the handler of an event has run; an uncaught exception
    ends the handler and leaves the store as it was at that point. *)
Definition handle (ev : event) (st : state) : state :=
  match ev with
  | Click target => handleClick target st
  | MouseEnter target => handleMouseEnter target st
  | MouseLeave target => handleMouseLeave target st
  | RemoveButton id => removeCountry id st
  | PlayButton => togglePlay st
  | SliderInput v => slider_input v st
  | AnomalyToggle checked => fst (toggleAnomalyMode checked st)
  | IntervalTick _ => fst (advance st)
  | TimeoutFires k =>
      match timeouts st !! k with
      | None => st
      | Some j =>
          fst (deferred_draw j (set_timeouts (delete k (timeouts st)) st))
      end
  | AnimationFrame => fst (animation_frame st)
  end.

(** The stores the page can be in.  The index tells whether the bundle has
    arrived: [init] loads it once, and events interleave before and after. *)
Inductive reachable (features : list feature) : bool → state → Prop :=
  | reach_init :
      reachable features false (init_state features)
  | reach_load b st :
      reachable features false st →
      reachable features true (loadTemperatureData b st)
  | reach_event started ev st :
      reachable features started st →
      enabled ev st = true →
      reachable features started (handle ev st).


(** ** Reading the store after updates *)

Ltac store_simpl :=
  cbn [revealedCountries allTemperatureData screenCoords rawCoords
       timePoints baselineData isPlaying animationInterval isAnomalyMode
       currentColorScale timeDisplay sliderValue sliderMax controlsReady
       dataPoints selectionList legendAnomaly countryPaths countryBorders
       intervals nextHandle timeouts frames nextNode set_revealedCountries
       set_allTemperatureData set_screenCoords set_rawCoords set_timePoints
       set_baselineData set_isPlaying set_animationInterval
       set_isAnomalyMode set_currentColorScale set_timeDisplay
       set_sliderValue set_sliderMax set_controlsReady set_dataPoints
       set_selectionList set_legendAnomaly set_countryPaths
       set_countryBorders set_intervals set_nextHandle set_timeouts
       set_frames set_nextNode].

Ltac store_simpl_in H :=
  cbn [revealedCountries allTemperatureData screenCoords rawCoords
       timePoints baselineData isPlaying animationInterval isAnomalyMode
       currentColorScale timeDisplay sliderValue sliderMax controlsReady
       dataPoints selectionList legendAnomaly countryPaths countryBorders
       intervals nextHandle timeouts frames nextNode set_revealedCountries
       set_allTemperatureData set_screenCoords set_rawCoords set_timePoints
       set_baselineData set_isPlaying set_animationInterval
       set_isAnomalyMode set_currentColorScale set_timeDisplay
       set_sliderValue set_sliderMax set_controlsReady set_dataPoints
       set_selectionList set_legendAnomaly set_countryPaths
       set_countryBorders set_intervals set_nextHandle set_timeouts
       set_frames set_nextNode] in H.

(** ** Specification-side notions *)

(** Whether the coordinate at index [i] lies inside the feature. *)
Definition contained_at (feature : feature) (raw : list coord) (i : nat)
    : bool :=
  match raw !! i with
  | Some coord => geoContains feature coord
  | None => false
  end.

(** The sample points inside a feature, by increasing index. *)
Definition contained_indices (feature : feature) (raw : list coord)
    : list nat :=
  filter (λ i, contained_at feature raw i) (seq 0 (length raw)).

(** The sum of a list of numbers in double precision: the numbers are added
    one by one from the left, starting from zero, and every addition is
    rounded. *)
Definition sum_list (l : list number) : number :=
  fold_left (SFadd 53 1024) l (S754_zero false).

(** The mean in double precision: the sum from the left, divided by the
    number of elements with one more rounding. *)
Definition double_mean (l : list number) : number :=
  SFdiv 53 1024 (sum_list l)
    (binary_normalize 53 1024 (Z.of_nat (length l)) 0 false).

(** The exact sum and the exact arithmetic mean of a list of zeros and finite
    numbers, as rationals. *)
Fixpoint exact_sum (l : list number) : option Q :=
  match l with
  | [] => Some (0 # 1)
  | a :: l' =>
      match exact_value a, exact_sum l' with
      | Some q, Some r => Some (Qplus q r)
      | _, _ => None
      end
  end.

Definition arithmetic_mean (l : list number) : option Q :=
  match exact_sum l with
  | Some q => Some (Qdiv q (inject_Z (Z.of_nat (length l))))
  | None => None
  end.

(** [v] is the arithmetic mean of [l]. *)
Definition is_arithmetic_mean (v : number) (l : list number) : Prop :=
  ∃ q r, exact_value v = Some q ∧ arithmetic_mean l = Some r ∧ Qeq q r.

(** The reading of the point [i]: the array element as a number, where
    [null] counts as zero and a missing element is not a number. *)
Definition reading (temps : list jsval) (i : nat) : number :=
  match temps !! i with
  | Some (JNum x) => x
  | Some JNull => S754_zero false
  | Some JUndefined | None => S754_nan
  end.

(** The readings of one date at the given indices. *)
Definition readings_at (temps : list jsval) (indices : list nat)
    : list number :=
  map (reading temps) indices.

(** The indices that have a screen position, by increasing index. *)
Definition visible_indices (coords : list (option point)) : list nat :=
  filter (λ i, bool_decide (is_Some (mjoin (coords !! i))))
    (seq 0 (length coords)).

(** A store holding the dataset [raw], [allData] as the loader leaves it. *)
Record loaded (raw : list coord) (allData : gmap string (list jsval))
    (st : state) : Prop := {
  loaded_raw : rawCoords st = Some raw;
  loaded_screen : screenCoords st = map project raw;
  loaded_data : allTemperatureData st = Some allData;
  loaded_times : timePoints st = sorted_keys allData
}.

(** Strict code-unit order on date keys. *)
Definition key_lt : relation string := strict String.le.

(** ** Basic facts *)

Lemma rmap_list_ok {A B} (f : A → result B) (g : A → B) (l : list A) :
  (∀ a, a ∈ l → f a = Ok (g a)) → rmap_list f l = Ok (map g l).
Proof.
  induction l as [|a l IH]; intros Hf; [done|].
  cbn. rewrite Hf by left. cbn.
  rewrite IH; [done|]. intros b Hb. apply Hf. by right.
Qed.

Lemma baseline_get_own (o : gmap string (list jsval)) k a :
  o !! k = Some a → baseline_get o k = Some a.
Proof. intros Hk. unfold baseline_get. by rewrite Hk. Qed.

Lemma reading_ToNumber temps i : ToNumber (arr_get temps i) = reading temps i.
Proof.
  unfold arr_get, reading. by destruct (temps !! i) as [[| |a]|].
Qed.

Lemma readings_at_ToNumber temps indices :
  map (λ i, ToNumber (arr_get temps i)) indices = readings_at temps indices.
Proof. apply map_ext. intros i. apply reading_ToNumber. Qed.

Lemma rfold_add_reading anomaly temps baselineTemps indices sum count :
  rfold_left (add_reading anomaly (Some temps) baselineTemps) indices
    (sum, count)
  = Ok (fold_left num_add
          (map (λ i, ToNumber (point_value anomaly temps baselineTemps i))
             indices) sum,
        count + length indices).
Proof.
  revert sum count. induction indices as [|i l IH]; intros sum count; cbn.
  - by rewrite Nat.add_0_r.
  - rewrite IH. do 2 f_equal. lia.
Qed.

Lemma indices_from_prefix feature (pre coords : list coord) :
  indices_from feature (length pre) coords
  = filter (λ k, contained_at feature (pre ++ coords) k)
      (seq (length pre) (length coords)).
Proof.
  revert pre. induction coords as [|c cs IH]; intros pre; [done|].
  cbn [indices_from length seq]. rewrite filter_cons.
  assert (Hc : contained_at feature (pre ++ c :: cs) (length pre)
               = geoContains feature c).
  { unfold contained_at. by rewrite list_lookup_middle. }
  specialize (IH (pre ++ [c])).
  rewrite length_app, Nat.add_1_r, <- app_assoc in IH. cbn in IH.
  rewrite Hc, IH.
  destruct (geoContains feature c); cbn.
  - by rewrite decide_True.
  - by rewrite decide_False by (by intros []).
Qed.

Lemma indices_from_contained feature raw :
  indices_from feature 0 raw = contained_indices feature raw.
Proof. apply (indices_from_prefix feature [] raw). Qed.

Lemma elem_of_contained_indices feature raw i :
  i ∈ contained_indices feature raw
  ↔ ∃ coord, raw !! i = Some coord ∧ geoContains feature coord = true.
Proof.
  unfold contained_indices. rewrite list_elem_of_filter, elem_of_seq.
  unfold contained_at. split.
  - intros [Hc _]. destruct (raw !! i) as [c|]; [|done].
    exists c. split; [done|]. by apply Is_true_true.
  - intros (c & Hi & Hc). rewrite Hi. split; [by apply Is_true_true|].
    apply lookup_lt_Some in Hi. lia.
Qed.

(** ** The "no data" result *)

Lemma contained_indices_nil feature raw :
  contained_indices feature raw = []
  ↔ ∀ i coord, raw !! i = Some coord → geoContains feature coord = false.
Proof.
  split.
  - intros Hnil i c Hi. destruct (geoContains feature c) eqn:Hc; [|done].
    assert (Hin : i ∈ contained_indices feature raw).
    { apply elem_of_contained_indices. eauto. }
    rewrite Hnil in Hin. by apply not_elem_of_nil in Hin.
  - intros Hall. destruct (contained_indices feature raw) as [|i l] eqn:E;
      [done|].
    assert (Hin : i ∈ contained_indices feature raw) by (rewrite E; left).
    apply elem_of_contained_indices in Hin as (c & Hi & Hc).
    rewrite (Hall i c Hi) in Hc. done.
Qed.

Lemma calculateCountryTrend_unfold st feature raw :
  rawCoords st = Some raw →
  calculateCountryTrend st feature
  = match contained_indices feature raw with
    | [] => Ok None
    | indices =>
        rbind (rmap_list (trend_entry st indices) (timePoints st))
          (λ series, Ok (Some series))
    end.
Proof.
  intros Hraw. unfold calculateCountryTrend. rewrite Hraw.
  destruct raw as [|c raw]; [done|].
  cbv zeta. rewrite indices_from_contained.
  by destruct (contained_indices feature (c :: raw)).
Qed.

(** C3. [calculateCountryTrend] gives the "no data" result [null] exactly
    when no coordinates are loaded (the list is undefined or empty) or no
    loaded coordinate lies inside the boundary; in that case it returns
    normally, and the deferred draw of the sidebar item then shows "No data"
    with the statistics hidden instead of raising. *)
Theorem calculateCountryTrend_null_iff (st : state) (feature : feature) :
  (calculateCountryTrend st feature = Ok None
   ↔ rawCoords st = None
     ∨ rawCoords st = Some []
     ∨ ∃ raw, rawCoords st = Some raw
         ∧ ∀ i coord, raw !! i = Some coord →
             geoContains feature coord = false)
  ∧ ∀ j, job_feature j = feature →
      calculateCountryTrend st feature = Ok None →
      snd (deferred_draw j st) = Normal
      ∧ ∀ k it, selectionList st !! k = Some it → node it = job_node j →
          ∃ it', selectionList (fst (deferred_draw j st)) !! k = Some it'
            ∧ children (chartContainer it') = [NoDataText]
            ∧ statsDisplay (statsBox it') = DisplayNone.
Proof.
  split.
  - destruct (rawCoords st) as [raw|] eqn:Hraw.
    2:{ unfold calculateCountryTrend. rewrite Hraw. naive_solver. }
    rewrite (calculateCountryTrend_unfold st feature raw Hraw).
    destruct (contained_indices feature raw) as [|i l] eqn:E.
    + split; [|done]. intros _. right. right. exists raw. split; [done|].
      by apply contained_indices_nil.
    + split.
      * destruct (rmap_list _ _); cbn; discriminate.
      * intros [?|[Hnil|(raw' & Hr & Hall)]]; [done| |].
        -- injection Hnil as ->. discriminate E.
        -- injection Hr as <-. apply contained_indices_nil in Hall.
           rewrite Hall in E. discriminate E.
  - intros j Hj Hnull. unfold deferred_draw. rewrite Hj, Hnull. cbn.
    split; [done|]. intros k it Hk Hnode.
    rewrite list_lookup_fmap, Hk. cbn. rewrite decide_True by done.
    eexists. split; [done|]. done.
Qed.

(** ** Rendering before any data *)

(** C10. While the list of time points is empty, [renderHeatmap] returns at
    once for every time index: it completes normally and leaves the whole
    store as it was (time display, heatmap circles and chart markers
    included), without consulting the temperature mapping. *)
Theorem renderHeatmap_no_timePoints (timeIndex : nat) (st : state) :
  timePoints st = [] → renderHeatmap timeIndex st = (st, Normal).
Proof. intros Hnil. unfold renderHeatmap. by rewrite Hnil. Qed.

(** The guard at the head of [renderHeatmap], for use in later proofs. *)
Lemma renderHeatmap_guard timeIndex st :
  timePoints st = [] → renderHeatmap timeIndex st = (st, Normal).
Proof. intros Hnil. unfold renderHeatmap. by rewrite Hnil. Qed.

(** ** The sorted date keys *)

Lemma sorted_keys_perm {V} (o : gmap string V) :
  sorted_keys o ≡ₚ map fst (map_to_list o).
Proof. apply merge_sort_Permutation. Qed.

Lemma elem_of_sorted_keys {V} (o : gmap string V) k :
  k ∈ sorted_keys o ↔ is_Some (o !! k).
Proof.
  rewrite sorted_keys_perm. split.
  - intros ((k' & v) & -> & Hin)%list_elem_of_fmap.
    apply elem_of_map_to_list in Hin. by exists v.
  - intros [v Hv]. apply list_elem_of_fmap. exists (k, v).
    split; [done|]. by apply elem_of_map_to_list.
Qed.

Lemma sorted_keys_NoDup {V} (o : gmap string V) : NoDup (sorted_keys o).
Proof. rewrite sorted_keys_perm. apply NoDup_fst_map_to_list. Qed.

Lemma sorted_keys_length {V} (o : gmap string V) :
  length (sorted_keys o) = size o.
Proof.
  rewrite sorted_keys_perm, length_map. apply length_map_to_list.
Qed.

Lemma strongly_sorted_strict (l : list string) :
  StronglySorted String.le l → NoDup l → StronglySorted key_lt l.
Proof.
  induction 1 as [|k l Hl IH Hk]; intros Hnd; [constructor|].
  apply NoDup_cons in Hnd as [Hnotin Hnd].
  constructor; [by apply IH|].
  apply Forall_forall. intros k' Hin. 
  rewrite Forall_forall in Hk. split; [by apply Hk|].
  intros Hle. assert (k = k') as ->; [|done].
  apply (anti_symm String.le); [by apply Hk | done].
Qed.

Lemma sorted_keys_sorted {V} (o : gmap string V) :
  StronglySorted key_lt (sorted_keys o).
Proof.
  apply strongly_sorted_strict; [|apply sorted_keys_NoDup].
  apply (StronglySorted_merge_sort String.le).
Qed.

(** ** The trend series of a loaded store *)

(** The element of the series for one date, over the given indices. *)
Definition entry_of (st : state) (allData : gmap string (list jsval))
    (indices : list nat) (dateStr : string) : entry :=
  {| date := dateParser dateStr;
     val :=
       num_div
         (fold_left num_add
            (map (λ i, ToNumber
                         (point_value (isAnomalyMode st)
                            (default [] (allData !! dateStr))
                            (baseline_for st dateStr) i))
               indices) num_zero)
         (num_of_nat (length indices));
     rawDate := dateStr |}.

Lemma trend_entry_loaded st allData indices dateStr :
  allTemperatureData st = Some allData →
  is_Some (allData !! dateStr) →
  indices ≠ [] →
  trend_entry st indices dateStr = Ok (entry_of st allData indices dateStr).
Proof.
  intros Hdata [temps Htemps] Hne. unfold trend_entry, entry_of.
  rewrite Hdata, Htemps, rfold_add_reading. cbn.
  rewrite bool_decide_eq_true_2.
  2:{ destruct indices; [done|cbn; lia]. }
  done.
Qed.

Lemma calculateCountryTrend_loaded st raw allData feature :
  loaded raw allData st →
  contained_indices feature raw ≠ [] →
  calculateCountryTrend st feature
  = Ok (Some (map (entry_of st allData (contained_indices feature raw))
                (sorted_keys allData))).
Proof.
  intros [Hraw _ Hdata Htimes] Hne.
  rewrite (calculateCountryTrend_unfold st feature raw Hraw).
  destruct (contained_indices feature raw) as [|i l] eqn:E; [done|].
  rewrite Htimes.
  rewrite (rmap_list_ok _ (entry_of st allData (i :: l))); [done|].
  intros k Hk. apply trend_entry_loaded; [done| |done].
  by apply elem_of_sorted_keys.
Qed.

Lemma average_double_mean (l : list number) :
  num_div (fold_left num_add l num_zero) (num_of_nat (length l))
  = double_mean l.
Proof. reflexivity. Qed.

(** C1, as the code has it.  In a loaded store, for a boundary that contains
    at least one loaded raw coordinate, [calculateCountryTrend] returns a
    series whose raw dates are exactly the sorted date keys of the
    temperature mapping: one element per key, in strictly increasing
    code-unit order; and in absolute mode the value of each element is the
    mean in double precision of the readings of its date at the contained
    indices: the readings added from the left in index order, starting from
    zero, every addition rounded, and the sum divided by their number. *)
Theorem calculateCountryTrend_series (st : state) (raw : list coord)
    (allData : gmap string (list jsval)) (feature : feature) :
  loaded raw allData st →
  (∃ i coord, raw !! i = Some coord ∧ geoContains feature coord = true) →
  ∃ series,
    calculateCountryTrend st feature = Ok (Some series)
    ∧ map rawDate series = sorted_keys allData
    ∧ StronglySorted key_lt (map rawDate series)
    ∧ (∀ k, k ∈ map rawDate series ↔ is_Some (allData !! k))
    ∧ length series = size allData
    ∧ (isAnomalyMode st = false →
       ∀ e, e ∈ series →
         ∃ temps, allData !! rawDate e = Some temps
           ∧ val e = double_mean (readings_at temps
                                    (contained_indices feature raw))).
Proof.
  intros Hl (i & c & Hi & Hc).
  assert (Hne : contained_indices feature raw ≠ []).
  { intros Hnil. assert (Hin : i ∈ contained_indices feature raw).
    { apply elem_of_contained_indices. eauto. }
    rewrite Hnil in Hin. by apply not_elem_of_nil in Hin. }
  eexists. split; [by apply calculateCountryTrend_loaded|].
  assert (Hdates :
    map rawDate (map (entry_of st allData (contained_indices feature raw))
                   (sorted_keys allData)) = sorted_keys allData).
  { rewrite map_map. cbn. apply map_id. }
  rewrite Hdates.
  split; [done|]. split; [apply sorted_keys_sorted|].
  split; [apply elem_of_sorted_keys|].
  split; [by rewrite length_map, sorted_keys_length|].
  intros Habs e (k & -> & Hk)%list_elem_of_fmap.
  apply elem_of_sorted_keys in Hk as [temps Htemps].
  exists temps. cbn [rawDate val entry_of]. split; [done|].
  rewrite Htemps, Habs. cbn [default point_value].
  rewrite readings_at_ToNumber, <- (length_map (reading temps)).
  apply average_double_mean.
Qed.

(** ** One frame of the heatmap *)

(** [d] is the element of [renderData] for the point [i]. *)
Definition datum_for (anomaly : bool) (temps : list jsval)
    (baselineTemps : option (list jsval)) (coords : list (option point))
    (d : datum) (i : nat) : Prop :=
  ∃ p, coords !! i = Some (Some p)
    ∧ d = {| dx := x p; dy := y p;
             dval := frame_value anomaly temps baselineTemps i |}.

Lemma assemble_prefix anomaly temps baselineTemps
    (pre coords : list (option point)) :
  ∃ renderData,
    assemble anomaly (Some temps) baselineTemps (length pre) coords
    = Ok renderData
    ∧ Forall2 (datum_for anomaly temps baselineTemps (pre ++ coords))
        renderData
        (filter (λ i, bool_decide (is_Some (mjoin ((pre ++ coords) !! i))))
           (seq (length pre) (length coords))).
Proof.
  revert pre. induction coords as [|c cs IH]; intros pre.
  { exists []. split; [done|]. constructor. }
  destruct (IH (pre ++ [c])) as (ds & Hds & Hall). clear IH.
  rewrite length_app, Nat.add_1_r in Hds, Hall.
  rewrite <- app_assoc in Hall. cbn [app] in Hall.
  cbn [assemble length seq]. rewrite filter_cons.
  assert (Hmid : (pre ++ c :: cs) !! length pre = Some c)
    by apply list_lookup_middle, eq_refl.
  rewrite Hmid. destruct c as [p|]; cbn [mjoin option_join option_bind].
  - rewrite Hds. cbn. eexists. split; [done|].
    rewrite decide_True by done.
    constructor; [|done]. by exists p.
  - exists ds. split; [done|].
    by rewrite decide_False by (by intros []).
Qed.

Lemma assemble_visible anomaly temps baselineTemps coords :
  ∃ renderData,
    assemble anomaly (Some temps) baselineTemps 0 coords = Ok renderData
    ∧ Forall2 (datum_for anomaly temps baselineTemps coords)
        renderData (visible_indices coords).
Proof. apply (assemble_prefix anomaly temps baselineTemps [] coords). Qed.

(** The baseline array of a frame: [baselineData[month]] in anomaly mode. *)
Definition frame_baseline (st : state) (currentTime : string)
    : option (list jsval) :=
  if isAnomalyMode st
  then baseline_get (baselineData st) (prop_key (month_of currentTime))
  else None.

Lemma renderHeatmap_loaded st raw allData timeIndex currentTime :
  loaded raw allData st →
  sorted_keys allData !! timeIndex = Some currentTime →
  ∃ temps renderData,
    allData !! currentTime = Some temps
    ∧ Forall2 (datum_for (isAnomalyMode st) temps
                 (frame_baseline st currentTime) (screenCoords st))
        renderData (visible_indices (screenCoords st))
    ∧ renderHeatmap timeIndex st
      = (updateChartsSync timeIndex
           (set_dataPoints
              (map (circle_of (currentColorScale st)) renderData)
              (set_timeDisplay currentTime st)),
         Normal).
Proof.
  intros [Hraw Hscreen Hdata Htimes] Ht.
  assert (Hk : is_Some (allData !! currentTime)).
  { apply elem_of_sorted_keys. by eapply list_elem_of_lookup_2. }
  destruct Hk as [temps Htemps].
  destruct (assemble_visible (isAnomalyMode st) temps
              (frame_baseline st currentTime) (screenCoords st))
    as (ds & Hds & Hall).
  exists temps, ds. split; [done|]. split; [done|].
  unfold renderHeatmap. rewrite Htimes.
  destruct (sorted_keys allData) as [|k ks] eqn:Ek; [done|].
  rewrite Ht. cbn [default set_timeDisplay allTemperatureData isAnomalyMode
                    baselineData screenCoords currentColorScale prop_key].
  unfold id. rewrite Hdata, Htemps.
  unfold frame_baseline in Hds.
  destruct (isAnomalyMode st); by rewrite Hds.
Qed.

(** ** What a frame and the loader change *)

Lemma store_eta st :
  set_selectionList (selectionList st)
    (set_dataPoints (dataPoints st) (set_timeDisplay (timeDisplay st) st))
  = st.
Proof. by destruct st. Qed.

Lemma set_timeDisplay_eta td st :
  set_timeDisplay td st
  = set_selectionList (selectionList st)
      (set_dataPoints (dataPoints st) (set_timeDisplay td st)).
Proof. by destruct st. Qed.

Lemma renderHeatmap_frame timeIndex st :
  ∃ td dp sl,
    fst (renderHeatmap timeIndex st)
    = set_selectionList sl (set_dataPoints dp (set_timeDisplay td st)).
Proof.
  unfold renderHeatmap. cbv zeta. store_simpl.
  destruct (timePoints st); [|destruct (allTemperatureData st)].
  - exists (timeDisplay st), (dataPoints st), (selectionList st).
    by rewrite store_eta.
  - destruct (if isAnomalyMode _ then _ else _);
      [destruct (assemble _ _ _ _ _)|].
    + eexists _, _, _. reflexivity.
    + eexists _, _, _. apply set_timeDisplay_eta.
    + eexists _, _, _. apply set_timeDisplay_eta.
  - eexists _, _, _. apply set_timeDisplay_eta.
Qed.

Lemma loaded_view raw allData st td dp sl :
  loaded raw allData st →
  loaded raw allData
    (set_selectionList sl (set_dataPoints dp (set_timeDisplay td st))).
Proof. intros [? ? ? ?]. by constructor. Qed.

Lemma renderHeatmap_keeps_loaded raw allData timeIndex st :
  loaded raw allData st → loaded raw allData (fst (renderHeatmap timeIndex st)).
Proof.
  intros Hl. destruct (renderHeatmap_frame timeIndex st) as (? & ? & ? & ->).
  by apply loaded_view.
Qed.

Lemma renderHeatmap_loaded_normal raw allData timeIndex st :
  loaded raw allData st →
  timeIndex < length (timePoints st) ∨ timePoints st = [] →
  snd (renderHeatmap timeIndex st) = Normal.
Proof.
  intros Hl [Hlt|Hnil].
  - rewrite (loaded_times _ _ _ Hl) in Hlt.
    apply lookup_lt_is_Some in Hlt as [k Hk].
    destruct (renderHeatmap_loaded st raw allData timeIndex k Hl Hk)
      as (? & ? & _ & _ & ->). done.
  - by rewrite renderHeatmap_guard.
Qed.

(** The store on which the loader renders its first frame. *)
Definition before_first_frame (raw : list coord)
    (allData : gmap string (list jsval)) (st : state) : state :=
  setupControls
    (set_baselineData
       (extract_baseline allData (sorted_keys allData) (baselineData st))
       (set_timePoints (sorted_keys allData)
          (set_allTemperatureData (Some allData)
             (set_screenCoords (map project raw)
                (set_rawCoords (Some raw)
                   (set_timeDisplay "Processing..." st)))))).

Lemma load_body_unfold parsedData st raw allData :
  coords parsedData = Some raw →
  temperature_source parsedData = Some allData →
  load_body parsedData st
  = renderHeatmap 0 (before_first_frame raw allData st).
Proof.
  intros Hc Hs. unfold load_body. store_simpl. rewrite Hc, Hs. done.
Qed.

Lemma before_first_frame_loaded raw allData st :
  loaded raw allData (before_first_frame raw allData st).
Proof. by constructor. Qed.

Lemma load_body_loaded parsedData st raw allData :
  coords parsedData = Some raw →
  temperature_source parsedData = Some allData →
  snd (load_body parsedData st) = Normal
  ∧ loaded raw allData (fst (load_body parsedData st)).
Proof.
  intros Hc Hs. rewrite (load_body_unfold _ _ raw allData Hc Hs).
  pose proof (before_first_frame_loaded raw allData st) as Hl.
  split; [|by apply renderHeatmap_keeps_loaded].
  apply (renderHeatmap_loaded_normal raw allData); [done|].
  destruct (timePoints (before_first_frame raw allData st)); [by right|].
  left. cbn. lia.
Qed.

Lemma loadTemperatureData_payload parsedData st :
  snd (load_body parsedData (set_timeDisplay "Downloading data..." st))
  = Normal →
  loadTemperatureData (Payload parsedData) st
  = fst (load_body parsedData (set_timeDisplay "Downloading data..." st)).
Proof.
  intros Hn. unfold loadTemperatureData.
  destruct (load_body _ _) as [st' c]. cbn in Hn. by subst c.
Qed.



(** ** Missing baselines in anomaly mode *)

Lemma series_lookup st allData indices timeIndex dateStr :
  sorted_keys allData !! timeIndex = Some dateStr →
  map (entry_of st allData indices) (sorted_keys allData) !! timeIndex
  = Some (entry_of st allData indices dateStr).
Proof. intros Hk. by rewrite list_lookup_fmap, Hk. Qed.

(** C2, as the code has it.  In anomaly mode, for the date key at a time
    index of a loaded store: [renderHeatmap] completes and gives each point
    with a screen position the value zero when [baselineData] has an array
    for the month that has no value (undefined or null) for the point, the
    reading less the baseline when it has one, and the raw reading when
    [baselineData] has nothing for the month; and when it has nothing for
    the month, [calculateCountryTrend] gives the date the mean in double
    precision of the raw readings at the contained indices.  It has nothing
    for the month when no record of 2015 was stored under the month, no
    array was made its prototype, and the month does not name a property of
    [Object.prototype]. *)
Theorem anomaly_missing_baseline (st : state) (raw : list coord)
    (allData : gmap string (list jsval)) (timeIndex : nat)
    (currentTime : string) (temps : list jsval) :
  loaded raw allData st →
  isAnomalyMode st = true →
  timePoints st !! timeIndex = Some currentTime →
  allData !! currentTime = Some temps →
  let baselineTemps :=
    baseline_get (baselineData st) (prop_key (month_of currentTime)) in
  (∃ renderData st',
     renderHeatmap timeIndex st = (st', Normal)
     ∧ dataPoints st' = map (circle_of (currentColorScale st)) renderData
     ∧ Forall2
         (λ d i,
            ∃ p, screenCoords st !! i = Some (Some p)
              ∧ dx d = x p ∧ dy d = y p
              ∧ dval d
                = match baselineTemps with
                  | None => default JUndefined (temps !! i)
                  | Some base =>
                      match base !! i with
                      | Some (JNum baseVal) =>
                          JNum (SFsub 53 1024 (reading temps i) baseVal)
                      | _ => JNum (S754_zero false)
                      end
                  end)
         renderData (visible_indices (screenCoords st)))
  ∧ (∀ feature,
       contained_indices feature raw ≠ [] →
       baselineTemps = None →
       ∃ series e,
         calculateCountryTrend st feature = Ok (Some series)
         ∧ series !! timeIndex = Some e
         ∧ rawDate e = currentTime
         ∧ val e
           = double_mean
               (readings_at temps (contained_indices feature raw)))
  ∧ (baselineData st !! prop_key (month_of currentTime) = None →
     baselineData st !! "__proto__" = None →
     prop_key (month_of currentTime) ∉ object_prototype_names →
     baselineTemps = None).
Proof.
  intros Hl Hmode Ht Htemps baselineTemps. split; [|split].
  - rewrite (loaded_times _ _ _ Hl) in Ht.
    destruct (renderHeatmap_loaded _ raw allData _ _ Hl Ht)
      as (temps' & ds & Htemps' & Hall & Hr).
    assert (temps' = temps) as -> by congruence.
    exists ds. eexists. split; [exact Hr|]. split; [done|].
    eapply Forall2_impl; [exact Hall|].
    intros d i (p & Hp & ->). exists p. cbn.
    split; [done|]. split; [done|]. split; [done|].
    unfold frame_value, frame_baseline. rewrite Hmode.
    fold baselineTemps. destruct baselineTemps as [base|]; [|done].
    rewrite reading_ToNumber. unfold arr_get.
    by destruct (base !! i) as [[| |baseVal]|].
  - intros feature Hne Hnone.
    rewrite (loaded_times _ _ _ Hl) in Ht.
    eexists _, _. split; [by apply (calculateCountryTrend_loaded _ raw)|].
    split; [by apply series_lookup|]. split; [done|].
    cbn [val entry_of]. rewrite Htemps. unfold baseline_for. rewrite Hmode.
    fold baselineTemps. rewrite Hnone. cbn [default point_value].
    rewrite readings_at_ToNumber, <- (length_map (reading temps)).
    apply average_double_mean.
  - intros Hown Hproto Hname. unfold baselineTemps, baseline_get.
    rewrite Hown, Hproto. by rewrite bool_decide_eq_false_2.
Qed.

(** ** The baseline of 2015 *)

(** A number that is a zero or finite: not NaN and not an infinity. *)
Definition is_finite (a : number) : bool :=
  match a with
  | S754_zero _ | S754_finite _ _ _ => true
  | _ => false
  end.

Lemma num_sub_diag a : is_finite a = true → num_sub a a = num_zero.
Proof.
  destruct a as [[]|[]| |s m e]; try done. intros _.
  unfold num_sub, SFsub. by rewrite Z.sub_diag.
Qed.

Lemma fold_left_add_zero (l : list number) :
  Forall (λ a, a = num_zero) l → fold_left num_add l num_zero = num_zero.
Proof. induction 1 as [|a l -> _ IH]; [done|]. exact IH. Qed.

(** *** Positive integers as numbers *)

Lemma digits2_pos_size p : digits2_pos p = Pos.size p.
Proof. induction p; cbn; congruence. Qed.

Lemma shr_1_positive mrs p :
  shr_m mrs = Zpos p →
  (1 < Pos.size p)%positive →
  ∃ q, shr_m (shr_1 mrs) = Zpos q
    ∧ Zpos (Pos.size q) = (Zpos (Pos.size p) - 1)%Z.
Proof.
  destruct mrs as [m r s]. cbn [shr_m]. intros -> Hp.
  destruct p as [p|p|]; cbn in Hp |- *; [| |lia].
  - exists p. split; [done|]. lia.
  - exists p. split; [done|]. lia.
Qed.

Lemma iter_shr_1_positive k : ∀ mrs p,
  shr_m mrs = Zpos p →
  (k < Pos.size p)%positive →
  ∃ q, shr_m (SpecFloat.iter_pos shr_1 k mrs) = Zpos q
    ∧ Zpos (Pos.size q) = (Zpos (Pos.size p) - Zpos k)%Z.
Proof.
  induction k as [k IH|k IH|]; intros mrs p Hm Hk;
    cbn [SpecFloat.iter_pos].
  - destruct (shr_1_positive mrs p Hm) as (q1 & Hq1 & Hs1); [lia|].
    destruct (IH _ q1 Hq1) as (q2 & Hq2 & Hs2); [lia|].
    destruct (IH _ q2 Hq2) as (q3 & Hq3 & Hs3); [lia|].
    exists q3. split; [done|]. lia.
  - destruct (IH _ p Hm) as (q2 & Hq2 & Hs2); [lia|].
    destruct (IH _ q2 Hq2) as (q3 & Hq3 & Hs3); [lia|].
    exists q3. split; [done|]. lia.
  - by apply shr_1_positive.
Qed.

(** A number of sign [s] that is neither zero nor NaN. *)
Definition nonzero_signed (s : bool) (a : number) : Prop :=
  (∃ m e, a = S754_finite s m e) ∨ a = S754_infinity s.

Lemma shr_fexp_positive p e l :
  (-1074 ≤ e)%Z →
  ∃ q e', (-1074 ≤ e')%Z
    ∧ shr_m (fst (shr_fexp 53 1024 (Zpos p) e l)) = Zpos q
    ∧ snd (shr_fexp 53 1024 (Zpos p) e l) = e'.
Proof.
  intros He. unfold shr_fexp, shr, Zdigits2, fexp, emin.
  rewrite digits2_pos_size.
  assert (Hm : shr_m (shr_record_of_loc (Zpos p) l) = Zpos p)
    by (by destruct l as [|[]]).
  destruct (Z.max (Z.pos (Pos.size p) + e - 53) (3 - 1024 - 53) - e)%Z
    as [|n|n] eqn:Hn; cbn [fst snd].
  - eauto.
  - destruct (iter_shr_1_positive n _ p Hm) as (q & Hq & _); [lia|].
    exists q. eexists. split; [|split; [done|done]]. lia.
  - eauto.
Qed.

Lemma binary_round_aux_positive sx p e l :
  (-1074 ≤ e)%Z →
  nonzero_signed sx (binary_round_aux 53 1024 sx (Zpos p) e l).
Proof.
  intros He. unfold binary_round_aux.
  destruct (shr_fexp_positive p e l He) as (q & e' & He' & Hq & Hs).
  destruct (shr_fexp 53 1024 (Zpos p) e l) as [mrs1 e1].
  cbn [fst snd] in Hq, Hs. subst e1. rewrite Hq.
  assert (Hr : ∃ q', round_nearest_even (Zpos q) (loc_of_shr_record mrs1)
                     = Zpos q').
  { destruct (loc_of_shr_record mrs1) as [|[]]; cbn; eauto.
    destruct q; cbn; eauto. }
  destruct Hr as [q' ->].
  destruct (shr_fexp_positive q' e' loc_Exact He')
    as (q2 & e2 & _ & Hq2 & Hs2).
  destruct (shr_fexp 53 1024 (Zpos q') e' loc_Exact) as [mrs2 e2'].
  cbn [fst snd] in Hq2, Hs2. rewrite Hq2.
  destruct (Z.leb _ _); [left; eauto|by right].
Qed.

(** A positive count is a positive number. *)
Lemma num_of_nat_positive n : nonzero_signed false (num_of_nat (S n)).
Proof.
  unfold num_of_nat, num_of_Z, double_prec, double_emax.
  change (Z.of_nat (S n)) with (Zpos (Pos.of_succ_nat n)).
  generalize (Pos.of_succ_nat n). intros p.
  unfold binary_normalize, binary_round, shl_align, fexp, emin.
  destruct (Z.max (Z.pos (digits2_pos p) + 0 - 53) (3 - 1024 - 53) - 0)%Z
    eqn:Hn; apply binary_round_aux_positive; lia.
Qed.

Lemma num_div_zero a :
  nonzero_signed false a → num_div num_zero a = num_zero.
Proof. by intros [(m & e & ->)| ->]. Qed.

Lemma month_of_split dateStr month :
  month_of dateStr = Some month
  ↔ ∃ y rest, split_on dash dateStr = y :: month :: rest.
Proof.
  unfold month_of. destruct (split_on dash dateStr) as [|y [|m rest]]; cbn.
  - split; [done|]. by intros (? & ? & ?).
  - split; [done|]. by intros (? & ? & ?).
  - split.
    + intros [= ->]. eauto.
    + by intros (? & ? & [= _ ->]).
Qed.

(** Whether the loader stores the readings of [dateStr] under [month]. *)
Definition sets_baseline (allData : gmap string (list jsval))
    (month dateStr : string) : Prop :=
  startsWith dateStr "2015" = true
  ∧ month_of dateStr = Some month
  ∧ is_Some (allData !! dateStr).

Lemma baseline_step_set allData baseline dateStr month temps :
  startsWith dateStr "2015" = true →
  month_of dateStr = Some month →
  allData !! dateStr = Some temps →
  baseline_step allData baseline dateStr !! month = Some temps.
Proof.
  intros H15 (y & rest & Hs)%month_of_split Htemps.
  unfold baseline_step. rewrite H15, Hs, Htemps. apply lookup_insert_eq.
Qed.

Lemma baseline_step_other allData baseline dateStr month :
  ¬ sets_baseline allData month dateStr →
  baseline_step allData baseline dateStr !! month = baseline !! month.
Proof.
  intros Hnot. unfold baseline_step.
  destruct (startsWith dateStr "2015") eqn:H15; [|done].
  destruct (split_on dash dateStr) as [|y [|m rest]] eqn:Hs; [done..|].
  destruct (allData !! dateStr) as [temps|] eqn:Htemps; [|done].
  apply lookup_insert_ne. intros ->. apply Hnot.
  split; [done|]. split; [|by rewrite Htemps].
  apply month_of_split. eauto.
Qed.

Lemma extract_baseline_other allData dates baseline month :
  Forall (λ k, ¬ sets_baseline allData month k) dates →
  extract_baseline allData dates baseline !! month = baseline !! month.
Proof.
  unfold extract_baseline. revert baseline.
  induction dates as [|k dates IH]; intros baseline Hall; [done|].
  apply Forall_cons in Hall as [Hk Hall]. cbn.
  rewrite IH by done. by apply baseline_step_other.
Qed.

Lemma extract_baseline_last allData before after baseline dateStr month
    temps :
  startsWith dateStr "2015" = true →
  month_of dateStr = Some month →
  allData !! dateStr = Some temps →
  Forall (λ k, ¬ sets_baseline allData month k) after →
  extract_baseline allData (before ++ dateStr :: after) baseline !! month
  = Some temps.
Proof.
  intros H15 Hm Htemps Hafter. unfold extract_baseline.
  rewrite fold_left_app. cbn.
  fold (extract_baseline allData after
          (baseline_step allData
             (fold_left (baseline_step allData) before baseline) dateStr)).
  rewrite extract_baseline_other by done.
  by apply baseline_step_set.
Qed.

(** The stored baseline of a month is the reading array of the last key of
    2015 in that month. *)
Lemma baseline_of_last_key allData baseline dateStr month temps :
  startsWith dateStr "2015" = true →
  month_of dateStr = Some month →
  allData !! dateStr = Some temps →
  (∀ k, sets_baseline allData month k → String.le k dateStr) →
  extract_baseline allData (sorted_keys allData) baseline !! month
  = Some temps.
Proof.
  intros H15 Hm Htemps Hlast.
  assert (Hin : dateStr ∈ sorted_keys allData)
    by (apply elem_of_sorted_keys; eauto).
  apply list_elem_of_split in Hin as (before & after & Hsplit).
  pose proof (sorted_keys_sorted allData) as Hsorted.
  rewrite Hsplit in Hsorted |- *.
  apply extract_baseline_last; [done..|].
  apply StronglySorted_app in Hsorted as (_ & _ & Hsorted).
  apply StronglySorted_inv in Hsorted as [_ Hgt].
  eapply Forall_impl; [exact Hgt|].
  intros k [_ Hnle] Hsets. apply Hnle. by apply Hlast.
Qed.

(** The baseline the loader leaves: extracted from the sorted date keys,
    on top of what [baselineData] held. *)
Definition baseline_loaded (allData : gmap string (list jsval))
    (st : state) : Prop :=
  ∃ previous,
    baselineData st
    = extract_baseline allData (sorted_keys allData) previous.

(** C5, as the code has it.  In anomaly mode on a loaded store, take a date
    key of the baseline year 2015 that is the last key of 2015 in its month
    (so that its readings are the stored baseline of the month) and a
    boundary with contained sample points whose readings for that date are
    finite numbers or null.  Then every per-point anomaly of
    [calculateCountryTrend] for that date, the reading less the stored
    baseline, is zero, and the value of the series for that date is zero. *)
Theorem self_baseline_zero (st : state) (raw : list coord)
    (allData : gmap string (list jsval)) (feature : feature)
    (dateStr month : string) (temps : list jsval) :
  loaded raw allData st →
  baseline_loaded allData st →
  isAnomalyMode st = true →
  allData !! dateStr = Some temps →
  startsWith dateStr "2015" = true →
  month_of dateStr = Some month →
  (∀ k, sets_baseline allData month k → String.le k dateStr) →
  contained_indices feature raw ≠ [] →
  (∀ i, i ∈ contained_indices feature raw →
        is_finite (reading temps i) = true) →
  (∀ i, i ∈ contained_indices feature raw →
        point_value true temps (baseline_for st dateStr) i = JNum num_zero)
  ∧ ∃ series timeIndex e,
      calculateCountryTrend st feature = Ok (Some series)
      ∧ series !! timeIndex = Some e
      ∧ rawDate e = dateStr
      ∧ val e = num_zero.
Proof.
  intros Hl [previous Hb] Hmode Htemps H15 Hm Hlast Hne Hnum.
  assert (Hbase : baseline_for st dateStr = Some temps).
  { unfold baseline_for. rewrite Hmode, Hm, Hb.
    change (prop_key (Some month)) with month.
    apply baseline_get_own.
    by apply (baseline_of_last_key allData previous dateStr). }
  assert (Hpoint : ∀ i, i ∈ contained_indices feature raw →
            point_value true temps (baseline_for st dateStr) i
            = JNum num_zero).
  { intros i Hi. rewrite Hbase. unfold point_value.
    rewrite reading_ToNumber. by rewrite num_sub_diag by by apply Hnum. }
  split; [done|].
  assert (Hin : dateStr ∈ sorted_keys allData)
    by (apply elem_of_sorted_keys; eauto).
  apply list_elem_of_lookup in Hin as [timeIndex Ht].
  eexists _, timeIndex, _.
  split; [by apply (calculateCountryTrend_loaded _ raw)|].
  split; [by apply series_lookup|]. split; [done|].
  cbn [val entry_of]. rewrite Htemps, Hmode.
  change (default [] (Some temps)) with temps.
  rewrite fold_left_add_zero.
  - destruct (contained_indices feature raw) as [|i l]; [done|].
    apply num_div_zero, num_of_nat_positive.
  - apply Forall_fmap, Forall_forall. intros i Hi.
    change (ToNumber (point_value true temps (baseline_for st dateStr) i)
            = num_zero).
    by rewrite Hpoint.
Qed.

(** ** What the handlers leave alone *)

(** The variables and controls of playback. *)
Definition controls_of (st : state) :=
  (isPlaying st, animationInterval st, intervals st, nextHandle st,
   sliderValue st, sliderMax st, controlsReady st, timePoints st).

(** The loaded dataset. *)
Definition dataset_of (st : state) :=
  (rawCoords st, screenCoords st, allTemperatureData st, timePoints st,
   baselineData st).

(** The revealed set and the border styles. *)
Definition selection_of (st : state) :=
  (revealedCountries st, countryBorders st).

Lemma controls_of_view sl dp td st :
  controls_of (set_selectionList sl (set_dataPoints dp (set_timeDisplay td st)))
  = controls_of st.
Proof. done. Qed.

Lemma controls_of_timeDisplay td st :
  controls_of (set_timeDisplay td st) = controls_of st.
Proof. done. Qed.

Lemma selection_of_view sl dp td st :
  selection_of
    (set_selectionList sl (set_dataPoints dp (set_timeDisplay td st)))
  = selection_of st.
Proof. done. Qed.

Lemma selection_of_timeDisplay td st :
  selection_of (set_timeDisplay td st) = selection_of st.
Proof. done. Qed.

Lemma set_selectionList_twice sl sl' st :
  set_selectionList sl (set_selectionList sl' st) = set_selectionList sl st.
Proof. done. Qed.

(** Replaces the store after a frame by the three fields a frame writes. *)
Ltac frame_heatmap :=
  match goal with
  | |- context [renderHeatmap ?t ?s] =>
      let td := fresh "td" in
      let dp := fresh "dp" in
      let sl := fresh "sl" in
      destruct (renderHeatmap_frame t s) as (td & dp & sl & ->)
  end.

Lemma toggleAnomalyMode_frame enabled st :
  ∃ td dp sl,
    fst (toggleAnomalyMode enabled st)
    = set_selectionList sl
        (set_dataPoints dp
           (set_timeDisplay td
              (set_legendAnomaly enabled
                 (set_currentColorScale
                    (if enabled then anomalyColorScale
                     else absoluteColorScale)
                    (set_isAnomalyMode enabled st))))).
Proof.
  unfold toggleAnomalyMode. cbv zeta.
  destruct (refresh_items _ _) as [items [|]]; cbn [and_then].
  - frame_heatmap. by exists td, dp, sl.
  - eexists (timeDisplay st), (dataPoints st), items. by destruct st.
Qed.

Lemma deferred_draw_frame j st :
  ∃ sl, fst (deferred_draw j st) = set_selectionList sl st.
Proof.
  unfold deferred_draw.
  destruct (calculateCountryTrend st (job_feature j)) as [trendData|].
  - destruct trendData as [[|e series]|]; cbn [fst].
    + by eexists.
    + destruct (stats_raise (e :: series)); cbn [fst]; by eexists.
    + by eexists.
  - exists (selectionList st). by destruct st.
Qed.

Lemma remove_first_sublist id (l : list item) :
  remove_first id l `sublist_of` l.
Proof.
  induction l as [|it rest IH]; [constructor|]. cbn [remove_first].
  destruct (decide (countryId it = id)).
  - by apply sublist_cons.
  - by apply sublist_skip.
Qed.

(** The removal writes the list at most, and leaves a sublist of it. *)
Lemma removeFromSelectionList_cases id st :
  ∃ sl, sl `sublist_of` selectionList st
    ∧ (removeFromSelectionList id st = (set_selectionList sl st, Normal)
       ∨ removeFromSelectionList id st = (st, Thrown)).
Proof.
  unfold removeFromSelectionList. destruct (selector_plain id).
  - eexists. split; [apply remove_first_sublist|by left].
  - destruct (querySelector id (selectionList st)) as [| |k].
    + exists (selectionList st). split; [done|by right].
    + exists (selectionList st). split; [done|]. left. by destruct st.
    + eexists. split; [apply sublist_delete|by left].
Qed.

Lemma removeFromSelectionList_plain id st :
  selector_plain id = true →
  removeFromSelectionList id st
  = (set_selectionList (remove_first id (selectionList st)) st, Normal).
Proof. intros Hid. unfold removeFromSelectionList. by rewrite Hid. Qed.

Lemma removeCountry_frame id st :
  ∃ sl, sl `sublist_of` selectionList st
    ∧ removeCountry id st
      = set_selectionList sl
          (updateBorderStyle id false
             (set_countryPaths
                (map (λ p, if decide (getCountryId (datum_of p) = id)
                           then set_hoverClass false
                                  (set_revealedClass false p)
                           else p)
                   (countryPaths st))
                (set_revealedCountries (revealedCountries st ∖ {[id]}) st))).
Proof.
  unfold removeCountry. cbv zeta.
  match goal with
  | |- context [removeFromSelectionList id ?s] =>
      destruct (removeFromSelectionList_cases id s) as (sl & Hsub & [-> | ->])
  end.
  - exists sl. split; [exact Hsub|done].
  - exists (selectionList st). split; [done|]. by destruct st.
Qed.

(** The store after a click on a path: the list loses items or gains the
    new one, and the border is restyled unless the removal raised. *)
Lemma handleClick_cases target st p :
  countryPaths st !! target = Some p →
  let id := getCountryId (datum_of p) in
  if bool_decide (id ∈ revealedCountries st)
  then ∃ sl, sl `sublist_of` selectionList st
         ∧ (handleClick target st
            = updateBorderStyle id false
                (set_selectionList sl
                   (on_target target (set_revealedClass false)
                      (set_revealedCountries (revealedCountries st ∖ {[id]})
                         st)))
            ∨ handleClick target st
              = on_target target (set_revealedClass false)
                  (set_revealedCountries (revealedCountries st ∖ {[id]}) st))
  else handleClick target st
       = updateBorderStyle id true
           (addToSelectionList id (getCountryName (datum_of p)) (datum_of p)
              (on_target target (set_revealedClass true)
                 (set_revealedCountries ({[id]} ∪ revealedCountries st) st))).
Proof.
  intros Hp id. unfold handleClick. rewrite Hp. cbv zeta. fold id.
  case_bool_decide as Hin.
  - match goal with
    | |- context [removeFromSelectionList id ?s] =>
        destruct (removeFromSelectionList_cases id s)
          as (sl & Hsub & [-> | ->])
    end.
    + exists sl. split; [exact Hsub|]. left. cbn [and_then fst].
      f_equal. apply bool_decide_eq_false_2. cbn. set_solver.
    + exists (selectionList st). split; [done|]. by right.
  - cbn [and_then fst]. f_equal. apply bool_decide_eq_true_2.
    unfold addToSelectionList. cbn. set_solver.
Qed.

Lemma handleClick_controls target st :
  controls_of (handleClick target st) = controls_of st.
Proof.
  destruct (countryPaths st !! target) as [p|] eqn:Hp.
  2:{ unfold handleClick. by rewrite Hp. }
  pose proof (handleClick_cases target st p Hp) as H. cbv zeta in H.
  case_bool_decide; [destruct H as (sl & _ & [-> | ->])|rewrite H]; done.
Qed.

Lemma handleClick_dataset target st :
  dataset_of (handleClick target st) = dataset_of st.
Proof.
  destruct (countryPaths st !! target) as [p|] eqn:Hp.
  2:{ unfold handleClick. by rewrite Hp. }
  pose proof (handleClick_cases target st p Hp) as H. cbv zeta in H.
  case_bool_decide; [destruct H as (sl & _ & [-> | ->])|rewrite H]; done.
Qed.

Lemma handleMouseEnter_frame target st :
  ∃ paths, handleMouseEnter target st = set_countryPaths paths st.
Proof.
  unfold handleMouseEnter. destruct (countryPaths st !! target).
  - case_bool_decide; [|by eexists].
    exists (countryPaths st). by destruct st.
  - exists (countryPaths st). by destruct st.
Qed.

Lemma handleMouseLeave_frame target st :
  ∃ paths, handleMouseLeave target st = set_countryPaths paths st.
Proof.
  unfold handleMouseLeave. destruct (countryPaths st !! target).
  - case_bool_decide; [|by eexists].
    exists (countryPaths st). by destruct st.
  - exists (countryPaths st). by destruct st.
Qed.

(** Every event leaves the loaded dataset as it is. *)
Lemma handle_dataset ev st : dataset_of (handle ev st) = dataset_of st.
Proof.
  destruct ev as [t|t|t|id| |v|b|h|k| ]; cbn [handle].
  - apply handleClick_dataset.
  - by destruct (handleMouseEnter_frame t st) as [? ->].
  - by destruct (handleMouseLeave_frame t st) as [? ->].
  - by destruct (removeCountry_frame id st) as (? & _ & ->).
  - unfold togglePlay, clearInterval.
    by destruct (isPlaying st), (animationInterval st).
  - unfold slider_input, togglePlay, clearInterval. store_simpl.
    by destruct (isPlaying st), (animationInterval st).
  - by destruct (toggleAnomalyMode_frame b st) as (? & ? & ? & ->).
  - unfold advance. cbv zeta. by frame_heatmap.
  - destruct (timeouts st !! k) as [j|]; [|done].
    by destruct (deferred_draw_frame j
                   (set_timeouts (delete k (timeouts st)) st)) as [? ->].
  - unfold animation_frame. cbv zeta. by frame_heatmap.
Qed.

Lemma load_body_cases parsedData st :
  match coords parsedData, temperature_source parsedData with
  | Some raw, Some allData =>
      load_body parsedData st
      = renderHeatmap 0 (before_first_frame raw allData st)
  | Some raw, None =>
      load_body parsedData st
      = (set_allTemperatureData None
           (set_screenCoords (map project raw)
              (set_rawCoords (Some raw)
                 (set_timeDisplay "Processing..." st))), Thrown)
  | None, _ =>
      load_body parsedData st
      = (set_rawCoords None (set_timeDisplay "Processing..." st), Thrown)
  end.
Proof.
  unfold load_body. store_simpl.
  destruct (coords parsedData) as [raw|]; [|done].
  by destruct (temperature_source parsedData).
Qed.

(** ** Playback: one timer, an index within bounds *)

(** What holds of the playback variables in every store the page reaches:
    the active interval timers are the one in [animationInterval] while
    playing and none otherwise; once the controls are set up the maximum of
    the slider is the last time index; and the slider value is zero or at
    most the maximum. *)
Record playback_inv (st : state) : Prop := {
  pb_timers :
    intervals st
    = if isPlaying st then option_list (animationInterval st) else [];
  pb_playing : isPlaying st = true → is_Some (animationInterval st);
  pb_max :
    controlsReady st = true →
    sliderMax st = (Z.of_nat (length (timePoints st)) - 1)%Z;
  pb_value :
    sliderValue st = 0 ∨ (Z.of_nat (sliderValue st) ≤ sliderMax st)%Z
}.

Lemma playback_inv_controls st st' :
  controls_of st' = controls_of st → playback_inv st → playback_inv st'.
Proof.
  unfold controls_of. intros [= Hp Ha Hi Hn Hv Hm Hc Ht] [H1 H2 H3 H4].
  constructor; rewrite ?Hp, ?Ha, ?Hi, ?Hv, ?Hm, ?Hc, ?Ht; done.
Qed.

Lemma playback_inv_init features : playback_inv (init_state features).
Proof. constructor; cbn; try done. by left. Qed.

Lemma togglePlay_playback st : playback_inv st → playback_inv (togglePlay st).
Proof.
  intros [H1 H2 H3 H4]. unfold togglePlay, clearInterval.
  destruct (isPlaying st) eqn:Hp.
  - destruct (H2 eq_refl) as [h Hh]. rewrite Hh in H1 |- *.
    constructor; store_simpl; try done.
    rewrite H1. cbn. by rewrite decide_False by (by intros ?).
  - constructor; cbn; try done. by rewrite H1.
Qed.

Lemma togglePlay_view st :
  sliderValue (togglePlay st) = sliderValue st
  ∧ sliderMax (togglePlay st) = sliderMax st
  ∧ controlsReady (togglePlay st) = controlsReady st
  ∧ timePoints (togglePlay st) = timePoints st.
Proof.
  unfold togglePlay, clearInterval.
  by destruct (isPlaying st), (animationInterval st).
Qed.

Lemma advance_controls st :
  controls_of (fst (advance st))
  = controls_of
      (set_sliderValue
         (if bool_decide (Z.of_nat (sliderValue st + 1) > sliderMax st)%Z
          then 0 else sliderValue st + 1) st).
Proof. unfold advance. cbv zeta. by frame_heatmap. Qed.

Ltac same_controls H :=
  eapply playback_inv_controls; [|exact H]; done.

Lemma handle_playback ev st :
  enabled ev st = true → playback_inv st → playback_inv (handle ev st).
Proof.
  intros Hen Hinv.
  destruct ev as [t|t|t|id| |v|b|h|k| ]; cbn [handle].
  - eapply playback_inv_controls; [apply handleClick_controls|done].
  - destruct (handleMouseEnter_frame t st) as [? ->]. same_controls Hinv.
  - destruct (handleMouseLeave_frame t st) as [? ->]. same_controls Hinv.
  - destruct (removeCountry_frame id st) as (? & _ & ->). same_controls Hinv.
  - by apply togglePlay_playback.
  - cbn in Hen. apply andb_true_iff in Hen as [_ Hv%bool_decide_eq_true].
    unfold slider_input. cbv zeta.
    assert (Hinv' : playback_inv (set_sliderValue v st)).
    { destruct Hinv as [H1 H2 H3 H4]. constructor; try done. by right. }
    eapply (playback_inv_controls
              (if isPlaying (set_sliderValue v st)
               then togglePlay (set_sliderValue v st)
               else set_sliderValue v st)); [done|].
    destruct (isPlaying (set_sliderValue v st)); [|done].
    by apply togglePlay_playback.
  - destruct (toggleAnomalyMode_frame b st) as (? & ? & ? & ->).
    same_controls Hinv.
  - eapply playback_inv_controls; [apply advance_controls|].
    destruct Hinv as [H1 H2 H3 H4]. constructor; try done.
    store_simpl. case_bool_decide; [by left|right; lia].
  - destruct (timeouts st !! k) as [j|]; [|done].
    destruct (deferred_draw_frame j
                (set_timeouts (delete k (timeouts st)) st)) as [? ->].
    same_controls Hinv.
  - unfold animation_frame. cbv zeta. frame_heatmap. same_controls Hinv.
Qed.

Lemma loadTemperatureData_playback b st :
  playback_inv st → playback_inv (loadTemperatureData b st).
Proof.
  intros Hinv. unfold loadTemperatureData. cbv zeta.
  destruct b as [|parsedData]; [same_controls Hinv|].
  set (st1 := set_timeDisplay "Downloading data..." st).
  assert (Hinv1 : playback_inv st1) by same_controls Hinv.
  pose proof (load_body_cases parsedData st1) as Hcases.
  destruct (coords parsedData) as [raw|].
  2:{ rewrite Hcases. same_controls Hinv1. }
  destruct (temperature_source parsedData) as [allData|].
  2:{ rewrite Hcases. same_controls Hinv1. }
  rewrite Hcases.
  assert (Hinv2 : playback_inv (before_first_frame raw allData st1)).
  { destruct Hinv1 as [H1 H2 H3 H4]. constructor; try done. by left. }
  destruct (renderHeatmap 0 (before_first_frame raw allData st1))
    as [st' c] eqn:Hr.
  assert (Hst' : st' = fst (renderHeatmap 0
                              (before_first_frame raw allData st1)))
    by by rewrite Hr.
  destruct (renderHeatmap_frame 0 (before_first_frame raw allData st1))
    as (td & dp & sl & Hf).
  rewrite Hf in Hst'. subst st'.
  eapply playback_inv_controls; [|exact Hinv2].
  destruct c; by rewrite ?controls_of_timeDisplay, controls_of_view.
Qed.

Lemma reachable_playback features started st :
  reachable features started st → playback_inv st.
Proof.
  induction 1 as [|b st _ IH|started ev st _ IH Hen].
  - apply playback_inv_init.
  - by apply loadTemperatureData_playback.
  - by apply handle_playback.
Qed.

Lemma togglePlay_after_value v st :
  isPlaying (set_frames (S (frames (togglePlay (set_sliderValue v st))))
               (togglePlay (set_sliderValue v st)))
  = isPlaying (togglePlay st)
  ∧ intervals (set_frames (S (frames (togglePlay (set_sliderValue v st))))
                 (togglePlay (set_sliderValue v st)))
    = intervals (togglePlay st).
Proof.
  unfold togglePlay, clearInterval. store_simpl.
  by destruct (isPlaying st), (animationInterval st).
Qed.

Lemma advance_sliderValue st :
  sliderValue (fst (advance st))
  = if bool_decide (Z.of_nat (sliderValue st + 1) > sliderMax st)%Z
    then 0 else sliderValue st + 1.
Proof.
  pose proof (advance_controls st) as H. unfold controls_of in H.
  by injection H.
Qed.

(** C9. In every store the page reaches, whatever the sequence of events, at
    most one interval timer is active.  [togglePlay] starts a timer only when
    not playing (there is none then, and the new one is the only one) and
    clears the active one when playing; a slider input during playback
    pauses it and leaves no timer, and one outside playback starts none.
    The interval callback moves the slider to the next index and wraps to
    zero past the maximum, so that once the controls are set up the slider
    value is always an index of a time point (when there is any): from the
    last index the callback goes to zero, otherwise to the successor. *)
Theorem one_playback_timer (features : list feature) (started : bool)
    (st : state) :
  reachable features started st →
  length (intervals st) ≤ 1
  ∧ (isPlaying st = false →
     intervals st = []
     ∧ isPlaying (togglePlay st) = true
     ∧ intervals (togglePlay st) = [nextHandle st]
     ∧ animationInterval (togglePlay st) = Some (nextHandle st))
  ∧ (isPlaying st = true →
     isPlaying (togglePlay st) = false ∧ intervals (togglePlay st) = [])
  ∧ (∀ v, isPlaying (slider_input v st) = false
          ∧ intervals (slider_input v st) = [])
  ∧ sliderValue (fst (advance st))
    = (if bool_decide (Z.of_nat (sliderValue st + 1) > sliderMax st)%Z
       then 0 else sliderValue st + 1)
  ∧ (controlsReady st = true →
     (timePoints st ≠ [] → sliderValue st < length (timePoints st))
     ∧ (S (sliderValue st) = length (timePoints st) →
        sliderValue (fst (advance st)) = 0)
     ∧ (S (sliderValue st) < length (timePoints st) →
        sliderValue (fst (advance st)) = S (sliderValue st))).
Proof.
  intros Hreach. pose proof (reachable_playback _ _ _ Hreach) as Hinv.
  pose proof (togglePlay_playback st Hinv) as Hinv'.
  destruct Hinv as [H1 H2 H3 H4].
  split.
  { rewrite H1. destruct (isPlaying st); [|cbn; lia].
    destruct (animationInterval st); cbn; lia. }
  split.
  { intros Hp. rewrite Hp in H1. split; [done|].
    unfold togglePlay. rewrite Hp. cbn. by rewrite H1. }
  assert (Hpause : isPlaying st = true →
            isPlaying (togglePlay st) = false
            ∧ intervals (togglePlay st) = []).
  { intros Hp. destruct Hinv' as [H1' _ _ _].
    assert (Hp' : isPlaying (togglePlay st) = false).
    { unfold togglePlay. by rewrite Hp. }
    split; [done|]. by rewrite H1', Hp'. }
  split; [done|].
  split.
  { intros v. unfold slider_input. cbv zeta.
    change (isPlaying (set_sliderValue v st)) with (isPlaying st).
    destruct (isPlaying st) eqn:Hp.
    - destruct (Hpause eq_refl) as [Hq Hi].
      destruct (togglePlay_after_value v st) as [-> ->]. done.
    - split; [done|]. cbn. by rewrite H1. }
  split; [apply advance_sliderValue|].
  intros Hready. specialize (H3 Hready).
  rewrite advance_sliderValue.
  split; [|split].
  - intros Hne. destruct (timePoints st); [done|]. cbn in *. lia.
  - intros Hlast. rewrite bool_decide_eq_true_2; [done|]. lia.
  - intros Hlt. rewrite bool_decide_eq_false_2; lia.
Qed.

(** ** Revealing and hiding a country *)

(** The restyling that [updateBorderStyle] applies to one border. *)
Definition restyle (id : string) (isRevealed : bool) (b : border_el)
    : border_el :=
  if decide (getCountryId (border_datum b) = id)
  then style_border isRevealed b else b.

(** Every border is styled after the membership of its country in the
    revealed set. *)
Definition border_inv (st : state) : Prop :=
  Forall (λ b, style_border
                 (bool_decide (getCountryId (border_datum b)
                               ∈ revealedCountries st)) b = b)
    (countryBorders st).

Lemma border_inv_selection st st' :
  selection_of st' = selection_of st → border_inv st → border_inv st'.
Proof.
  unfold selection_of, border_inv. intros [= Hr Hb]. by rewrite Hr, Hb.
Qed.

Lemma border_inv_init features : border_inv (init_state features).
Proof.
  unfold border_inv. cbn. apply Forall_fmap, Forall_forall. by intros f _.
Qed.

Lemma restyle_inv id (revealed revealed' : gset string) borders :
  (∀ k, k ≠ id → k ∈ revealed' ↔ k ∈ revealed) →
  Forall (λ b, style_border
                 (bool_decide (getCountryId (border_datum b) ∈ revealed)) b
               = b) borders →
  Forall (λ b, style_border
                 (bool_decide (getCountryId (border_datum b) ∈ revealed')) b
               = b)
    (map (restyle id (bool_decide (id ∈ revealed'))) borders).
Proof.
  intros Hother Hall. apply Forall_fmap. eapply Forall_impl; [exact Hall|].
  intros b Hb. cbv [compose restyle]. cbv beta in Hb |- *.
  destruct (decide (getCountryId (border_datum b) = id)) as [Hid|Hne].
  - change (border_datum (style_border (bool_decide (id ∈ revealed')) b))
      with (border_datum b).
    by rewrite Hid.
  - by rewrite (bool_decide_ext _ _ (Hother _ Hne)).
Qed.

(** The country ids of the features are plain for selectors. *)
Definition plain_ids (features : list feature) : Prop :=
  Forall (λ f, selector_plain (getCountryId f) = true) features.

(** An event whose removal from the list, if any, uses a plain selector. *)
Definition plain_event (ev : event) (st : state) : Prop :=
  match ev with
  | Click target =>
      ∀ p, countryPaths st !! target = Some p →
           selector_plain (getCountryId (datum_of p)) = true
  | RemoveButton id => selector_plain id = true
  | _ => True
  end.

Lemma handleClick_revealed target st p :
  countryPaths st !! target = Some p →
  let id := getCountryId (datum_of p) in
  revealedCountries (handleClick target st)
  = (if bool_decide (id ∈ revealedCountries st)
     then revealedCountries st ∖ {[id]}
     else {[id]} ∪ revealedCountries st)
  ∧ ∃ p', countryPaths (handleClick target st) !! target = Some p'
      ∧ datum_of p' = datum_of p.
Proof.
  intros Hp id. pose proof (handleClick_cases target st p Hp) as H.
  cbv zeta in H. fold id in H.
  destruct (bool_decide (id ∈ revealedCountries st)).
  - destruct H as (sl & _ & [-> | ->]); unfold on_target; store_simpl.
    + split; [done|]. cbn.
      rewrite list_lookup_alter_eq, Hp. eexists. split; [reflexivity|done].
    + split; [done|].
      rewrite list_lookup_alter_eq, Hp. eexists. split; [reflexivity|done].
  - rewrite H. split; [done|]. cbn.
    rewrite list_lookup_alter_eq, Hp. eexists. split; [reflexivity|done].
Qed.

(** A click whose removal, if any, uses a plain selector. *)
Lemma handleClick_plain target st p :
  countryPaths st !! target = Some p →
  let id := getCountryId (datum_of p) in
  selector_plain id = true ∨ id ∉ revealedCountries st →
  handleClick target st
  = if bool_decide (id ∈ revealedCountries st)
    then updateBorderStyle id false
           (set_selectionList (remove_first id (selectionList st))
              (on_target target (set_revealedClass false)
                 (set_revealedCountries (revealedCountries st ∖ {[id]}) st)))
    else updateBorderStyle id true
           (addToSelectionList id (getCountryName (datum_of p)) (datum_of p)
              (on_target target (set_revealedClass true)
                 (set_revealedCountries ({[id]} ∪ revealedCountries st) st))).
Proof.
  intros Hp id Hplain. pose proof (handleClick_cases target st p Hp) as H.
  cbv zeta in H. fold id in H.
  case_bool_decide as Hin; [|exact H].
  destruct Hplain as [Hplain|?]; [|done]. clear H.
  unfold handleClick. rewrite Hp. cbv zeta. fold id.
  rewrite bool_decide_eq_true_2 by done.
  rewrite removeFromSelectionList_plain by done. cbn [and_then fst].
  f_equal. apply bool_decide_eq_false_2. cbn. set_solver.
Qed.

Lemma handleClick_selection target st p :
  countryPaths st !! target = Some p →
  let id := getCountryId (datum_of p) in
  let revealed' :=
    if bool_decide (id ∈ revealedCountries st)
    then revealedCountries st ∖ {[id]}
    else {[id]} ∪ revealedCountries st in
  selector_plain id = true ∨ id ∉ revealedCountries st →
  revealedCountries (handleClick target st) = revealed'
  ∧ countryBorders (handleClick target st)
    = map (restyle id (bool_decide (id ∈ revealed'))) (countryBorders st)
  ∧ ∃ p', countryPaths (handleClick target st) !! target = Some p'
      ∧ datum_of p' = datum_of p.
Proof.
  intros Hp id revealed' Hplain.
  destruct (handleClick_revealed target st p Hp) as [Hr Hpath].
  fold id in Hr. split; [exact Hr|]. split; [|exact Hpath].
  rewrite (handleClick_plain target st p Hp Hplain). fold id.
  subst revealed'. case_bool_decide as Hin.
  - rewrite (bool_decide_eq_false_2 (id ∈ revealedCountries st ∖ {[id]}))
      by set_solver.
    done.
  - rewrite (bool_decide_eq_true_2 (id ∈ {[id]} ∪ revealedCountries st))
      by set_solver.
    done.
Qed.

Lemma handleClick_border target st :
  plain_event (Click target) st →
  border_inv st → border_inv (handleClick target st).
Proof.
  intros Hplain Hinv. destruct (countryPaths st !! target) as [p|] eqn:Hp.
  2:{ unfold handleClick. by rewrite Hp. }
  destruct (handleClick_selection target st p Hp) as (Hr & Hb & _).
  { left. by apply Hplain. }
  unfold border_inv. rewrite Hb, Hr.
  apply (restyle_inv _ (revealedCountries st)); [|done].
  clear Hr Hb. intros k Hk. case_bool_decide; set_solver.
Qed.

Lemma removeCountry_border id st :
  border_inv st → border_inv (removeCountry id st).
Proof.
  intros Hinv. destruct (removeCountry_frame id st) as (sl & _ & ->).
  unfold border_inv, updateBorderStyle. store_simpl.
  assert (Hf : false = bool_decide (id ∈ revealedCountries st ∖ {[id]})).
  { symmetry. apply bool_decide_eq_false. set_solver. }
  rewrite Hf.
  apply (restyle_inv _ (revealedCountries st)); [|done].
  intros k Hk. set_solver.
Qed.

Lemma handle_border ev st :
  plain_event ev st → border_inv st → border_inv (handle ev st).
Proof.
  intros Hplain Hinv.
  destruct ev as [t|t|t|id| |v|b|h|k| ]; cbn [handle].
  - by apply handleClick_border.
  - destruct (handleMouseEnter_frame t st) as [? ->].
    by eapply border_inv_selection.
  - destruct (handleMouseLeave_frame t st) as [? ->].
    by eapply border_inv_selection.
  - by apply removeCountry_border.
  - eapply border_inv_selection; [|exact Hinv].
    unfold togglePlay, clearInterval.
    by destruct (isPlaying st), (animationInterval st).
  - eapply border_inv_selection; [|exact Hinv].
    unfold slider_input, togglePlay, clearInterval. store_simpl.
    by destruct (isPlaying st), (animationInterval st).
  - destruct (toggleAnomalyMode_frame b st) as (? & ? & ? & ->).
    by eapply border_inv_selection.
  - unfold advance. cbv zeta. frame_heatmap. by eapply border_inv_selection.
  - destruct (timeouts st !! k) as [j|]; [|done].
    destruct (deferred_draw_frame j
                (set_timeouts (delete k (timeouts st)) st)) as [? ->].
    by eapply border_inv_selection.
  - unfold animation_frame. cbv zeta. frame_heatmap.
    by eapply border_inv_selection.
Qed.

Lemma loadTemperatureData_selection b st :
  selection_of (loadTemperatureData b st) = selection_of st.
Proof.
  unfold loadTemperatureData. cbv zeta.
  destruct b as [|parsedData]; [done|].
  set (st1 := set_timeDisplay "Downloading data..." st).
  pose proof (load_body_cases parsedData st1) as Hcases.
  destruct (coords parsedData) as [raw|]; [|by rewrite Hcases].
  destruct (temperature_source parsedData) as [allData|];
    [|by rewrite Hcases].
  rewrite Hcases.
  destruct (renderHeatmap 0 (before_first_frame raw allData st1))
    as [st' c] eqn:Hr.
  assert (Hst' : st' = fst (renderHeatmap 0
                              (before_first_frame raw allData st1)))
    by by rewrite Hr.
  destruct (renderHeatmap_frame 0 (before_first_frame raw allData st1))
    as (td & dp & sl & Hf).
  rewrite Hf in Hst'. subst st'.
  destruct c; by rewrite ?selection_of_timeDisplay, selection_of_view.
Qed.

Lemma restyle_twice_id id r1 r2 borders :
  Forall (λ b, getCountryId (border_datum b) = id → style_border r2 b = b)
    borders →
  map (restyle id r2) (map (restyle id r1) borders) = borders.
Proof.
  induction 1 as [|b l Hb _ IH]; [done|].
  cbn. rewrite IH. f_equal. unfold restyle.
  destruct (decide (getCountryId (border_datum b) = id)) as [Hid|Hne].
  - cbn. rewrite decide_True by done. by apply Hb.
  - by rewrite decide_False.
Qed.

(** ** The example of the specification *)

Definition example_coords : list coord :=
  [(num_of_Z 0, num_of_Z 0); (num_of_Z 10, num_of_Z 10)].

Definition example_temperatures : gmap string (list jsval) :=
  <["2015-01-01" := [JNum (num_of_Z 280); JNum (num_of_Z 290)]]>
    (<["2016-01-01" := [JNum (num_of_Z 282); JNum (num_of_Z 285)]]> ∅).

Definition example_payload : parsed :=
  {| coords := Some example_coords;
     temperatures := Some example_temperatures;
     data := None |}.

(** The dates and values of a series. *)
Definition points_of (series : list entry) : list (string * number) :=
  map (λ e, (rawDate e, val e)) series.

Lemma loaded_dataset raw allData st st' :
  dataset_of st' = dataset_of st →
  loaded raw allData st → loaded raw allData st'.
Proof.
  unfold dataset_of. intros [= Hr Hs Hd Ht _] [H1 H2 H3 H4].
  constructor; congruence.
Qed.

Lemma loadTemperatureData_loaded parsedData st raw allData :
  coords parsedData = Some raw →
  temperature_source parsedData = Some allData →
  loaded raw allData (loadTemperatureData (Payload parsedData) st).
Proof.
  intros Hc Hs.
  destruct (load_body_loaded parsedData
              (set_timeDisplay "Downloading data..." st) raw allData Hc Hs)
    as [Hn Hl].
  by rewrite loadTemperatureData_payload.
Qed.

(** The store after a payload with coordinates and readings is loaded. *)
Lemma loadTemperatureData_good parsedData st raw allData :
  coords parsedData = Some raw →
  temperature_source parsedData = Some allData →
  ∃ td dp sl,
    loadTemperatureData (Payload parsedData) st
    = set_selectionList sl
        (set_dataPoints dp
           (set_timeDisplay td
              (before_first_frame raw allData
                 (set_timeDisplay "Downloading data..." st)))).
Proof.
  intros Hc Hs.
  destruct (load_body_loaded parsedData
              (set_timeDisplay "Downloading data..." st) raw allData Hc Hs)
    as [Hn _].
  rewrite loadTemperatureData_payload by done.
  rewrite (load_body_unfold _ _ raw allData Hc Hs). apply renderHeatmap_frame.
Qed.

Lemma loadTemperatureData_baseline parsedData st raw allData :
  coords parsedData = Some raw →
  temperature_source parsedData = Some allData →
  baseline_loaded allData (loadTemperatureData (Payload parsedData) st).
Proof.
  intros Hc Hs.
  destruct (loadTemperatureData_good parsedData st raw allData Hc Hs)
    as (td & dp & sl & ->).
  by exists (baselineData st).
Qed.

Lemma example_sorted_keys :
  sorted_keys example_temperatures = ["2015-01-01"; "2016-01-01"].
Proof. by vm_compute. Qed.

Lemma example_points_absolute st :
  isAnomalyMode st = false →
  points_of (map (entry_of st example_temperatures [0])
               ["2015-01-01"; "2016-01-01"])
  = [("2015-01-01", num_of_Z 280); ("2016-01-01", num_of_Z 282)].
Proof.
  intros Habs. unfold points_of, entry_of. cbn [map rawDate val].
  rewrite Habs. vm_compute. reflexivity.
Qed.

Lemma example_points_anomaly st :
  isAnomalyMode st = true →
  baselineData st !! "01"
  = Some [JNum (num_of_Z 280); JNum (num_of_Z 290)] →
  points_of (map (entry_of st example_temperatures [0])
               ["2015-01-01"; "2016-01-01"])
  = [("2015-01-01", num_of_Z 0); ("2016-01-01", num_of_Z 2)].
Proof.
  intros Hmode Hbase. unfold points_of, entry_of, baseline_for.
  cbn [map rawDate val]. rewrite Hmode.
  change (prop_key (month_of "2015-01-01")) with "01".
  change (prop_key (month_of "2016-01-01")) with "01".
  rewrite (baseline_get_own _ _ _ Hbase). vm_compute. reflexivity.
Qed.

Lemma example_indices feature :
  geoContains feature (num_of_Z 0, num_of_Z 0) = true →
  geoContains feature (num_of_Z 10, num_of_Z 10) = false →
  contained_indices feature example_coords = [0].
Proof.
  intros Hin Hout. unfold contained_indices, example_coords.
  cbn [length seq]. rewrite !filter_cons, filter_nil.
  unfold contained_at. cbn [lookup list_lookup]. rewrite Hin, Hout. done.
Qed.

Lemma example_store features :
  let st := loadTemperatureData (Payload example_payload)
              (init_state features) in
  isAnomalyMode st = false
  ∧ baselineData st !! "01"
    = Some [JNum (num_of_Z 280); JNum (num_of_Z 290)].
Proof.
  destruct (loadTemperatureData_good example_payload (init_state features)
              example_coords example_temperatures eq_refl eq_refl)
    as (td & dp & sl & ->).
  split; [reflexivity|].
  change (extract_baseline example_temperatures
            (sorted_keys example_temperatures) ∅ !! "01"
          = Some [JNum (num_of_Z 280); JNum (num_of_Z 290)]).
  vm_compute. reflexivity.
Qed.

(** C4. On the dataset [coords = [[0,0],[10,10]]],
    [temperatures = {"2015-01-01": [280,290], "2016-01-01": [282,285]}], for
    a boundary that contains the first coordinate only: the loader stores
    [[280,290]] as the baseline of month "01"; in absolute mode
    [calculateCountryTrend] gives the series (2015-01-01, 280),
    (2016-01-01, 282); and once anomaly mode is switched on it gives 0 for
    2015 and 282 - 280 = 2 for 2016. *)
Theorem example_trend (features : list feature) (feature : feature) :
  geoContains feature (num_of_Z 0, num_of_Z 0) = true →
  geoContains feature (num_of_Z 10, num_of_Z 10) = false →
  let st := loadTemperatureData (Payload example_payload)
              (init_state features) in
  baselineData st !! "01"
  = Some [JNum (num_of_Z 280); JNum (num_of_Z 290)]
  ∧ (∃ series,
       calculateCountryTrend st feature = Ok (Some series)
       ∧ points_of series
         = [("2015-01-01", num_of_Z 280); ("2016-01-01", num_of_Z 282)])
  ∧ (∃ series,
       calculateCountryTrend (fst (toggleAnomalyMode true st)) feature
       = Ok (Some series)
       ∧ points_of series
         = [("2015-01-01", num_of_Z 0); ("2016-01-01", num_of_Z 2)]).
Proof.
  intros Hin Hout.
  pose proof (example_indices feature Hin Hout) as Hidx.
  pose proof (example_store features) as Hstore.
  pose proof (loadTemperatureData_loaded example_payload
                (init_state features) example_coords example_temperatures
                eq_refl eq_refl) as Hl.
  revert Hstore Hl.
  generalize (loadTemperatureData (Payload example_payload)
                (init_state features)).
  intros st [Habs Hbase] Hl. cbv zeta.
  split; [exact Hbase|]. split.
  - eexists. split.
    + apply (calculateCountryTrend_loaded _ _ _ _ Hl). by rewrite Hidx.
    + rewrite Hidx, example_sorted_keys. by apply example_points_absolute.
  - assert (Hds : dataset_of (fst (toggleAnomalyMode true st)) = dataset_of st).
    { destruct (toggleAnomalyMode_frame true st) as (? & ? & ? & ->).
      reflexivity. }
    assert (Hmode : isAnomalyMode (fst (toggleAnomalyMode true st)) = true).
    { destruct (toggleAnomalyMode_frame true st) as (? & ? & ? & ->).
      reflexivity. }
    revert Hds Hmode. generalize (fst (toggleAnomalyMode true st)).
    intros st' Hds Hmode.
    assert (Hl' : loaded example_coords example_temperatures st')
      by (eapply loaded_dataset; [exact Hds|exact Hl]).
    assert (Hbase' : baselineData st' = baselineData st).
    { unfold dataset_of in Hds. congruence. }
    eexists. split.
    + apply (calculateCountryTrend_loaded _ _ _ _ Hl'). by rewrite Hidx.
    + rewrite Hidx, example_sorted_keys.
      apply example_points_anomaly; [done|]. by rewrite Hbase'.
Qed.

(** * Further properties of the script *)

(** ** Country identifiers *)

Lemma truthy_nonempty o s : truthy o = Some s → s ≠ "".
Proof.
  unfold truthy. destruct o as [s'|]; [|done].
  destruct (decide (s' = "")); [done|]. by intros [= <-].
Qed.

Lemma truthy_Some s : s ≠ "" → truthy (Some s) = Some s.
Proof. intros Hne. cbn. by rewrite decide_False. Qed.

(** X1. [getCountryId] never gives the empty string: it is the first
    non-empty one of [iso_a3], [adm0_a3], [id] and [name], and "unknown" when
    there is none; likewise [getCountryName] is the non-empty name or
    "Unknown". *)
Theorem getCountryId_nonempty (feature : feature) :
  getCountryId feature ≠ ""
  ∧ getCountryName feature ≠ ""
  ∧ (∀ s, iso_a3 feature = Some s → s ≠ "" → getCountryId feature = s)
  ∧ (truthy (iso_a3 feature) = None →
     (∀ s, adm0_a3 feature = Some s → s ≠ "" → getCountryId feature = s)
     ∧ (truthy (adm0_a3 feature) = None →
        (∀ s, fid feature = Some s → s ≠ "" → getCountryId feature = s)
        ∧ (truthy (fid feature) = None →
           (∀ s, name feature = Some s → s ≠ "" →
              getCountryId feature = s)
           ∧ (truthy (name feature) = None →
              getCountryId feature = "unknown"))))
  ∧ (∀ s, name feature = Some s → s ≠ "" → getCountryName feature = s)
  ∧ (truthy (name feature) = None → getCountryName feature = "Unknown").
Proof.
  unfold getCountryId, getCountryName.
  split; [|split; [|split; [|split; [|split]]]].
  - destruct (truthy (iso_a3 feature)) eqn:E1; [by eapply truthy_nonempty|].
    destruct (truthy (adm0_a3 feature)) eqn:E2; [by eapply truthy_nonempty|].
    destruct (truthy (fid feature)) eqn:E3; [by eapply truthy_nonempty|].
    destruct (truthy (name feature)) eqn:E4; [by eapply truthy_nonempty|].
    done.
  - destruct (truthy (name feature)) eqn:E4; [by eapply truthy_nonempty|].
    done.
  - intros s Hs Hne. by rewrite Hs, truthy_Some.
  - intros ->. split; [intros s Hs Hne; by rewrite Hs, truthy_Some|].
    intros ->. split; [intros s Hs Hne; by rewrite Hs, truthy_Some|].
    intros ->. split; [intros s Hs Hne; by rewrite Hs, truthy_Some|].
    by intros ->.
  - intros s Hs Hne. by rewrite Hs, truthy_Some.
  - by intros ->.
Qed.

(** ** The sidebar and the revealed set *)

(** What identifies a listed item and is never rewritten. *)
Definition item_key (it : item) : nat * string * string * feature :=
  (node it, countryId it, countryName it, featureData it).

Lemma refresh_item_key st it : item_key (fst (refresh_item st it)) = item_key it.
Proof.
  unfold refresh_item. cbv zeta.
  destruct (calculateCountryTrend _ _) as [trendData|]; [|done].
  destruct (updateCountryStats _ _ _) as [box [|]]; [|done].
  by destruct (drawDetailedChart _ _ _).
Qed.

Lemma refresh_items_keys st items :
  map item_key (fst (refresh_items st items)) = map item_key items.
Proof.
  induction items as [|it rest IH]; [done|]. cbn [refresh_items].
  pose proof (refresh_item_key st it) as Hk.
  destruct (refresh_item st it) as [it' [|]]; cbn in Hk.
  - destruct (refresh_items st rest) as [rest' c]. cbn in IH |- *.
    by rewrite Hk, IH.
  - cbn. by rewrite Hk.
Qed.

Lemma updateChartsSync_keys timeIndex st :
  map item_key (selectionList (updateChartsSync timeIndex st))
  = map item_key (selectionList st).
Proof.
  unfold updateChartsSync. store_simpl. rewrite map_map.
  by apply map_ext.
Qed.

Lemma renderHeatmap_keys timeIndex st :
  map item_key (selectionList (fst (renderHeatmap timeIndex st)))
  = map item_key (selectionList st).
Proof.
  unfold renderHeatmap. cbv zeta.
  destruct (timePoints st); [done|].
  destruct (allTemperatureData _); [|done].
  destruct (if isAnomalyMode _ then _ else _); [|done].
  destruct (assemble _ _ _ _ _); [|done].
  cbn [fst]. by rewrite updateChartsSync_keys.
Qed.

Lemma toggleAnomalyMode_keys enabled st :
  map item_key (selectionList (fst (toggleAnomalyMode enabled st)))
  = map item_key (selectionList st).
Proof.
  unfold toggleAnomalyMode. cbv zeta.
  match goal with
  | |- context [refresh_items ?s ?l] =>
      pose proof (refresh_items_keys s l) as Hk;
      destruct (refresh_items s l) as [items [|]]
  end; cbn [and_then fst] in *.
  - by rewrite renderHeatmap_keys.
  - exact Hk.
Qed.

Lemma draw_item_key anomaly trendData it :
  item_key (fst (draw_item anomaly trendData it)) = item_key it.
Proof.
  unfold draw_item. cbv zeta. destruct trendData as [[|e series]|]; [done| |done].
  destruct (updateCountryStats _ _ _) as [box [|]]; [|done].
  by destruct (drawDetailedChart _ _ _).
Qed.

Lemma deferred_draw_keys j st :
  map item_key (selectionList (fst (deferred_draw j st)))
  = map item_key (selectionList st).
Proof.
  unfold deferred_draw.
  destruct (calculateCountryTrend st (job_feature j)) as [trendData|]; [|done].
  cbv zeta.
  assert (Hmap : map item_key
                   (map (λ it, if decide (node it = job_node j)
                               then fst (draw_item (isAnomalyMode st)
                                           trendData it)
                               else it) (selectionList st))
                 = map item_key (selectionList st)).
  { rewrite map_map. apply map_ext. intros it.
    destruct (decide (node it = job_node j)); [apply draw_item_key|done]. }
  destruct trendData as [[|e series]|]; cbn [fst]; [done| |done].
  destruct (stats_raise (e :: series)); cbn [fst]; [done|].
  by rewrite updateChartsSync_keys.
Qed.

(** *** Where the paths and the listed items come from *)

Lemma alter_data target f (paths : list path_el) :
  (∀ p, datum_of (f p) = datum_of p) →
  map datum_of (alter f target paths) = map datum_of paths.
Proof.
  intros Hf. apply list_eq. intros k.
  rewrite !list_lookup_fmap. destruct (decide (k = target)) as [->|Hne].
  - rewrite list_lookup_alter_eq.
    destruct (paths !! target); cbn; by rewrite ?Hf.
  - by rewrite list_lookup_alter_ne.
Qed.

(** Every event leaves the data of the country paths as they are. *)
Lemma handle_path_data ev st :
  map datum_of (countryPaths (handle ev st)) = map datum_of (countryPaths st).
Proof.
  destruct ev as [t|t|t|id| |v|b|h|k| ]; cbn [handle].
  - destruct (countryPaths st !! t) as [p|] eqn:Hp.
    2:{ unfold handleClick. by rewrite Hp. }
    pose proof (handleClick_cases t st p Hp) as H. cbv zeta in H.
    case_bool_decide; [destruct H as (sl & _ & [-> | ->])|rewrite H].
    + unfold updateBorderStyle, on_target. store_simpl.
      apply alter_data. by intros [].
    + unfold on_target. store_simpl. apply alter_data. by intros [].
    + unfold updateBorderStyle, addToSelectionList, on_target. store_simpl.
      apply alter_data. by intros [].
  - unfold handleMouseEnter. destruct (countryPaths st !! t); [|done].
    case_bool_decide; [done|]. unfold on_target. store_simpl.
    apply alter_data. by intros [].
  - unfold handleMouseLeave. destruct (countryPaths st !! t); [|done].
    case_bool_decide; [done|]. unfold on_target. store_simpl.
    apply alter_data. by intros [].
  - destruct (removeCountry_frame id st) as (sl & _ & ->).
    unfold updateBorderStyle. store_simpl. rewrite map_map.
    apply map_ext. intros p.
    by destruct (decide (getCountryId (datum_of p) = id)).
  - unfold togglePlay, clearInterval.
    by destruct (isPlaying st), (animationInterval st).
  - unfold slider_input, togglePlay, clearInterval. store_simpl.
    by destruct (isPlaying st), (animationInterval st).
  - by destruct (toggleAnomalyMode_frame b st) as (? & ? & ? & ->).
  - unfold advance. cbv zeta. by frame_heatmap.
  - destruct (timeouts st !! k) as [j|]; [|done].
    by destruct (deferred_draw_frame j
                   (set_timeouts (delete k (timeouts st)) st)) as [? ->].
  - unfold animation_frame. cbv zeta. by frame_heatmap.
Qed.

Lemma loadTemperatureData_countryPaths b st :
  countryPaths (loadTemperatureData b st) = countryPaths st.
Proof.
  unfold loadTemperatureData. cbv zeta.
  destruct b as [|parsedData]; [done|].
  set (st1 := set_timeDisplay "Downloading data..." st).
  pose proof (load_body_cases parsedData st1) as Hcases.
  destruct (coords parsedData) as [raw|]; [|by rewrite Hcases].
  destruct (temperature_source parsedData) as [allData|];
    [|by rewrite Hcases].
  rewrite Hcases.
  change (countryPaths st)
    with (countryPaths (before_first_frame raw allData st1)).
  generalize (before_first_frame raw allData st1). intros st2.
  destruct (renderHeatmap_frame 0 st2) as (td & dp & sl & Hf).
  destruct (renderHeatmap 0 st2) as [st' c]. cbn [fst] in Hf. subst st'.
  by destruct c.
Qed.

(** The country paths carry the features, in order. *)
Lemma reachable_path_data features started st :
  reachable features started st → map datum_of (countryPaths st) = features.
Proof.
  induction 1 as [|b st _ IH|started ev st _ IH Hen].
  - cbn. rewrite map_map. cbn. apply map_id.
  - by rewrite loadTemperatureData_countryPaths.
  - by rewrite handle_path_data.
Qed.

(** The identities of the listed items after an event: some of those before,
    in order, or those before and the item of the clicked path. *)
Lemma handle_keys ev st :
  map item_key (selectionList (handle ev st))
    `sublist_of` map item_key (selectionList st)
  ∨ ∃ t p, ev = Click t ∧ countryPaths st !! t = Some p
      ∧ map item_key (selectionList (handle ev st))
        = map item_key (selectionList st)
          ++ [(nextNode st, getCountryId (datum_of p),
               getCountryName (datum_of p), datum_of p)].
Proof.
  destruct ev as [t|t|t|id| |v|b|h|k| ]; cbn [handle].
  - destruct (countryPaths st !! t) as [p|] eqn:Hp.
    2:{ left. unfold handleClick. by rewrite Hp. }
    pose proof (handleClick_cases t st p Hp) as H. cbv zeta in H.
    case_bool_decide; [destruct H as (sl & Hsub & [-> | ->])|rewrite H].
    + left. by apply fmap_sublist.
    + by left.
    + right. exists t, p. split; [done|]. split; [done|].
      unfold updateBorderStyle, addToSelectionList, on_target. store_simpl.
      by rewrite map_app.
  - left. by destruct (handleMouseEnter_frame t st) as [? ->].
  - left. by destruct (handleMouseLeave_frame t st) as [? ->].
  - left. destruct (removeCountry_frame id st) as (sl & Hsub & ->).
    by apply fmap_sublist.
  - left. unfold togglePlay, clearInterval.
    by destruct (isPlaying st), (animationInterval st).
  - left. unfold slider_input, togglePlay, clearInterval. store_simpl.
    by destruct (isPlaying st), (animationInterval st).
  - left. by rewrite toggleAnomalyMode_keys.
  - left. unfold advance. cbv zeta. by rewrite renderHeatmap_keys.
  - left. destruct (timeouts st !! k) as [j|]; [|done].
    by rewrite deferred_draw_keys.
  - left. unfold animation_frame. cbv zeta. by rewrite renderHeatmap_keys.
Qed.

(** Every listed item is the item of a feature of the map. *)
Definition listed_inv (features : list feature) (st : state) : Prop :=
  Forall (λ k, k.2 ∈ features ∧ k.1.1.2 = getCountryId k.2)
    (map item_key (selectionList st)).

Lemma loadTemperatureData_keys b st :
  map item_key (selectionList (loadTemperatureData b st))
  = map item_key (selectionList st).
Proof.
  unfold loadTemperatureData. cbv zeta.
  destruct b as [|parsedData]; [done|].
  set (st1 := set_timeDisplay "Downloading data..." st).
  pose proof (load_body_cases parsedData st1) as Hcases.
  destruct (coords parsedData) as [raw|]; [|by rewrite Hcases].
  destruct (temperature_source parsedData) as [allData|];
    [|by rewrite Hcases].
  rewrite Hcases.
  change (selectionList st)
    with (selectionList (before_first_frame raw allData st1)).
  generalize (before_first_frame raw allData st1). intros st2.
  pose proof (renderHeatmap_keys 0 st2) as Hk.
  destruct (renderHeatmap 0 st2) as [st' c]. cbn [fst] in Hk.
  by destruct c.
Qed.

Lemma reachable_listed features started st :
  reachable features started st → listed_inv features st.
Proof.
  induction 1 as [|b st _ IH|started ev st Hreach IH Hen].
  - constructor.
  - unfold listed_inv. by rewrite loadTemperatureData_keys.
  - unfold listed_inv in *.
    destruct (handle_keys ev st) as [Hsub|(t & p & _ & Hp & ->)].
    + rewrite Forall_forall in IH |- *. intros k Hk. apply IH.
      by eapply elem_of_sublist.
    + apply Forall_app. split; [done|]. apply Forall_singleton. cbn.
      split; [|done].
      rewrite <- (reachable_path_data _ _ _ Hreach).
      apply list_elem_of_fmap. exists p. split; [done|].
      by eapply list_elem_of_lookup_2.
Qed.

(** With plain country ids, every event the browser delivers removes with a
    plain selector. *)
Lemma reachable_plain_event features started ev st :
  plain_ids features →
  reachable features started st →
  enabled ev st = true →
  plain_event ev st.
Proof.
  intros Hplain Hreach Hen. unfold plain_ids in Hplain.
  rewrite Forall_forall in Hplain.
  destruct ev as [t|t|t|id| |v|b|h|k| ]; try done.
  - intros p Hp. apply Hplain.
    rewrite <- (reachable_path_data _ _ _ Hreach).
    apply list_elem_of_fmap. exists p. split; [done|].
    by eapply list_elem_of_lookup_2.
  - cbn in Hen |- *. apply bool_decide_eq_true in Hen.
    apply list_elem_of_fmap in Hen as (it & -> & Hit).
    pose proof (reachable_listed _ _ _ Hreach) as Hl. unfold listed_inv in Hl.
    rewrite Forall_forall in Hl.
    destruct (Hl (item_key it)) as [Hf Hid].
    { apply list_elem_of_fmap. by exists it. }
    cbn in Hf, Hid. rewrite Hid. by apply Hplain.
Qed.

(** The revealed set and the identities of the listed items. *)
Definition sidebar_of (st : state) :=
  (revealedCountries st, map item_key (selectionList st)).

(** The listed items are the revealed countries, one item each. *)
Definition sidebar_inv (st : state) : Prop :=
  NoDup (map countryId (selectionList st))
  ∧ ∀ id, id ∈ map countryId (selectionList st) ↔ id ∈ revealedCountries st.

Lemma map_countryId_keys (l l' : list item) :
  map item_key l' = map item_key l → map countryId l' = map countryId l.
Proof.
  intros H. apply (f_equal (map (λ k, snd (fst (fst k))))) in H.
  by rewrite !map_map in H.
Qed.

Lemma sidebar_inv_same st st' :
  sidebar_of st' = sidebar_of st → sidebar_inv st → sidebar_inv st'.
Proof.
  unfold sidebar_of, sidebar_inv. intros [= Hr Hk%map_countryId_keys].
  by rewrite Hr, Hk.
Qed.

Lemma remove_first_ids id (l : list item) :
  NoDup (map countryId l) →
  NoDup (map countryId (remove_first id l))
  ∧ ∀ k, k ∈ map countryId (remove_first id l)
         ↔ k ∈ map countryId l ∧ k ≠ id.
Proof.
  induction l as [|it rest IH]; intros Hnd.
  { split; [constructor|]. intros k. cbn. split; [by intros ?%elem_of_nil|].
    by intros [?%elem_of_nil _]. }
  cbn in Hnd. apply NoDup_cons in Hnd as [Hnotin Hnd]. cbn [remove_first].
  destruct (decide (countryId it = id)) as [Hid|Hne].
  - split; [done|]. intros k. cbn. rewrite elem_of_cons. split.
    + intros Hk. split; [by right|]. intros ->. by rewrite Hid in Hnotin.
    + intros [[->|Hk] Hkne]; done.
  - destruct (IH Hnd) as [IH1 IH2]. split.
    + cbn. apply NoDup_cons. split; [|done]. rewrite IH2. by intros [? _].
    + intros k. cbn. rewrite !elem_of_cons, IH2. split.
      * intros [->|[Hk Hkne]]; [split; [by left|done]|split; [by right|done]].
      * intros [[->|Hk] Hkne]; [by left|by right].
Qed.

Lemma handleClick_sidebar target st p :
  countryPaths st !! target = Some p →
  let id := getCountryId (datum_of p) in
  selector_plain id = true ∨ id ∉ revealedCountries st →
  selectionList (handleClick target st)
  = if bool_decide (id ∈ revealedCountries st)
    then remove_first id (selectionList st)
    else selectionList st
         ++ [initial_item (nextNode st) id (getCountryName (datum_of p))
               (datum_of p)].
Proof.
  intros Hp id Hplain. rewrite (handleClick_plain target st p Hp Hplain).
  fold id. by destruct (bool_decide (id ∈ revealedCountries st)).
Qed.

Lemma handleClick_sidebar_inv target st :
  plain_event (Click target) st →
  sidebar_inv st → sidebar_inv (handleClick target st).
Proof.
  intros Hplain [Hnd Hiff].
  destruct (countryPaths st !! target) as [p|] eqn:Hp.
  2:{ unfold handleClick. by rewrite Hp. }
  destruct (handleClick_revealed target st p Hp) as [Hr _].
  pose proof (handleClick_sidebar target st p Hp) as Hs. cbv zeta in Hs.
  specialize (Hs (or_introl (Hplain p Hp))).
  unfold sidebar_inv. rewrite Hr, Hs. clear Hr Hs.
  destruct (decide (getCountryId (datum_of p) ∈ revealedCountries st))
    as [Hin|Hout].
  - rewrite !bool_decide_eq_true_2 by done.
    destruct (remove_first_ids (getCountryId (datum_of p)) _ Hnd) as [H1 H2].
    split; [done|]. intros k. rewrite H2, Hiff. set_solver.
  - rewrite !bool_decide_eq_false_2 by done.
    rewrite map_app. cbn. split.
    + apply NoDup_app. split; [done|]. split; [|apply NoDup_singleton].
      intros k Hk ->%list_elem_of_singleton. by apply Hout, Hiff.
    + intros k. rewrite elem_of_app, list_elem_of_singleton, Hiff. set_solver.
Qed.

Lemma removeCountry_plain id st :
  selector_plain id = true →
  removeCountry id st
  = set_selectionList (remove_first id (selectionList st))
      (updateBorderStyle id false
         (set_countryPaths
            (map (λ p, if decide (getCountryId (datum_of p) = id)
                       then set_hoverClass false (set_revealedClass false p)
                       else p)
               (countryPaths st))
            (set_revealedCountries (revealedCountries st ∖ {[id]}) st))).
Proof.
  intros Hid. unfold removeCountry. cbv zeta.
  by rewrite removeFromSelectionList_plain.
Qed.

Lemma removeCountry_sidebar_inv id st :
  selector_plain id = true →
  sidebar_inv st → sidebar_inv (removeCountry id st).
Proof.
  intros Hid [Hnd Hiff]. rewrite removeCountry_plain by done.
  unfold sidebar_inv, updateBorderStyle. store_simpl.
  destruct (remove_first_ids id _ Hnd) as [H1 H2].
  split; [done|]. intros k. rewrite H2, Hiff. set_solver.
Qed.

Lemma handle_sidebar_inv ev st :
  plain_event ev st → sidebar_inv st → sidebar_inv (handle ev st).
Proof.
  intros Hplain Hinv.
  destruct ev as [t|t|t|id| |v|b|h|k| ]; cbn [handle].
  - by apply handleClick_sidebar_inv.
  - destruct (handleMouseEnter_frame t st) as [? ->].
    by eapply sidebar_inv_same.
  - destruct (handleMouseLeave_frame t st) as [? ->].
    by eapply sidebar_inv_same.
  - by apply removeCountry_sidebar_inv.
  - eapply sidebar_inv_same; [|exact Hinv].
    unfold togglePlay, clearInterval.
    by destruct (isPlaying st), (animationInterval st).
  - eapply sidebar_inv_same; [|exact Hinv].
    unfold slider_input, togglePlay, clearInterval. store_simpl.
    by destruct (isPlaying st), (animationInterval st).
  - eapply sidebar_inv_same; [|exact Hinv]. unfold sidebar_of.
    rewrite toggleAnomalyMode_keys.
    by destruct (toggleAnomalyMode_frame b st) as (? & ? & ? & ->).
  - eapply sidebar_inv_same; [|exact Hinv]. unfold sidebar_of, advance.
    cbv zeta. rewrite renderHeatmap_keys. by frame_heatmap.
  - destruct (timeouts st !! k) as [j|]; [|done].
    eapply sidebar_inv_same; [|exact Hinv]. unfold sidebar_of.
    rewrite deferred_draw_keys.
    by destruct (deferred_draw_frame j
                   (set_timeouts (delete k (timeouts st)) st)) as [? ->].
  - eapply sidebar_inv_same; [|exact Hinv]. unfold sidebar_of, animation_frame.
    cbv zeta. rewrite renderHeatmap_keys. by frame_heatmap.
Qed.

Lemma renderHeatmap_sidebar timeIndex st :
  sidebar_of (fst (renderHeatmap timeIndex st)) = sidebar_of st.
Proof.
  unfold sidebar_of. rewrite renderHeatmap_keys. by frame_heatmap.
Qed.

Lemma before_first_frame_sidebar raw allData st :
  sidebar_of (before_first_frame raw allData st) = sidebar_of st.
Proof. done. Qed.

Lemma loadTemperatureData_sidebar b st :
  sidebar_of (loadTemperatureData b st) = sidebar_of st.
Proof.
  unfold loadTemperatureData. cbv zeta.
  destruct b as [|parsedData]; [done|].
  set (st1 := set_timeDisplay "Downloading data..." st).
  pose proof (load_body_cases parsedData st1) as Hcases.
  destruct (coords parsedData) as [raw|]; [|by rewrite Hcases].
  destruct (temperature_source parsedData) as [allData|];
    [|by rewrite Hcases].
  rewrite Hcases.
  change (sidebar_of st) with (sidebar_of st1).
  rewrite <- (before_first_frame_sidebar raw allData st1).
  generalize (before_first_frame raw allData st1). intros st2.
  pose proof (renderHeatmap_sidebar 0 st2) as Hs.
  destruct (renderHeatmap 0 st2) as [st' c]. cbn [fst] in Hs.
  by destruct c.
Qed.

Lemma reachable_sidebar features started st :
  plain_ids features → reachable features started st → sidebar_inv st.
Proof.
  intros Hplain.
  induction 1 as [|b st _ IH|started ev st Hreach IH Hen].
  - split; [constructor|]. intros id. cbn. set_solver.
  - eapply sidebar_inv_same; [apply loadTemperatureData_sidebar|done].
  - apply handle_sidebar_inv; [|done].
    by eapply reachable_plain_event.
Qed.

Lemma reachable_border features started st :
  plain_ids features → reachable features started st → border_inv st.
Proof.
  intros Hplain.
  induction 1 as [|b st _ IH|started ev st Hreach IH Hen].
  - apply border_inv_init.
  - eapply border_inv_selection; [apply loadTemperatureData_selection|done].
  - apply handle_border; [|done].
    by eapply reachable_plain_event.
Qed.

Lemma filter_other_ids id (l : list item) :
  id ∉ map countryId l → filter (λ it, countryId it ≠ id) l = l.
Proof.
  induction l as [|it rest IH]; [done|]. intros Hnotin.
  cbn [map] in Hnotin. apply not_elem_of_cons in Hnotin as [Hne Hrest].
  rewrite filter_cons_True by (by intros ?). by rewrite IH.
Qed.

Lemma remove_first_filter id (l : list item) :
  NoDup (map countryId l) →
  remove_first id l = filter (λ it, countryId it ≠ id) l.
Proof.
  induction l as [|it rest IH]; [done|]. intros Hnd.
  cbn [map] in Hnd. apply NoDup_cons in Hnd as [Hnotin Hnd].
  cbn [remove_first].
  destruct (decide (countryId it = id)) as [Hid|Hne].
  - rewrite filter_cons_False by (by intros ?).
    rewrite filter_other_ids; [done|]. by rewrite <- Hid.
  - rewrite filter_cons_True by done. by rewrite IH.
Qed.

(** X2. When no country id of the features holds a character that is
    special in the quoted string of a selector (double quote, backslash,
    line feed, form feed, carriage return, NUL), in every store the page
    reaches the sidebar lists exactly the revealed countries: no two items
    have the same country id, a country id has an item exactly when it is in
    the revealed set, and there are as many items as revealed countries. *)
Theorem sidebar_lists_revealed (features : list feature) (started : bool)
    (st : state) :
  plain_ids features →
  reachable features started st →
  NoDup (map countryId (selectionList st))
  ∧ (∀ id, id ∈ map countryId (selectionList st)
           ↔ id ∈ revealedCountries st)
  ∧ length (selectionList st) = size (revealedCountries st).
Proof.
  intros Hplain Hreach.
  destruct (reachable_sidebar _ _ _ Hplain Hreach) as [Hnd Hiff].
  split; [done|]. split; [done|].
  rewrite <- (length_map countryId).
  change (size (revealedCountries st))
    with (length (elements (revealedCountries st))).
  apply Permutation_length, NoDup_Permutation; [done|apply NoDup_elements|].
  intros id. by rewrite Hiff, elem_of_elements.
Qed.

(** X3. When neither the country ids of the features nor [id] hold a
    character that is special in the quoted string of a selector (double
    quote, backslash, line feed, form feed, carriage return, NUL), in every
    store the page reaches the remove button of the country [id] takes the
    id out of the revealed set and its item out of the sidebar, leaving the
    items of all other countries as they are and in order, and gives its
    borders the default stroke and width; the membership of other countries
    is unchanged. *)
Theorem removeCountry_removes (features : list feature) (started : bool)
    (st : state) (id : string) :
  plain_ids features →
  selector_plain id = true →
  reachable features started st →
  (id ∉ revealedCountries (removeCountry id st))
  ∧ (id ∉ map countryId (selectionList (removeCountry id st)))
  ∧ selectionList (removeCountry id st)
    = filter (λ it, countryId it ≠ id) (selectionList st)
  ∧ (∀ b, b ∈ countryBorders (removeCountry id st) →
          getCountryId (border_datum b) = id →
          stroke b = "#94a3b8" ∧ stroke_width b = "0.5px")
  ∧ (∀ k, k ≠ id →
          (k ∈ revealedCountries (removeCountry id st)
           ↔ k ∈ revealedCountries st)).
Proof.
  intros Hplain Hid Hreach.
  destruct (reachable_sidebar _ _ _ Hplain Hreach) as [Hnd Hiff].
  destruct (remove_first_ids id _ Hnd) as [H1 H2].
  rewrite (removeCountry_plain id st Hid).
  unfold updateBorderStyle. store_simpl.
  split; [set_solver|].
  split; [rewrite H2; by intros [_ ?]|].
  split; [by apply remove_first_filter|].
  split.
  - intros b Hb Hb'.
    apply list_elem_of_fmap in Hb as (b0 & -> & _).
    destruct (decide (getCountryId (border_datum b0) = id)); [done|].
    done.
  - intros k Hk. set_solver.
Qed.

(** X26. Whatever the identifier and whatever the document finds for its
    selector, the remove button takes the identifier out of the revealed
    set, clears the revealed and hover classes of its paths and gives its
    borders the default stroke and width, because [removeCountry] calls
    [removeFromSelectionList] last; the sidebar keeps some of its items, in
    order, and everything else about other countries is unchanged. *)
Theorem removeCountry_resets_border (st : state) (id : string) :
  (id ∉ revealedCountries (removeCountry id st))
  ∧ (∀ k, k ≠ id →
          (k ∈ revealedCountries (removeCountry id st)
           ↔ k ∈ revealedCountries st))
  ∧ Forall2 (λ p p',
       datum_of p' = datum_of p
       ∧ if decide (getCountryId (datum_of p) = id)
         then revealedClass p' = false ∧ hoverClass p' = false
         else p' = p)
      (countryPaths st) (countryPaths (removeCountry id st))
  ∧ Forall2 (λ b b',
       border_datum b' = border_datum b
       ∧ if decide (getCountryId (border_datum b) = id)
         then stroke b' = "#94a3b8" ∧ stroke_width b' = "0.5px"
         else b' = b)
      (countryBorders st) (countryBorders (removeCountry id st))
  ∧ selectionList (removeCountry id st) `sublist_of` selectionList st.
Proof.
  destruct (removeCountry_frame id st) as (sl & Hsub & ->).
  unfold updateBorderStyle. store_simpl.
  split; [set_solver|]. split; [intros k Hk; set_solver|].
  split; [|split; [|exact Hsub]].
  - apply Forall2_fmap_r, Forall_Forall2_diag, Forall_forall.
    intros p _. unfold compose. cbv beta.
    by destruct (decide (getCountryId (datum_of p) = id)).
  - apply Forall2_fmap_r, Forall_Forall2_diag, Forall_forall.
    intros b _. unfold compose. cbv beta.
    by destruct (decide (getCountryId (border_datum b) = id)).
Qed.

(** X25. When no country id of the features holds a character that is
    special in the quoted string of a selector (double quote, backslash,
    line feed, form feed, carriage return, NUL), in every store the page
    reaches clicking a country path flips the membership of its identifier
    in the revealed set, so the country is then in exactly the other of the
    two states; and clicking it twice in succession leaves the revealed set
    as it was and every border path with the stroke and width it had. *)
Theorem click_twice_restores (features : list feature) (started : bool)
    (st : state) (target : nat) (p : path_el) :
  plain_ids features →
  reachable features started st →
  countryPaths st !! target = Some p →
  let id := getCountryId (datum_of p) in
  (id ∈ revealedCountries (handleClick target st)
   ↔ id ∉ revealedCountries st)
  ∧ revealedCountries (handleClick target (handleClick target st))
    = revealedCountries st
  ∧ countryBorders (handleClick target (handleClick target st))
    = countryBorders st.
Proof.
  intros Hplain Hreach Hp id.
  pose proof (reachable_border _ _ _ Hplain Hreach) as Hinv.
  assert (Hsel : selector_plain id = true).
  { exact (reachable_plain_event features started (Click target) st Hplain
             Hreach eq_refl p Hp). }
  destruct (handleClick_selection target st p Hp (or_introl Hsel))
    as (Hr1 & Hb1 & p1 & Hp1 & Hd).
  destruct (handleClick_selection target _ p1 Hp1) as (Hr2 & Hb2 & _).
  { left. by rewrite Hd. }
  rewrite Hd in Hr2, Hb2. fold id in Hr1, Hb1, Hr2, Hb2.
  assert (Hflip : id ∈ revealedCountries (handleClick target st)
                  ↔ id ∉ revealedCountries st).
  { rewrite Hr1. clear.
    destruct (decide (id ∈ revealedCountries st)) as [Hin|Hout].
    - rewrite bool_decide_eq_true_2 by done. set_solver.
    - rewrite bool_decide_eq_false_2 by done. set_solver. }
  assert (Hback : revealedCountries (handleClick target (handleClick target st))
                  = revealedCountries st).
  { rewrite Hr2.
    destruct (decide (id ∈ revealedCountries st)) as [Hin|Hout].
    - rewrite bool_decide_eq_false_2 by (rewrite Hflip; by intros ?).
      rewrite Hr1, bool_decide_eq_true_2 by done.
      symmetry. by apply union_difference_singleton_L.
    - rewrite bool_decide_eq_true_2 by by rewrite Hflip.
      rewrite Hr1, bool_decide_eq_false_2 by done. clear -Hout. set_solver. }
  split; [done|]. split; [done|].
  rewrite Hb2, Hb1. rewrite <- Hr2, Hback.
  apply restyle_twice_id.
  unfold border_inv in Hinv. eapply Forall_impl; [exact Hinv|].
  intros b Hb Hid. cbn in Hb. by rewrite Hid in Hb.
Qed.


(** ** The revealed class of the country paths *)

(** The revealed set and the country paths. *)
Definition paths_of (st : state) := (revealedCountries st, countryPaths st).

(** The paths keep their data, and each has the class [country--revealed]
    exactly when its country is in the revealed set. *)
Definition class_inv (features : list feature) (st : state) : Prop :=
  map datum_of (countryPaths st) = features
  ∧ ∀ k p, countryPaths st !! k = Some p →
      revealedClass p
      = bool_decide (getCountryId (datum_of p) ∈ revealedCountries st).

Lemma class_inv_same features st st' :
  paths_of st' = paths_of st → class_inv features st → class_inv features st'.
Proof. unfold paths_of, class_inv. intros [= Hr Hp]. by rewrite Hr, Hp. Qed.

Lemma class_inv_hover features target v st :
  class_inv features st →
  class_inv features (on_target target (set_hoverClass v) st).
Proof.
  intros [Hd Hc]. unfold class_inv, on_target. store_simpl. split.
  - rewrite <- Hd. apply list_eq. intros k.
    rewrite !list_lookup_fmap.
    destruct (decide (k = target)) as [->|Hne].
    + rewrite list_lookup_alter_eq. by destruct (countryPaths st !! target).
    + by rewrite list_lookup_alter_ne.
  - intros k p. destruct (decide (k = target)) as [->|Hne].
    + rewrite list_lookup_alter_eq.
      destruct (countryPaths st !! target) as [q|] eqn:Hq; [|done].
      intros [= <-]. exact (Hc target q Hq).
    + rewrite list_lookup_alter_ne by done. apply Hc.
Qed.

Lemma distinct_ids (paths : list path_el) k1 k2 p1 p2 :
  NoDup (map getCountryId (map datum_of paths)) →
  paths !! k1 = Some p1 → paths !! k2 = Some p2 →
  getCountryId (datum_of p1) = getCountryId (datum_of p2) → k1 = k2.
Proof.
  intros Hnd H1 H2 Heq.
  apply (NoDup_lookup _ k1 k2 (getCountryId (datum_of p1)) Hnd).
  - by rewrite !list_lookup_fmap, H1.
  - by rewrite !list_lookup_fmap, H2, Heq.
Qed.

Lemma handleClick_paths target st p :
  countryPaths st !! target = Some p →
  countryPaths (handleClick target st)
  = alter (set_revealedClass
             (negb (bool_decide (getCountryId (datum_of p)
                                 ∈ revealedCountries st))))
      target (countryPaths st).
Proof.
  intros Hp. pose proof (handleClick_cases target st p Hp) as H.
  cbv zeta in H.
  destruct (bool_decide (_ ∈ revealedCountries st));
    [destruct H as (sl & _ & [-> | ->])|rewrite H]; done.
Qed.

Lemma handleClick_class features target st :
  NoDup (map getCountryId features) →
  class_inv features st → class_inv features (handleClick target st).
Proof.
  intros Hnd [Hd Hc]. destruct (countryPaths st !! target) as [p|] eqn:Hp.
  2:{ unfold handleClick. by rewrite Hp. }
  destruct (handleClick_revealed target st p Hp) as [Hr _].
  pose proof (handleClick_paths target st p Hp) as Hpaths.
  unfold class_inv. rewrite Hr, Hpaths. clear Hr Hpaths.
  rewrite <- Hd in Hnd. split.
  - rewrite <- Hd. apply list_eq. intros k. rewrite !list_lookup_fmap.
    destruct (decide (k = target)) as [->|Hne].
    + by rewrite list_lookup_alter_eq, Hp.
    + by rewrite list_lookup_alter_ne.
  - intros k q. destruct (decide (k = target)) as [->|Hne].
    + rewrite list_lookup_alter_eq, Hp. intros [= <-]. cbn.
      destruct (decide (getCountryId (datum_of p) ∈ revealedCountries st))
        as [Hin|Hout].
      * rewrite !bool_decide_eq_true_2 by done. cbn.
        symmetry. apply bool_decide_eq_false. set_solver.
      * rewrite !bool_decide_eq_false_2 by done. cbn.
        symmetry. apply bool_decide_eq_true. set_solver.
    + rewrite list_lookup_alter_ne by done. intros Hq.
      rewrite (Hc k q Hq). apply bool_decide_ext.
      assert (Hid : getCountryId (datum_of q) ≠ getCountryId (datum_of p)).
      { intros Heq. apply Hne. by eapply distinct_ids. }
      destruct (bool_decide (getCountryId (datum_of p) ∈ revealedCountries st));
        set_solver.
Qed.

Lemma removeCountry_class features id st :
  class_inv features st → class_inv features (removeCountry id st).
Proof.
  intros [Hd Hc]. destruct (removeCountry_frame id st) as (sl & _ & ->).
  unfold class_inv, updateBorderStyle.
  store_simpl. split.
  - rewrite <- Hd, map_map. apply map_ext. intros p.
    by destruct (decide (getCountryId (datum_of p) = id)).
  - intros k q. rewrite list_lookup_fmap.
    destruct (countryPaths st !! k) as [p|] eqn:Hp; [|done].
    cbn. intros [= <-].
    destruct (decide (getCountryId (datum_of p) = id)) as [Hid|Hne]; cbn.
    + symmetry. apply bool_decide_eq_false. set_solver.
    + rewrite (Hc k p Hp). apply bool_decide_ext. set_solver.
Qed.

Lemma handle_class features ev st :
  NoDup (map getCountryId features) →
  class_inv features st → class_inv features (handle ev st).
Proof.
  intros Hnd Hinv.
  destruct ev as [t|t|t|id| |v|b|h|k| ]; cbn [handle].
  - by apply handleClick_class.
  - unfold handleMouseEnter. destruct (countryPaths st !! t); [|done].
    case_bool_decide; [done|]. by apply class_inv_hover.
  - unfold handleMouseLeave. destruct (countryPaths st !! t); [|done].
    case_bool_decide; [done|]. by apply class_inv_hover.
  - by apply removeCountry_class.
  - eapply class_inv_same; [|exact Hinv].
    unfold togglePlay, clearInterval.
    by destruct (isPlaying st), (animationInterval st).
  - eapply class_inv_same; [|exact Hinv].
    unfold slider_input, togglePlay, clearInterval. store_simpl.
    by destruct (isPlaying st), (animationInterval st).
  - eapply class_inv_same; [|exact Hinv].
    by destruct (toggleAnomalyMode_frame b st) as (? & ? & ? & ->).
  - eapply class_inv_same; [|exact Hinv]. unfold advance. cbv zeta.
    by frame_heatmap.
  - destruct (timeouts st !! k) as [j|]; [|done].
    eapply class_inv_same; [|exact Hinv].
    by destruct (deferred_draw_frame j
                   (set_timeouts (delete k (timeouts st)) st)) as [? ->].
  - eapply class_inv_same; [|exact Hinv]. unfold animation_frame. cbv zeta.
    by frame_heatmap.
Qed.

Lemma renderHeatmap_paths timeIndex st :
  paths_of (fst (renderHeatmap timeIndex st)) = paths_of st.
Proof. by frame_heatmap. Qed.

Lemma loadTemperatureData_paths b st :
  paths_of (loadTemperatureData b st) = paths_of st.
Proof.
  unfold loadTemperatureData. cbv zeta.
  destruct b as [|parsedData]; [done|].
  set (st1 := set_timeDisplay "Downloading data..." st).
  pose proof (load_body_cases parsedData st1) as Hcases.
  destruct (coords parsedData) as [raw|]; [|by rewrite Hcases].
  destruct (temperature_source parsedData) as [allData|];
    [|by rewrite Hcases].
  rewrite Hcases.
  change (paths_of st) with (paths_of (before_first_frame raw allData st1)).
  generalize (before_first_frame raw allData st1). intros st2.
  pose proof (renderHeatmap_paths 0 st2) as Hs.
  destruct (renderHeatmap 0 st2) as [st' c]. cbn [fst] in Hs.
  by destruct c.
Qed.

(** X4. When the country ids of the boundary features are pairwise
    distinct, in every store the page reaches each country path still
    carries its feature, and it has the class [country--revealed] exactly
    when its country id is in the revealed set. *)
Theorem revealed_class_matches (features : list feature) (started : bool)
    (st : state) :
  NoDup (map getCountryId features) →
  reachable features started st →
  map datum_of (countryPaths st) = features
  ∧ ∀ k p, countryPaths st !! k = Some p →
      (revealedClass p = true
       ↔ getCountryId (datum_of p) ∈ revealedCountries st).
Proof.
  intros Hnd Hreach.
  assert (Hinv : class_inv features st).
  { induction Hreach as [|b st _ IH|started ev st _ IH Hen].
    - split; cbn.
      + rewrite map_map. cbn. apply map_id.
      + intros k p. rewrite list_lookup_fmap.
        destruct (features !! k); [|done]. by intros [= <-].
    - eapply class_inv_same; [apply loadTemperatureData_paths|done].
    - by apply handle_class. }
  destruct Hinv as [Hd Hc]. split; [done|].
  intros k p Hp. rewrite (Hc k p Hp). apply bool_decide_eq_true.
Qed.

(** ** Fields that the handlers never write *)

(** Splits on the event and exposes, for each handler, the fields it
    writes. *)
Ltac by_handler ev st :=
  let t := fresh "t" in
  let id := fresh "id" in
  let v := fresh "v" in
  let b := fresh "b" in
  let h := fresh "h" in
  let k := fresh "k" in
  let j := fresh "j" in
  let p := fresh "p" in
  let Hp := fresh "Hp" in
  let H := fresh "H" in
  destruct ev as [t|t|t|id| |v|b|h|k| ]; cbn [handle];
  [ destruct (countryPaths st !! t) as [p|] eqn:Hp;
    [ pose proof (handleClick_cases t st p Hp) as H; cbv zeta in H;
      destruct (bool_decide (_ ∈ revealedCountries st));
      [destruct H as (? & ? & [-> | ->])|rewrite H; clear H]
    | unfold handleClick; rewrite Hp ]
  | destruct (handleMouseEnter_frame t st) as [? ->]
  | destruct (handleMouseLeave_frame t st) as [? ->]
  | destruct (removeCountry_frame id st) as (? & ? & ->)
  | unfold togglePlay, clearInterval;
    destruct (isPlaying st), (animationInterval st)
  | unfold slider_input, togglePlay, clearInterval; store_simpl;
    destruct (isPlaying st), (animationInterval st)
  | destruct (toggleAnomalyMode_frame b st) as (? & ? & ? & ->)
  | unfold advance; cbv zeta; frame_heatmap
  | destruct (timeouts st !! k) as [j|];
    [destruct (deferred_draw_frame j
                 (set_timeouts (delete k (timeouts st)) st)) as [? ->]|]
  | unfold animation_frame; cbv zeta; frame_heatmap ].

Lemma handle_controlsReady ev st :
  controlsReady (handle ev st) = controlsReady st.
Proof. by_handler ev st; done. Qed.

(** The mode, the active colour scale and what the legend shows. *)
Definition mode_of (st : state) :=
  (isAnomalyMode st, currentColorScale st, legendAnomaly st).

Lemma handle_mode ev st :
  (∀ checked, ev ≠ AnomalyToggle checked) →
  mode_of (handle ev st) = mode_of st.
Proof.
  intros Hev. by_handler ev st; try done. by destruct (Hev b).
Qed.

Lemma renderHeatmap_view timeIndex st :
  mode_of (fst (renderHeatmap timeIndex st)) = mode_of st
  ∧ dataset_of (fst (renderHeatmap timeIndex st)) = dataset_of st
  ∧ controls_of (fst (renderHeatmap timeIndex st)) = controls_of st.
Proof. by frame_heatmap. Qed.

Lemma before_first_frame_view raw allData st :
  mode_of (before_first_frame raw allData st) = mode_of st
  ∧ allTemperatureData (before_first_frame raw allData st) = Some allData
  ∧ timePoints (before_first_frame raw allData st) = sorted_keys allData
  ∧ rawCoords (before_first_frame raw allData st) = Some raw
  ∧ screenCoords (before_first_frame raw allData st) = map project raw
  ∧ baselineData (before_first_frame raw allData st)
    = extract_baseline allData (sorted_keys allData) (baselineData st)
  ∧ controlsReady (before_first_frame raw allData st) = true
  ∧ sliderValue (before_first_frame raw allData st) = 0
  ∧ sliderMax (before_first_frame raw allData st)
    = (Z.of_nat (length (sorted_keys allData)) - 1)%Z
  ∧ timeDisplay (before_first_frame raw allData st) = "Processing...".
Proof. repeat split. Qed.

(** The outcomes of [loadTemperatureData]: the store on which the first
    frame is rendered, or the point at which the [try] block raised. *)
Lemma loadTemperatureData_cases b st :
  let st1 := set_timeDisplay "Downloading data..." st in
  match b with
  | Unavailable =>
      loadTemperatureData b st = set_timeDisplay "Data Load Failed" st1
  | Payload parsedData =>
      match coords parsedData, temperature_source parsedData with
      | Some raw, Some allData =>
          let st2 := before_first_frame raw allData st1 in
          loadTemperatureData b st
          = match renderHeatmap 0 st2 with
            | (st', Normal) => st'
            | (st', Thrown) => set_timeDisplay "Data Load Failed" st'
            end
      | Some raw, None =>
          loadTemperatureData b st
          = set_timeDisplay "Data Load Failed"
              (set_allTemperatureData None
                 (set_screenCoords (map project raw)
                    (set_rawCoords (Some raw)
                       (set_timeDisplay "Processing..." st1))))
      | None, _ =>
          loadTemperatureData b st
          = set_timeDisplay "Data Load Failed"
              (set_rawCoords None (set_timeDisplay "Processing..." st1))
      end
  end.
Proof.
  cbv zeta. destruct b as [|parsedData]; [done|].
  unfold loadTemperatureData. cbv zeta.
  pose proof (load_body_cases parsedData
                (set_timeDisplay "Downloading data..." st)) as Hcases.
  destruct (coords parsedData) as [raw|]; [|by rewrite Hcases].
  destruct (temperature_source parsedData) as [allData|];
    by rewrite Hcases.
Qed.

(** ** The mode, the colour scale and the legend *)

(** X5. In every store the page reaches, the active colour scale and the
    legend agree with the mode: the anomaly scale and legend in anomaly
    mode, the absolute ones otherwise - also after a toggle whose refresh of
    the sidebar raised. *)
Theorem scale_follows_mode (features : list feature) (started : bool)
    (st : state) :
  reachable features started st →
  currentColorScale st
  = (if isAnomalyMode st then anomalyColorScale else absoluteColorScale)
  ∧ legendAnomaly st = isAnomalyMode st.
Proof.
  induction 1 as [|b st _ IH|started ev st _ IH Hen].
  - done.
  - assert (Hm : mode_of (loadTemperatureData b st) = mode_of st).
    { pose proof (loadTemperatureData_cases b st) as Hc. cbv zeta in Hc.
      destruct b as [|parsedData]; [by rewrite Hc|].
      destruct (coords parsedData) as [raw|]; [|by rewrite Hc].
      destruct (temperature_source parsedData) as [allData|];
        [|by rewrite Hc].
      rewrite Hc.
      change (mode_of st)
        with (mode_of (before_first_frame raw allData
                         (set_timeDisplay "Downloading data..." st))).
      generalize (before_first_frame raw allData
                    (set_timeDisplay "Downloading data..." st)).
      intros st2. destruct (renderHeatmap_view 0 st2) as (Hv & _ & _).
      destruct (renderHeatmap 0 st2) as [st' c]. cbn [fst] in Hv.
      by destruct c. }
    unfold mode_of in Hm. injection Hm as -> -> ->. exact IH.
  - assert (Hcase : (∃ checked, ev = AnomalyToggle checked)
                    ∨ ∀ checked, ev ≠ AnomalyToggle checked).
    { destruct ev; try (by right); left; by eexists. }
    destruct Hcase as [[checked ->]|Hne].
    + cbn [handle].
      destruct (toggleAnomalyMode_frame checked st) as (? & ? & ? & ->).
      done.
    + assert (Hm : mode_of (handle ev st) = mode_of st)
        by by apply handle_mode.
      unfold mode_of in Hm. injection Hm as -> -> ->. exact IH.
Qed.

(** ** The dataset in the stores the page reaches *)

(** Before the bundle arrives nothing is loaded, the controls have no
    listeners and the mode is the initial one. *)
Definition unloaded (features : list feature) (st : state) : Prop :=
  dataset_of st = dataset_of (init_state features)
  ∧ controlsReady st = false
  ∧ mode_of st = mode_of (init_state features).

(** The time points are the sorted keys of the loaded mapping, and there
    are none as long as the controls are not set up. *)
Record data_inv (st : state) : Prop := {
  di_keys :
    timePoints st
    = match allTemperatureData st with
      | Some allData => sorted_keys allData
      | None => []
      end;
  di_ready : controlsReady st = false → timePoints st = []
}.

Lemma data_inv_same st st' :
  allTemperatureData st' = allTemperatureData st →
  timePoints st' = timePoints st →
  controlsReady st' = controlsReady st →
  data_inv st → data_inv st'.
Proof.
  intros Hd Ht Hc [H1 H2]. constructor; rewrite ?Hd, ?Ht, ?Hc; done.
Qed.

Lemma data_inv_dataset st st' :
  dataset_of st' = dataset_of st →
  controlsReady st' = controlsReady st →
  data_inv st → data_inv st'.
Proof.
  unfold dataset_of. intros [= _ _ Hd Ht _] Hc. by apply data_inv_same.
Qed.

Ltac same_data H := eapply data_inv_same; [| | |exact H]; done.

Lemma enabled_needs_controls checked st :
  controlsReady st = false → enabled (AnomalyToggle checked) st = false.
Proof. done. Qed.

Lemma reachable_unloaded features st :
  reachable features false st → unloaded features st.
Proof.
  intros Hreach. remember false as started eqn:Hs.
  induction Hreach as [|b st _ IH|started ev st Hreach IH Hen]; [done|done|].
  destruct (IH Hs) as (Hd & Hc & Hm). split; [|split].
  - by rewrite handle_dataset.
  - by rewrite handle_controlsReady.
  - rewrite handle_mode; [done|]. intros checked ->.
    cbn in Hen. congruence.
Qed.

Lemma unloaded_data_inv features st : unloaded features st → data_inv st.
Proof.
  unfold unloaded, dataset_of. intros ([= _ _ Hd Ht _] & Hc & _).
  constructor; by rewrite ?Hd, ?Ht.
Qed.

Lemma renderHeatmap_data_inv timeIndex st :
  data_inv st → data_inv (fst (renderHeatmap timeIndex st)).
Proof.
  intros Hinv. destruct (renderHeatmap_view timeIndex st) as (_ & Hd & Hc).
  eapply data_inv_dataset; [exact Hd| |exact Hinv].
  unfold controls_of in Hc. by injection Hc.
Qed.

Lemma loadTemperatureData_data_inv features b st :
  unloaded features st → data_inv (loadTemperatureData b st).
Proof.
  intros Hun. pose proof (unloaded_data_inv _ _ Hun) as Hinv.
  destruct Hun as (Hd & Hc & _).
  unfold dataset_of in Hd. injection Hd as _ _ _ Ht _. cbn in Ht.
  pose proof (loadTemperatureData_cases b st) as Hcases. cbv zeta in Hcases.
  destruct b as [|parsedData].
  { rewrite Hcases. same_data Hinv. }
  destruct (coords parsedData) as [raw|].
  2:{ rewrite Hcases. same_data Hinv. }
  destruct (temperature_source parsedData) as [allData|].
  2:{ rewrite Hcases. constructor; by store_simpl. }
  rewrite Hcases.
  assert (H2 : data_inv (before_first_frame raw allData
                           (set_timeDisplay "Downloading data..." st))).
  { constructor; [done|]. by intros ?. }
  revert H2. generalize (before_first_frame raw allData
                           (set_timeDisplay "Downloading data..." st)).
  intros st2 H2. pose proof (renderHeatmap_data_inv 0 st2 H2) as H3.
  destruct (renderHeatmap 0 st2) as [st' c]. cbn [fst] in H3.
  destruct c; [done|]. same_data H3.
Qed.

Lemma reachable_data_inv features started st :
  reachable features started st → data_inv st.
Proof.
  induction 1 as [|b st Hreach IH|started ev st _ IH Hen].
  - by constructor.
  - eapply loadTemperatureData_data_inv. by apply reachable_unloaded.
  - eapply data_inv_dataset; [apply handle_dataset| |exact IH].
    apply handle_controlsReady.
Qed.

Lemma data_inv_lookup st dateStr :
  data_inv st → dateStr ∈ timePoints st →
  ∃ allData temps,
    allTemperatureData st = Some allData ∧ allData !! dateStr = Some temps.
Proof.
  intros [Hk _] Hin. rewrite Hk in Hin.
  destruct (allTemperatureData st) as [allData|];
    [|by apply elem_of_nil in Hin].
  apply elem_of_sorted_keys in Hin as [temps Htemps]. eauto.
Qed.

Lemma trend_entry_ok st indices dateStr :
  data_inv st → dateStr ∈ timePoints st →
  ∃ e, trend_entry st indices dateStr = Ok e.
Proof.
  intros Hinv Hin.
  destruct (data_inv_lookup st dateStr Hinv Hin)
    as (allData & temps & Hdata & Htemps).
  unfold trend_entry. rewrite Hdata, Htemps, rfold_add_reading. cbn.
  by eexists.
Qed.

Lemma rmap_list_total {A B} (f : A → result B) (l : list A) :
  (∀ a, a ∈ l → ∃ b, f a = Ok b) →
  ∃ bs, rmap_list f l = Ok bs ∧ length bs = length l.
Proof.
  induction l as [|a l IH]; intros Hf; [by exists []|].
  destruct (Hf a) as [b Hb]; [left|].
  destruct IH as (bs & Hbs & Hlen); [intros a' Ha'; apply Hf; by right|].
  exists (b :: bs). cbn. rewrite Hb. cbn. rewrite Hbs. cbn.
  by rewrite Hlen.
Qed.

(** X6. In every store the page reaches, [calculateCountryTrend] returns
    normally for every boundary: either the "no data" result or a series
    with one element per time point. *)
Theorem calculateCountryTrend_never_raises (features : list feature)
    (started : bool) (st : state) (feature : feature) :
  reachable features started st →
  calculateCountryTrend st feature = Ok None
  ∨ ∃ series,
      calculateCountryTrend st feature = Ok (Some series)
      ∧ length series = length (timePoints st).
Proof.
  intros Hreach. pose proof (reachable_data_inv _ _ _ Hreach) as Hinv.
  unfold calculateCountryTrend.
  destruct (rawCoords st) as [[|c raw]|]; [by left| |by left].
  cbv zeta. destruct (indices_from feature 0 (c :: raw)) as [|i l];
    [by left|].
  right.
  destruct (rmap_list_total (trend_entry st (i :: l)) (timePoints st))
    as (series & Hs & Hlen).
  { intros k Hk. by apply trend_entry_ok. }
  exists series. by rewrite Hs.
Qed.

Lemma renderHeatmap_normal timeIndex st :
  data_inv st →
  timeIndex < length (timePoints st) ∨ timePoints st = [] →
  snd (renderHeatmap timeIndex st) = Normal.
Proof.
  intros Hinv [Hlt|Hnil]; [|by rewrite renderHeatmap_guard].
  apply lookup_lt_is_Some in Hlt as [currentTime Ht].
  destruct (data_inv_lookup st currentTime Hinv)
    as (allData & temps & Hdata & Htemps);
    [by eapply list_elem_of_lookup_2|].
  unfold renderHeatmap. destruct (timePoints st) as [|k ks]; [done|].
  rewrite Ht. cbv zeta.
  cbn [default set_timeDisplay allTemperatureData isAnomalyMode
         baselineData screenCoords currentColorScale prop_key].
  unfold id. rewrite Hdata, Htemps.
  destruct (isAnomalyMode st);
    match goal with
    | |- context [assemble ?a (Some ?t) ?b 0 ?c] =>
        destruct (assemble_visible a t b c) as (ds & -> & _)
    end; done.
Qed.

(** The index of the slider is one of a time point, when there is any. *)
Lemma slider_in_range st :
  data_inv st → playback_inv st →
  sliderValue st < length (timePoints st) ∨ timePoints st = [].
Proof.
  intros [_ Hr] [_ _ Hmax Hval].
  destruct (controlsReady st) eqn:Hc; [|right; by apply Hr].
  specialize (Hmax eq_refl).
  destruct (timePoints st) as [|k ks]; [by right|]. left. cbn in *. lia.
Qed.

(** X7. In every store the page reaches, the frames that the page renders
    on its own complete without raising: the frame at the slider's value,
    the callback of the playback interval and the animation-frame callback
    of a slider input. *)
Theorem frames_complete (features : list feature) (started : bool)
    (st : state) :
  reachable features started st →
  snd (renderHeatmap (sliderValue st) st) = Normal
  ∧ snd (advance st) = Normal
  ∧ snd (animation_frame st) = Normal.
Proof.
  intros Hreach. pose proof (reachable_data_inv _ _ _ Hreach) as Hinv.
  pose proof (reachable_playback _ _ _ Hreach) as Hpb.
  split; [|split].
  - apply renderHeatmap_normal; [done|]. by apply slider_in_range.
  - unfold advance. cbv zeta.
    set (nextVal := if bool_decide _ then 0 else sliderValue st + 1).
    apply renderHeatmap_normal; [same_data Hinv|].
    change (timePoints (set_sliderValue nextVal st)) with (timePoints st).
    destruct Hinv as [_ Hr]. destruct Hpb as [_ _ Hmax _].
    destruct (controlsReady st) eqn:Hc; [|right; by apply Hr].
    specialize (Hmax eq_refl).
    destruct (timePoints st) as [|k ks]; [by right|]. left.
    subst nextVal. cbn in *. case_bool_decide; lia.
  - unfold animation_frame. cbv zeta.
    apply renderHeatmap_normal; [same_data Hinv|].
    change (timePoints (set_frames (pred (frames st)) st))
      with (timePoints st).
    change (sliderValue (set_frames (pred (frames st)) st))
      with (sliderValue st).
    by apply slider_in_range.
Qed.

(** ** Outcomes of the load *)

(** The bundles on which the [try] block of [loadTemperatureData] raises:
    nothing usable was downloaded, or the payload lacks [coords], or it has
    neither [temperatures] nor [data]. *)
Definition load_fails (b : bundle) : Prop :=
  match b with
  | Unavailable => True
  | Payload parsedData =>
      coords parsedData = None ∨ temperature_source parsedData = None
  end.

Lemma calculateCountryTrend_no_timePoints st feature :
  timePoints st = [] →
  calculateCountryTrend st feature = Ok None
  ∨ calculateCountryTrend st feature = Ok (Some []).
Proof.
  intros Hnil. unfold calculateCountryTrend.
  destruct (rawCoords st) as [[|c raw]|]; [by left| |by left].
  cbv zeta. destruct (indices_from feature 0 (c :: raw)); [by left|].
  right. by rewrite Hnil.
Qed.

(** X8. When the load fails (before any data was loaded), the status reads
    "Data Load Failed", no time point and no temperature mapping are kept,
    and the controls get no listeners, so no play, slider or anomaly event
    can be delivered; every frame remains a no-operation, country trends
    are "no data" or empty, and the revealed set and the sidebar are as
    they were.  Conversely the controls are set up exactly when the load
    does not fail. *)
Theorem failed_load_disables (features : list feature) (st : state)
    (b : bundle) :
  reachable features false st →
  (load_fails b →
   timeDisplay (loadTemperatureData b st) = "Data Load Failed"
   ∧ timePoints (loadTemperatureData b st) = []
   ∧ allTemperatureData (loadTemperatureData b st) = None
   ∧ baselineData (loadTemperatureData b st) = ∅
   ∧ enabled PlayButton (loadTemperatureData b st) = false
   ∧ (∀ v, enabled (SliderInput v) (loadTemperatureData b st) = false)
   ∧ (∀ checked,
        enabled (AnomalyToggle checked) (loadTemperatureData b st) = false)
   ∧ (∀ timeIndex,
        renderHeatmap timeIndex (loadTemperatureData b st)
        = (loadTemperatureData b st, Normal))
   ∧ (∀ feature,
        calculateCountryTrend (loadTemperatureData b st) feature = Ok None
        ∨ calculateCountryTrend (loadTemperatureData b st) feature
          = Ok (Some []))
   ∧ sidebar_of (loadTemperatureData b st) = sidebar_of st)
  ∧ (controlsReady (loadTemperatureData b st) = true ↔ ¬ load_fails b).
Proof.
  intros Hreach. destruct (reachable_unloaded _ _ Hreach) as (Hd & Hc & _).
  unfold dataset_of in Hd. injection Hd as _ _ Hdata Htimes Hbase.
  cbn in Hdata, Htimes, Hbase.
  pose proof (loadTemperatureData_cases b st) as Hcases. cbv zeta in Hcases.
  assert (Hfail : load_fails b →
            timeDisplay (loadTemperatureData b st) = "Data Load Failed"
            ∧ timePoints (loadTemperatureData b st) = []
            ∧ allTemperatureData (loadTemperatureData b st) = None
            ∧ baselineData (loadTemperatureData b st) = ∅
            ∧ controlsReady (loadTemperatureData b st) = false).
  { intros Hf. destruct b as [|parsedData]; [by rewrite Hcases|].
    cbn in Hf. destruct (coords parsedData) as [raw|]; [|by rewrite Hcases].
    destruct Hf as [?|Hf]; [done|]. rewrite Hf in Hcases.
    by rewrite Hcases. }
  split.
  - intros Hf. destruct (Hfail Hf) as (Htd & Ht & Ha & Hb & Hr).
    split; [done|]. split; [done|]. split; [done|]. split; [done|].
    split; [exact Hr|]. split; [intros v; cbn; by rewrite Hr|].
    split; [intros checked; exact Hr|].
    split; [intros t; by apply renderHeatmap_guard|].
    split; [intros f; by apply calculateCountryTrend_no_timePoints|].
    apply loadTemperatureData_sidebar.
  - split.
    + intros Hready Hf. destruct (Hfail Hf) as (_ & _ & _ & _ & Hr).
      congruence.
    + intros Hok. destruct b as [|parsedData]; [by destruct Hok|].
      cbn in Hok. destruct (coords parsedData) as [raw|] eqn:Hraw;
        [|destruct Hok; by left].
      destruct (temperature_source parsedData) as [allData|] eqn:Hsrc;
        [|destruct Hok; by right].
      destruct (loadTemperatureData_good parsedData st raw allData Hraw Hsrc)
        as (? & ? & ? & ->).
      done.
Qed.

(** X9. After a payload with coordinates and a temperature mapping is
    loaded, the controls are set up with the slider at zero and its maximum
    at the last time index; the status shows the smallest date key and the
    heatmap has one circle per coordinate with a screen position - unless
    the mapping is empty, in which case the status stays "Processing..."
    and the heatmap is left as it was. *)
Theorem successful_load_shows_first_frame (parsedData : parsed)
    (st : state) (raw : list coord) (allData : gmap string (list jsval)) :
  coords parsedData = Some raw →
  temperature_source parsedData = Some allData →
  let st' := loadTemperatureData (Payload parsedData) st in
  controlsReady st' = true
  ∧ sliderValue st' = 0
  ∧ sliderMax st' = (Z.of_nat (size allData) - 1)%Z
  ∧ timeDisplay st' = default "Processing..." (head (sorted_keys allData))
  ∧ (allData ≠ ∅ →
     length (dataPoints st')
     = length (visible_indices (map project raw)))
  ∧ (allData = ∅ → dataPoints st' = dataPoints st).
Proof.
  intros Hraw Hsrc st'. subst st'.
  destruct (loadTemperatureData_good parsedData st raw allData Hraw Hsrc)
    as (td & dp & sl & Hgood).
  destruct (load_body_loaded parsedData
              (set_timeDisplay "Downloading data..." st) raw allData
              Hraw Hsrc) as [Hn _].
  rewrite loadTemperatureData_payload by done.
  rewrite (load_body_unfold _ _ raw allData Hraw Hsrc).
  destruct (before_first_frame_view raw allData
              (set_timeDisplay "Downloading data..." st))
    as (_ & Hdata & Htimes & _ & Hscreen & _ & Hready & Hval & Hmax & Htd).
  pose proof (before_first_frame_loaded raw allData
                (set_timeDisplay "Downloading data..." st)) as Hl.
  assert (Hdp : dataPoints (before_first_frame raw allData
                              (set_timeDisplay "Downloading data..." st))
                = dataPoints st) by done.
  revert Hl Hdata Htimes Hscreen Hready Hval Hmax Htd Hdp.
  generalize (before_first_frame raw allData
                (set_timeDisplay "Downloading data..." st)).
  intros st2 Hl Hdata Htimes Hscreen Hready Hval Hmax Htd Hdp.
  destruct (renderHeatmap_view 0 st2) as (_ & _ & Hc).
  unfold controls_of in Hc. injection Hc as _ _ _ _ Hv' Hm' Hr' _.
  rewrite Hv', Hm', Hr', Hmax, sorted_keys_length.
  split; [done|]. split; [done|]. split; [done|].
  destruct (sorted_keys allData) as [|k ks] eqn:Hkeys.
  - rewrite renderHeatmap_guard by done. cbn.
    split; [done|]. split; [|done].
    intros Hne. destruct Hne. apply map_size_empty_inv.
    by rewrite <- sorted_keys_length, Hkeys.
  - destruct (renderHeatmap_loaded st2 raw allData 0 k Hl)
      as (temps & ds & _ & Hall & ->); [by rewrite Hkeys|].
    cbn [fst head default]. unfold updateChartsSync. store_simpl.
    split; [done|]. split.
    + intros _. rewrite length_map, (Forall2_length _ _ _ Hall).
      by rewrite Hscreen.
    + intros ->. done.
Qed.

(** ** The baseline of a month *)

Lemma extract_baseline_snoc allData dates baseline dateStr :
  extract_baseline allData (dates ++ [dateStr]) baseline
  = baseline_step allData (extract_baseline allData dates baseline) dateStr.
Proof. unfold extract_baseline. by rewrite fold_left_app. Qed.

(** A stored baseline comes from a key of 2015 of that month after which no
    other key writes the month. *)
Lemma extract_baseline_inv allData dates month temps :
  extract_baseline allData dates ∅ !! month = Some temps →
  ∃ before dateStr after,
    dates = before ++ dateStr :: after
    ∧ startsWith dateStr "2015" = true
    ∧ month_of dateStr = Some month
    ∧ allData !! dateStr = Some temps
    ∧ Forall (λ k, ¬ sets_baseline allData month k) after.
Proof.
  induction dates as [|k dates IH] using rev_ind; [done|].
  rewrite extract_baseline_snoc. intros Hlook.
  assert (Hold : extract_baseline allData dates ∅ !! month = Some temps →
            ¬ sets_baseline allData month k →
            ∃ before dateStr after,
              dates ++ [k] = before ++ dateStr :: after
              ∧ startsWith dateStr "2015" = true
              ∧ month_of dateStr = Some month
              ∧ allData !! dateStr = Some temps
              ∧ Forall (λ k, ¬ sets_baseline allData month k) after).
  { intros Hprev Hnot.
    destruct (IH Hprev) as (before & dateStr & after & -> & ? & ? & ? & ?).
    exists before, dateStr, (after ++ [k]).
    split; [by rewrite <- app_assoc|]. split; [done|]. split; [done|].
    split; [done|]. apply Forall_app. split; [done|]. by constructor. }
  unfold baseline_step in Hlook.
  destruct (startsWith k "2015") eqn:H15;
    [|apply Hold; [done|]; intros (? & _); congruence].
  destruct (split_on dash k) as [|y [|m rest]] eqn:Hs;
    [apply Hold; [done|]; intros (_ & (? & ? & ?)%month_of_split & _);
     congruence..|].
  destruct (allData !! k) as [t|] eqn:Hk;
    [|apply Hold; [done|]; intros (_ & _ & [? ?]); congruence].
  destruct (decide (m = month)) as [->|Hne].
  - rewrite lookup_insert_eq in Hlook. injection Hlook as ->.
    exists dates, k, []. split; [done|]. split; [done|].
    split; [apply month_of_split; eauto|]. split; [done|]. constructor.
  - rewrite lookup_insert_ne in Hlook by done. apply Hold; [done|].
    intros (_ & (? & ? & ?)%month_of_split & _). congruence.
Qed.

(** The baseline of the stores the page reaches: extracted from the loaded
    mapping, starting from the empty object. *)
Definition baseline_inv (st : state) : Prop :=
  baselineData st
  = match allTemperatureData st with
    | Some allData => extract_baseline allData (sorted_keys allData) ∅
    | None => ∅
    end.

Lemma baseline_inv_dataset st st' :
  dataset_of st' = dataset_of st → baseline_inv st → baseline_inv st'.
Proof.
  unfold dataset_of, baseline_inv. intros [= _ _ Hd _ Hb]. by rewrite Hd, Hb.
Qed.

Lemma reachable_baseline features started st :
  reachable features started st → baseline_inv st.
Proof.
  induction 1 as [|b st Hreach IH|started ev st _ IH Hen].
  - done.
  - destruct (reachable_unloaded _ _ Hreach) as (Hd & _ & _).
    unfold dataset_of in Hd. injection Hd as _ _ Hdata _ Hbase.
    cbn in Hdata, Hbase.
    pose proof (loadTemperatureData_cases b st) as Hcases.
    cbv zeta in Hcases. unfold baseline_inv.
    destruct b as [|parsedData];
      [rewrite Hcases; store_simpl; by rewrite Hdata, Hbase|].
    destruct (coords parsedData) as [raw|];
      [|rewrite Hcases; store_simpl; by rewrite Hdata, Hbase].
    destruct (temperature_source parsedData) as [allData|];
      [|rewrite Hcases; store_simpl; by rewrite Hbase].
    rewrite Hcases.
    assert (H2 : baseline_inv (before_first_frame raw allData
                                 (set_timeDisplay "Downloading data..." st))).
    { unfold baseline_inv.
      destruct (before_first_frame_view raw allData
                  (set_timeDisplay "Downloading data..." st))
        as (_ & -> & _ & _ & _ & -> & _).
      by rewrite <- Hbase. }
    revert H2. generalize (before_first_frame raw allData
                             (set_timeDisplay "Downloading data..." st)).
    intros st2 H2. destruct (renderHeatmap_view 0 st2) as (_ & Hv & _).
    apply (baseline_inv_dataset _ _ Hv) in H2.
    destruct (renderHeatmap 0 st2) as [st' c]. by destruct c.
  - eapply baseline_inv_dataset; [apply handle_dataset|exact IH].
Qed.

(** X10. In every store the page reaches, the baseline of a month is the
    reading array of the last date key (in sorted order) that starts with
    "2015" and has that month as its second dash-separated part; a month
    without such a key has no baseline. *)
Theorem baseline_is_last_2015_record (features : list feature)
    (started : bool) (st : state) (month : string) (temps : list jsval) :
  reachable features started st →
  baselineData st !! month = Some temps
  ↔ ∃ allData dateStr,
      allTemperatureData st = Some allData
      ∧ allData !! dateStr = Some temps
      ∧ startsWith dateStr "2015" = true
      ∧ month_of dateStr = Some month
      ∧ ∀ k, sets_baseline allData month k → String.le k dateStr.
Proof.
  intros Hreach. pose proof (reachable_baseline _ _ _ Hreach) as Hb.
  unfold baseline_inv in Hb. rewrite Hb. split.
  - destruct (allTemperatureData st) as [allData|]; [|done].
    intros (before & dateStr & after & Hsplit & H15 & Hm & Htemps & Hafter)
      %extract_baseline_inv.
    exists allData, dateStr. split; [done|]. split; [done|].
    split; [done|]. split; [done|].
    intros k Hk. assert (Hin : k ∈ sorted_keys allData).
    { apply elem_of_sorted_keys. by destruct Hk as (_ & _ & ?). }
    pose proof (sorted_keys_sorted allData) as Hsorted.
    rewrite Hsplit in Hin, Hsorted.
    apply elem_of_app in Hin as [Hin|Hin].
    + eapply (StronglySorted_app_1_elem_of key_lt) in Hsorted;
        [by destruct Hsorted|exact Hin|by left].
    + apply elem_of_cons in Hin as [->|Hin]; [done|].
      rewrite Forall_forall in Hafter. by destruct (Hafter k Hin).
  - intros (allData & dateStr & -> & Htemps & H15 & Hm & Hlast).
    by apply (baseline_of_last_key allData ∅ dateStr).
Qed.

(** ** The refresh of the sidebar on a mode switch *)

(** Whether a boundary has data does not depend on the mode. *)
Lemma calculateCountryTrend_null_store st st' feature :
  rawCoords st' = rawCoords st →
  calculateCountryTrend st feature = Ok None →
  calculateCountryTrend st' feature = Ok None.
Proof.
  unfold calculateCountryTrend. intros ->.
  destruct (rawCoords st) as [[|c raw]|]; [done| |done].
  cbv zeta. destruct (indices_from feature 0 (c :: raw)); [done|].
  by destruct (rmap_list _ _).
Qed.

Lemma refresh_item_no_data st it :
  calculateCountryTrend st (featureData it) = Ok None →
  snd (refresh_item st it) = Thrown.
Proof. unfold refresh_item. cbv zeta. cbn. by intros ->. Qed.

(** The loop stops at an item without data, at the latest: the items after
    it are not touched. *)
Lemma refresh_items_stops st before it after :
  calculateCountryTrend st (featureData it) = Ok None →
  ∃ front,
    refresh_items st (before ++ it :: after) = (front ++ after, Thrown)
    ∧ length front = S (length before).
Proof.
  intros Hnull. induction before as [|b before IH]; cbn [app refresh_items].
  - pose proof (refresh_item_no_data st it Hnull) as Hthrown.
    destruct (refresh_item st it) as [it' c]. cbn in Hthrown. subst c.
    by exists [it'].
  - destruct (refresh_item st b) as [b' [|]].
    + destruct IH as (front & -> & Hlen). exists (b' :: front).
      split; [done|]. cbn. by rewrite Hlen.
    + exists (b' :: before ++ [it]). split.
      * cbn. by rewrite <- app_assoc.
      * cbn. rewrite length_app. cbn. lia.
Qed.

(** X11. When some listed country has no data (no sample point inside its
    boundary), a switch of the mode raises while it refreshes the sidebar:
    the mode, the colour scale and the legend are switched, but the
    heatmap circles and the time display are not redrawn, and the items
    listed after that country keep the charts and figures they had. *)
Theorem toggle_stops_at_no_data (st : state) (enabled : bool)
    (before : list item) (it : item) (after : list item) :
  selectionList st = before ++ it :: after →
  calculateCountryTrend st (featureData it) = Ok None →
  snd (toggleAnomalyMode enabled st) = Thrown
  ∧ isAnomalyMode (fst (toggleAnomalyMode enabled st)) = enabled
  ∧ currentColorScale (fst (toggleAnomalyMode enabled st))
    = (if enabled then anomalyColorScale else absoluteColorScale)
  ∧ legendAnomaly (fst (toggleAnomalyMode enabled st)) = enabled
  ∧ dataPoints (fst (toggleAnomalyMode enabled st)) = dataPoints st
  ∧ timeDisplay (fst (toggleAnomalyMode enabled st)) = timeDisplay st
  ∧ ∃ front,
      selectionList (fst (toggleAnomalyMode enabled st)) = front ++ after
      ∧ length front = S (length before).
Proof.
  intros Hlist Hnull. unfold toggleAnomalyMode. cbv zeta.
  unfold updateLegend. store_simpl. rewrite Hlist.
  match goal with
  | |- context [refresh_items ?s _] =>
      destruct (refresh_items_stops s before it after)
        as (front & -> & Hlen);
      [by apply (calculateCountryTrend_null_store st)|]
  end.
  cbn [and_then fst snd]. store_simpl.
  repeat (split; [done|]). by exists front.
Qed.

(** What an item shows once its chart is drawn for [series] in a mode:
    the figures of the series, its line, and the marker on the element at
    [timeIndex] (hidden when the series has none there). *)
Definition shows (anomaly : bool) (series : list entry) (timeIndex : nat)
    (it : item) : Prop :=
  statsBox it
  = {| statsDisplay := DisplayFlex; statsShown := Some (series, anomaly) |}
  ∧ chartContainer it
    = {| children :=
           [Svg (Some {| line := series; lineAnomaly := anomaly;
                         marker := option_map (λ p, (p, anomaly))
                                     (series !! timeIndex) |})];
         chartMeta := Some series |}.

(** A refreshed item before the marker is placed. *)
Definition redrawn (anomaly : bool) (series : list entry) (it : item)
    : Prop :=
  statsBox it
  = {| statsDisplay := DisplayFlex; statsShown := Some (series, anomaly) |}
  ∧ chartContainer it
    = {| children :=
           [Svg (Some {| line := series; lineAnomaly := anomaly;
                         marker := None |})];
         chartMeta := Some series |}.

Lemma refresh_item_drawn st it e series :
  calculateCountryTrend st (featureData it) = Ok (Some (e :: series)) →
  stats_raise (e :: series) = false →
  ∃ it',
    refresh_item st it = (it', Normal)
    ∧ item_key it' = item_key it
    ∧ redrawn (isAnomalyMode st) (e :: series) it'.
Proof.
  intros Hcalc Hstats. unfold refresh_item. cbv zeta.
  cbn [featureData set_chartContainer]. rewrite Hcalc.
  unfold updateCountryStats. rewrite Hstats.
  cbn [drawDetailedChart set_statsBox set_chartContainer chartContainer
         clear_chart children chartMeta app].
  eexists. split; [done|]. by split.
Qed.

Lemma refresh_items_drawn st items :
  (∀ it, it ∈ items →
     ∃ e series,
       calculateCountryTrend st (featureData it) = Ok (Some (e :: series))
       ∧ stats_raise (e :: series) = false) →
  ∃ items',
    refresh_items st items = (items', Normal)
    ∧ Forall2 (λ it it',
         item_key it' = item_key it
         ∧ ∃ series,
             calculateCountryTrend st (featureData it) = Ok (Some series)
             ∧ redrawn (isAnomalyMode st) series it') items items'.
Proof.
  induction items as [|it items IH]; intros Hall.
  - exists []. by split.
  - destruct (Hall it) as (e & series & Hcalc & Hstats); [left|].
    destruct (refresh_item_drawn st it e series Hcalc Hstats)
      as (it' & Hit & Hkey & Hdrawn).
    destruct IH as (items' & Hitems & Hrest);
      [intros it2 Hin; apply Hall; by right|].
    exists (it' :: items'). cbn [refresh_items]. rewrite Hit, Hitems.
    split; [done|]. constructor; [|done]. split; [done|]. eauto.
Qed.

(** What a completed frame writes, when there are time points. *)
Lemma renderHeatmap_written timeIndex st :
  snd (renderHeatmap timeIndex st) = Normal →
  timePoints st ≠ [] →
  selectionList (fst (renderHeatmap timeIndex st))
  = selectionList (updateChartsSync timeIndex st)
  ∧ Forall (λ c, fst (fill c) = currentColorScale st)
      (dataPoints (fst (renderHeatmap timeIndex st))).
Proof.
  unfold renderHeatmap. cbv zeta.
  destruct (timePoints st) as [|k ks]; [done|].
  destruct (allTemperatureData _); [|done].
  destruct (if isAnomalyMode _ then _ else _); [|done].
  destruct (assemble _ _ _ _ _) as [renderData|]; [|done].
  intros _ _. cbn [fst]. split; [done|].
  unfold updateChartsSync. store_simpl.
  apply Forall_forall. intros c (d & -> & _)%list_elem_of_fmap. done.
Qed.

Lemma sync_redrawn anomaly series timeIndex it :
  redrawn anomaly series it →
  shows anomaly series timeIndex
    (set_chartContainer
       (sync_container anomaly timeIndex (chartContainer it)) it).
Proof.
  intros [Hbox Hchart]. split; [done|].
  cbn [chartContainer set_chartContainer]. rewrite Hchart.
  unfold sync_container. cbn [chartMeta children].
  by destruct (series !! timeIndex).
Qed.

(** A switch of the mode over a sidebar of drawable countries. *)
Lemma toggleAnomalyMode_refreshes (features : list feature) (started : bool)
    (st : state) (enabled : bool) :
  reachable features started st →
  (∀ it, it ∈ selectionList st →
     ∃ e series,
       calculateCountryTrend (set_isAnomalyMode enabled st) (featureData it)
       = Ok (Some (e :: series))
       ∧ stats_raise (e :: series) = false) →
  snd (toggleAnomalyMode enabled st) = Normal
  ∧ Forall2 (λ it it',
       item_key it' = item_key it
       ∧ ∃ series,
           calculateCountryTrend (set_isAnomalyMode enabled st)
             (featureData it) = Ok (Some series)
           ∧ shows enabled series (sliderValue st) it')
      (selectionList st) (selectionList (fst (toggleAnomalyMode enabled st)))
  ∧ (timePoints st ≠ [] →
     Forall (λ c, fst (fill c)
                  = if enabled then anomalyColorScale
                    else absoluteColorScale)
       (dataPoints (fst (toggleAnomalyMode enabled st)))).
Proof.
  intros Hreach Hall.
  pose proof (reachable_data_inv _ _ _ Hreach) as Hinv.
  pose proof (reachable_playback _ _ _ Hreach) as Hpb.
  unfold toggleAnomalyMode. cbv zeta. unfold updateLegend. store_simpl.
  set (st1 := set_legendAnomaly enabled
                (set_currentColorScale
                   (if enabled then anomalyColorScale
                    else absoluteColorScale)
                   (set_isAnomalyMode enabled st))).
  destruct (refresh_items_drawn st1 (selectionList st) Hall)
    as (items' & -> & Hitems).
  cbn [and_then]. store_simpl.
  change (sliderValue st1) with (sliderValue st).
  change (isAnomalyMode st1) with enabled in Hitems.
  set (st2 := set_selectionList items' st1).
  assert (Hnormal : snd (renderHeatmap (sliderValue st) st2) = Normal).
  { apply renderHeatmap_normal; [same_data Hinv|].
    change (timePoints st2) with (timePoints st).
    by apply slider_in_range. }
  split; [done|].
  destruct (timePoints st) as [|k ks] eqn:Htimes.
  - rewrite renderHeatmap_guard by done. cbn [fst].
    split; [|done].
    destruct (selectionList st) as [|it rest] eqn:Hlist.
    + apply Forall2_nil_inv_l in Hitems as ->. constructor.
    + destruct (Hall it) as (e & series & Hcalc & _); [left|].
      destruct (calculateCountryTrend_no_timePoints
                  (set_isAnomalyMode enabled st) (featureData it) Htimes);
        congruence.
  - destruct (renderHeatmap_written (sliderValue st) st2 Hnormal)
      as [-> Hfill];
      [change (timePoints st2) with (timePoints st); by rewrite Htimes|].
    split; [|by intros _].
    unfold updateChartsSync. store_simpl. apply Forall2_fmap_r.
    eapply Forall2_impl; [exact Hitems|].
    intros it it' (Hkey & series & Hcalc & Hdrawn). split; [done|].
    exists series. split; [done|]. by apply sync_redrawn.
Qed.

(** X12. When every listed country has a non-empty series in the new mode
    whose figures can be written, a switch of the mode completes: every
    listed item keeps its identity and shows the figures and the line of
    its country's series in the new mode, with the marker at the slider's
    index, and the heatmap circles are filled with the scale of the new
    mode. *)
Theorem toggle_refreshes_all (features : list feature) (started : bool)
    (st : state) (enabled : bool) :
  reachable features started st →
  (∀ it, it ∈ selectionList st →
     ∃ e series,
       calculateCountryTrend (set_isAnomalyMode enabled st) (featureData it)
       = Ok (Some (e :: series))
       ∧ stats_raise (e :: series) = false) →
  snd (toggleAnomalyMode enabled st) = Normal
  ∧ Forall2 (λ it it',
       item_key it' = item_key it
       ∧ ∃ series,
           calculateCountryTrend (set_isAnomalyMode enabled st)
             (featureData it) = Ok (Some series)
           ∧ shows enabled series (sliderValue st) it')
      (selectionList st) (selectionList (fst (toggleAnomalyMode enabled st)))
  ∧ (timePoints st ≠ [] →
     Forall (λ c, fst (fill c)
                  = if enabled then anomalyColorScale
                    else absoluteColorScale)
       (dataPoints (fst (toggleAnomalyMode enabled st)))).
Proof. apply toggleAnomalyMode_refreshes. Qed.

(** ** Deferred draws *)

(** The listed items by identity, the pending draws and the next node. *)
Definition jobs_of (st : state) :=
  (map item_key (selectionList st), timeouts st, nextNode st).

(** Nodes are distinct and below the next node, ids and names are those of
    the feature, and a pending draw whose item is listed holds the feature
    of that item. *)
Definition job_prop (ks : list (nat * string * string * feature))
    (js : list job) (n : nat) : Prop :=
  NoDup (map (λ k, k.1.1.1) ks)
  ∧ NoDup (map job_node js)
  ∧ (∀ k, k ∈ ks →
       k.1.1.1 < n
       ∧ k.1.1.2 = getCountryId k.2 ∧ k.1.2 = getCountryName k.2)
  ∧ (∀ j, j ∈ js →
       job_node j < n ∧ job_id j = getCountryId (job_feature j))
  ∧ (∀ k j, k ∈ ks → j ∈ js → k.1.1.1 = job_node j → k.2 = job_feature j).

Definition job_inv (st : state) : Prop :=
  job_prop (map item_key (selectionList st)) (timeouts st) (nextNode st).

Lemma job_inv_same st st' :
  jobs_of st' = jobs_of st → job_inv st → job_inv st'.
Proof. unfold jobs_of, job_inv. by intros [= -> -> ->]. Qed.

Lemma job_prop_sublist ks ks' js js' n :
  ks' `sublist_of` ks → js' `sublist_of` js →
  job_prop ks js n → job_prop ks' js' n.
Proof.
  intros Hks Hjs (H1 & H2 & H3 & H4 & H5).
  split; [|split; [|split; [|split]]].
  - eapply sublist_NoDup; [exact H1|]. by apply fmap_sublist.
  - eapply sublist_NoDup; [exact H2|]. by apply fmap_sublist.
  - intros k Hk. apply H3. by eapply elem_of_sublist.
  - intros j Hj. apply H4. by eapply elem_of_sublist.
  - intros k j Hk Hj. apply H5; by eapply elem_of_sublist.
Qed.

Lemma job_prop_add ks js n feature :
  job_prop ks js n →
  job_prop (ks ++ [(n, getCountryId feature, getCountryName feature,
                    feature)])
    (js ++ [{| job_node := n; job_id := getCountryId feature;
               job_feature := feature |}]) (S n).
Proof.
  intros (H1 & H2 & H3 & H4 & H5).
  split; [|split; [|split; [|split]]].
  - rewrite map_app. apply NoDup_app. split; [done|].
    split; [|apply NoDup_singleton].
    intros m (k & -> & Hk)%list_elem_of_fmap Hn%list_elem_of_singleton.
    destruct (H3 k Hk) as [Hlt _]. cbn in Hn. lia.
  - rewrite map_app. apply NoDup_app. split; [done|].
    split; [|apply NoDup_singleton].
    intros m (j & -> & Hj)%list_elem_of_fmap Hn%list_elem_of_singleton.
    destruct (H4 j Hj) as [Hlt _]. cbn in Hn. lia.
  - intros k [Hk| ->%list_elem_of_singleton]%elem_of_app; [|cbn; auto].
    destruct (H3 k Hk) as (? & ? & ?). auto with lia.
  - intros j [Hj| ->%list_elem_of_singleton]%elem_of_app; [|cbn; auto].
    destruct (H4 j Hj) as (? & ?). auto with lia.
  - intros k j [Hk| ->%list_elem_of_singleton]%elem_of_app
      [Hj| ->%list_elem_of_singleton]%elem_of_app; cbn.
    + by apply H5.
    + intros Hn. destruct (H3 k Hk) as [Hlt _]. lia.
    + intros Hn. destruct (H4 j Hj) as [Hlt _]. lia.
    + done.
Qed.

Lemma handle_job_inv ev st : job_inv st → job_inv (handle ev st).
Proof.
  intros Hinv.
  destruct ev as [t|t|t|id| |v|b|h|k| ]; cbn [handle].
  - destruct (countryPaths st !! t) as [p|] eqn:Hp.
    2:{ unfold handleClick. by rewrite Hp. }
    pose proof (handleClick_cases t st p Hp) as H. cbv zeta in H.
    destruct (bool_decide (_ ∈ revealedCountries st));
      [destruct H as (sl & Hsub & [-> | ->])|rewrite H].
    + eapply job_prop_sublist; [| |exact Hinv].
      * by apply fmap_sublist.
      * done.
    + exact Hinv.
    + unfold job_inv, updateBorderStyle, addToSelectionList, on_target.
      store_simpl. rewrite map_app. by apply job_prop_add.
  - destruct (handleMouseEnter_frame t st) as [? ->].
    by eapply job_inv_same.
  - destruct (handleMouseLeave_frame t st) as [? ->].
    by eapply job_inv_same.
  - destruct (removeCountry_frame id st) as (sl & Hsub & ->).
    eapply job_prop_sublist; [| |exact Hinv].
    + by apply fmap_sublist.
    + done.
  - eapply job_inv_same; [|exact Hinv].
    unfold togglePlay, clearInterval.
    by destruct (isPlaying st), (animationInterval st).
  - eapply job_inv_same; [|exact Hinv].
    unfold slider_input, togglePlay, clearInterval. store_simpl.
    by destruct (isPlaying st), (animationInterval st).
  - eapply job_inv_same; [|exact Hinv]. unfold jobs_of.
    rewrite toggleAnomalyMode_keys.
    by destruct (toggleAnomalyMode_frame b st) as (? & ? & ? & ->).
  - eapply job_inv_same; [|exact Hinv]. unfold jobs_of, advance.
    cbv zeta. rewrite renderHeatmap_keys. by frame_heatmap.
  - destruct (timeouts st !! k) as [j|]; [|done].
    unfold job_inv. rewrite deferred_draw_keys.
    destruct (deferred_draw_frame j
                (set_timeouts (delete k (timeouts st)) st)) as [? ->].
    store_simpl. eapply job_prop_sublist; [done| |exact Hinv].
    apply sublist_delete.
  - eapply job_inv_same; [|exact Hinv]. unfold jobs_of, animation_frame.
    cbv zeta. rewrite renderHeatmap_keys. by frame_heatmap.
Qed.

Lemma loadTemperatureData_jobs b st :
  jobs_of (loadTemperatureData b st) = jobs_of st.
Proof.
  pose proof (loadTemperatureData_cases b st) as Hcases. cbv zeta in Hcases.
  destruct b as [|parsedData]; [by rewrite Hcases|].
  destruct (coords parsedData) as [raw|]; [|by rewrite Hcases].
  destruct (temperature_source parsedData) as [allData|];
    [|by rewrite Hcases].
  rewrite Hcases.
  change (jobs_of st)
    with (jobs_of (before_first_frame raw allData
                     (set_timeDisplay "Downloading data..." st))).
  generalize (before_first_frame raw allData
                (set_timeDisplay "Downloading data..." st)).
  intros st2.
  assert (Hj : jobs_of (fst (renderHeatmap 0 st2)) = jobs_of st2).
  { unfold jobs_of. rewrite renderHeatmap_keys. by frame_heatmap. }
  destruct (renderHeatmap 0 st2) as [st' c]. by destruct c.
Qed.

Lemma reachable_jobs features started st :
  reachable features started st → job_inv st.
Proof.
  induction 1 as [|b st _ IH|started ev st _ IH Hen].
  - unfold job_inv. cbn. split; [constructor|]. split; [constructor|].
    split; [by intros ? ?%elem_of_nil|].
    split; [by intros ? ?%elem_of_nil|]. by intros ? ? ?%elem_of_nil.
  - eapply job_inv_same; [apply loadTemperatureData_jobs|done].
  - by apply handle_job_inv.
Qed.

(** X13. In every store the page reaches, the listed items are distinct
    elements whose id and name are those of their own feature, no two
    pending draws close over the same item, and a pending draw whose item
    is still listed holds that item's feature and id. *)
Theorem pending_draws_match_items (features : list feature)
    (started : bool) (st : state) :
  reachable features started st →
  NoDup (map node (selectionList st))
  ∧ NoDup (map job_node (timeouts st))
  ∧ (∀ it, it ∈ selectionList st →
       countryId it = getCountryId (featureData it)
       ∧ countryName it = getCountryName (featureData it))
  ∧ (∀ it j, it ∈ selectionList st → j ∈ timeouts st →
       node it = job_node j →
       featureData it = job_feature j ∧ countryId it = job_id j).
Proof.
  intros (H1 & H2 & H3 & H4 & H5)%reachable_jobs.
  assert (Hkey : ∀ it, it ∈ selectionList st →
            item_key it ∈ map item_key (selectionList st)).
  { intros it Hit. apply list_elem_of_fmap. eauto. }
  split; [by rewrite map_map in H1|]. split; [done|]. split.
  - intros it Hit. by destruct (H3 _ (Hkey it Hit)) as (_ & ? & ?).
  - intros it j Hit Hj Hnode.
    pose proof (H5 _ j (Hkey it Hit) Hj Hnode) as Hf. cbn in Hf.
    split; [done|].
    destruct (H3 _ (Hkey it Hit)) as (_ & Hid & _). cbn in Hid.
    destruct (H4 j Hj) as [_ Hjid]. congruence.
Qed.

Lemma draw_item_drawn anomaly e series it :
  stats_raise (e :: series) = false →
  redrawn anomaly (e :: series)
    (fst (draw_item anomaly (Some (e :: series)) it)).
Proof.
  intros Hstats. unfold draw_item. cbv zeta.
  unfold updateCountryStats. rewrite Hstats.
  cbn [drawDetailedChart set_statsBox set_chartContainer chartContainer
         clear_chart children chartMeta app fst].
  by split.
Qed.

(** X14. In every store the page reaches, when the deferred draw of a
    country with a non-empty series fires (and the figures of the series
    can be written), the draw leaves the pending list, the item it closes
    over - which holds that country's feature - shows the figures and the
    line of the series in the current mode with the marker at the
    slider's index, and every other listed item only has its marker
    synchronised; when the item has left the list, nothing else changes. *)
Theorem deferred_draw_shows_series (features : list feature)
    (started : bool) (st : state) (k : nat) (j : job) (e : entry)
    (series : list entry) :
  reachable features started st →
  timeouts st !! k = Some j →
  calculateCountryTrend st (job_feature j) = Ok (Some (e :: series)) →
  stats_raise (e :: series) = false →
  timeouts (handle (TimeoutFires k) st) = delete k (timeouts st)
  ∧ Forall2 (λ it it',
       item_key it' = item_key it
       ∧ if decide (node it = job_node j)
         then featureData it = job_feature j
              ∧ shows (isAnomalyMode st) (e :: series) (sliderValue st) it'
         else statsBox it' = statsBox it
              ∧ chartContainer it'
                = sync_container (isAnomalyMode st) (sliderValue st)
                    (chartContainer it))
      (selectionList st) (selectionList (handle (TimeoutFires k) st)).
Proof.
  intros (_ & _ & _ & _ & Hsame)%reachable_jobs Hj Hcalc Hstats.
  cbn [handle]. rewrite Hj. unfold deferred_draw.
  change (calculateCountryTrend
            (set_timeouts (delete k (timeouts st)) st) (job_feature j))
    with (calculateCountryTrend st (job_feature j)).
  rewrite Hcalc. cbv zeta. rewrite Hstats. cbn [fst].
  unfold updateChartsSync. store_simpl. split; [done|].
  apply Forall2_fmap_r, Forall2_fmap_r, Forall_Forall2_diag, Forall_forall.
  intros it Hit. unfold compose. cbv beta.
  destruct (decide (node it = job_node j)) as [Hnode|Hne].
  - split; [exact (draw_item_key _ _ it)|]. split.
    + apply (Hsame (item_key it) j); [|by eapply list_elem_of_lookup_2|done].
      apply list_elem_of_fmap. eauto.
    + by apply sync_redrawn, draw_item_drawn.
  - done.
Qed.

(** ** The date and the circles of a frame *)

Lemma renderHeatmap_shown timeIndex st currentTime :
  data_inv st →
  timePoints st !! timeIndex = Some currentTime →
  timeDisplay (fst (renderHeatmap timeIndex st)) = currentTime
  ∧ length (dataPoints (fst (renderHeatmap timeIndex st)))
    = length (visible_indices (screenCoords st)).
Proof.
  intros Hinv Ht.
  destruct (data_inv_lookup st currentTime Hinv)
    as (allData & temps & Hdata & Htemps);
    [by eapply list_elem_of_lookup_2|].
  unfold renderHeatmap. destruct (timePoints st) as [|k ks]; [done|].
  rewrite Ht. cbv zeta.
  cbn [default set_timeDisplay allTemperatureData isAnomalyMode
         baselineData screenCoords currentColorScale prop_key].
  unfold id. rewrite Hdata, Htemps.
  destruct (isAnomalyMode st);
    match goal with
    | |- context [assemble ?a (Some ?t) ?b 0 ?c] =>
        destruct (assemble_visible a t b c) as (ds & -> & Hall)
    end; cbn [fst]; unfold updateChartsSync; store_simpl;
    (split; [done|]); by rewrite length_map, (Forall2_length _ _ _ Hall).
Qed.

(** X15. In every store the page reaches with time points, a frame shows
    the date at the slider's index: the callback of the playback interval
    shows the date of the index it moves the slider to, the animation
    frame of a slider input shows the date of the value the slider has
    when the frame runs, and both draw one circle per coordinate that has
    a screen position. *)
Theorem frame_shows_slider_date (features : list feature) (started : bool)
    (st : state) :
  reachable features started st →
  timePoints st ≠ [] →
  timePoints st !! sliderValue (fst (advance st))
  = Some (timeDisplay (fst (advance st)))
  ∧ timePoints st !! sliderValue st
    = Some (timeDisplay (fst (animation_frame st)))
  ∧ length (dataPoints (fst (advance st)))
    = length (visible_indices (screenCoords st))
  ∧ length (dataPoints (fst (animation_frame st)))
    = length (visible_indices (screenCoords st)).
Proof.
  intros Hreach Hne. pose proof (reachable_data_inv _ _ _ Hreach) as Hinv.
  pose proof (reachable_playback _ _ _ Hreach) as Hpb.
  assert (Hready : controlsReady st = true).
  { destruct (controlsReady st) eqn:Hc; [done|].
    destruct Hne. by apply (di_ready st Hinv). }
  pose proof (pb_max st Hpb Hready) as Hmax.
  assert (Hlen : 0 < length (timePoints st))
    by (destruct (timePoints st); [done|cbn; lia]).
  rewrite advance_sliderValue.
  set (nextVal := if bool_decide _ then 0 else sliderValue st + 1).
  assert (Hnext : nextVal < length (timePoints st)).
  { subst nextVal. case_bool_decide; lia. }
  assert (Hcur : sliderValue st < length (timePoints st)).
  { destruct (pb_value st Hpb); lia. }
  apply lookup_lt_is_Some in Hnext as [d1 Hd1].
  apply lookup_lt_is_Some in Hcur as [d2 Hd2].
  assert (Hadv : fst (advance st)
                 = fst (renderHeatmap nextVal (set_sliderValue nextVal st)))
    by done.
  destruct (renderHeatmap_shown nextVal (set_sliderValue nextVal st) d1)
    as [Ht1 Hc1]; [same_data Hinv|done|].
  destruct (renderHeatmap_shown (sliderValue st)
              (set_frames (pred (frames st)) st) d2)
    as [Ht2 Hc2]; [same_data Hinv|done|].
  rewrite Hadv, Ht1, Hc1. unfold animation_frame. cbv zeta.
  change (sliderValue (set_frames (pred (frames st)) st))
    with (sliderValue st).
  rewrite Ht2, Hc2. done.
Qed.

(** ** The shape of the sidebar charts *)

(** A chart container holds at most one child; when that is a drawn svg,
    the container's sync data is the series of the line, and a visible
    marker points at an element of that series. *)
Definition chart_ok (container : chart_container) : Prop :=
  length (children container) ≤ 1
  ∧ ∀ c, Svg (Some c) ∈ children container →
      chartMeta container = Some (line c)
      ∧ ∀ p a, marker c = Some (p, a) → p ∈ line c.

Definition charts_inv (st : state) : Prop :=
  Forall (λ it, chart_ok (chartContainer it)) (selectionList st).

Lemma chart_ok_no_svg container :
  length (children container) ≤ 1 →
  (∀ c, Svg (Some c) ∉ children container) →
  chart_ok container.
Proof. intros Hlen Hno. split; [done|]. intros c Hc. by destruct (Hno c). Qed.

Lemma chart_ok_drawn anomaly container series :
  children container = [] →
  chart_ok (fst (drawDetailedChart anomaly container (Some series))).
Proof.
  intros Hnil. cbn. rewrite Hnil. split; [cbn; lia|].
  intros c [= ->]%list_elem_of_singleton. cbn. split; [done|].
  by intros p a.
Qed.

Lemma chart_ok_undrawn anomaly container :
  children container = [] →
  chart_ok (fst (drawDetailedChart anomaly container None)).
Proof.
  intros Hnil. apply chart_ok_no_svg; cbn; rewrite Hnil; [cbn; lia|].
  by intros c [=]%list_elem_of_singleton.
Qed.

Lemma chart_ok_cleared container : chart_ok (clear_chart container).
Proof.
  apply chart_ok_no_svg; [cbn; lia|]. intros c. apply not_elem_of_nil.
Qed.

Lemma chart_ok_draw anomaly container trendData :
  children container = [] →
  chart_ok (fst (drawDetailedChart anomaly container trendData)).
Proof.
  destruct trendData; [apply chart_ok_drawn|apply chart_ok_undrawn].
Qed.

Lemma refresh_item_chart st it :
  chart_ok (chartContainer (fst (refresh_item st it))).
Proof.
  unfold refresh_item. cbv zeta.
  destruct (calculateCountryTrend _ _) as [trendData|];
    [|apply chart_ok_cleared].
  destruct (updateCountryStats _ _ _) as [box [|]];
    [|apply chart_ok_cleared].
  cbn [set_statsBox set_chartContainer chartContainer].
  match goal with
  | |- context [drawDetailedChart ?a ?c ?t] =>
      pose proof (chart_ok_draw a c t eq_refl) as Hok;
      destruct (drawDetailedChart a c t)
  end.
  exact Hok.
Qed.

Lemma refresh_items_charts st items :
  Forall (λ it, chart_ok (chartContainer it)) items →
  Forall (λ it, chart_ok (chartContainer it)) (fst (refresh_items st items)).
Proof.
  induction 1 as [|it rest Hit Hrest IH]; [constructor|].
  cbn [refresh_items]. pose proof (refresh_item_chart st it) as Hok.
  destruct (refresh_item st it) as [it' [|]]; cbn [fst] in Hok.
  - destruct (refresh_items st rest) as [rest' c]. by constructor.
  - by constructor.
Qed.

Lemma draw_item_chart anomaly trendData it :
  chart_ok (chartContainer (fst (draw_item anomaly trendData it))).
Proof.
  unfold draw_item. cbv zeta.
  assert (Hno : ∀ meta, chart_ok {| children := [NoDataText];
                                    chartMeta := meta |}).
  { intros meta. apply chart_ok_no_svg; [cbn; lia|].
    by intros c [=]%list_elem_of_singleton. }
  destruct trendData as [[|e series]|]; [apply Hno| |apply Hno].
  destruct (updateCountryStats _ _ _) as [box [|]];
    [|apply chart_ok_cleared].
  cbn [set_statsBox set_chartContainer chartContainer].
  match goal with
  | |- context [drawDetailedChart ?a ?c ?t] =>
      pose proof (chart_ok_draw a c t eq_refl) as Hok;
      destruct (drawDetailedChart a c t)
  end.
  exact Hok.
Qed.

Lemma sync_container_chart anomaly timeIndex container :
  chart_ok container →
  chart_ok (sync_container anomaly timeIndex container).
Proof.
  intros Hok. pose proof Hok as [Hlen Hsvg]. unfold sync_container.
  destruct (chartMeta container) as [series|] eqn:Hmeta; [|exact Hok].
  destruct (series !! timeIndex) as [currentPoint|] eqn:Hpoint;
    [|exact Hok].
  destruct (children container) as [|child [|child2 rest]];
    [| |cbn in Hlen; lia].
  - apply chart_ok_no_svg; [cbn; lia|]. intros c. apply not_elem_of_nil.
  - destruct child as [| |[c|]].
    + apply chart_ok_no_svg; [cbn; lia|].
      by intros c [=]%list_elem_of_singleton.
    + apply chart_ok_no_svg; [cbn; lia|].
      by intros c [=]%list_elem_of_singleton.
    + destruct (Hsvg c) as [Hline _]; [by left|].
      injection Hline as ->.
      split; [cbn; lia|]. cbn. intros c' [= ->]%list_elem_of_singleton.
      cbn. split; [done|]. intros p a [= <- _].
      by eapply list_elem_of_lookup_2.
    + apply chart_ok_no_svg; [cbn; lia|].
      by intros c [=]%list_elem_of_singleton.
Qed.

Lemma updateChartsSync_charts timeIndex st :
  charts_inv st → charts_inv (updateChartsSync timeIndex st).
Proof.
  unfold charts_inv, updateChartsSync. store_simpl. intros Hall.
  apply Forall_fmap. eapply Forall_impl; [exact Hall|].
  intros it Hit. by apply sync_container_chart.
Qed.

Lemma charts_inv_same st st' :
  selectionList st' = selectionList st → charts_inv st → charts_inv st'.
Proof. unfold charts_inv. by intros ->. Qed.

Lemma renderHeatmap_charts timeIndex st :
  charts_inv st → charts_inv (fst (renderHeatmap timeIndex st)).
Proof.
  intros Hinv. unfold renderHeatmap. cbv zeta.
  destruct (timePoints st); [done|].
  destruct (allTemperatureData _); [|done].
  destruct (if isAnomalyMode _ then _ else _); [|done].
  destruct (assemble _ _ _ _ _); [|done].
  cbn [fst]. by apply updateChartsSync_charts.
Qed.

Lemma sublist_charts (items items' : list item) :
  items' `sublist_of` items →
  Forall (λ it, chart_ok (chartContainer it)) items →
  Forall (λ it, chart_ok (chartContainer it)) items'.
Proof.
  intros Hsub Hall. apply Forall_forall. intros it Hit.
  rewrite Forall_forall in Hall. apply Hall.
  by eapply elem_of_sublist.
Qed.

Lemma handle_charts ev st : charts_inv st → charts_inv (handle ev st).
Proof.
  intros Hinv.
  destruct ev as [t|t|t|id| |v|b|h|k| ]; cbn [handle].
  - destruct (countryPaths st !! t) as [p|] eqn:Hp.
    2:{ unfold handleClick. by rewrite Hp. }
    pose proof (handleClick_cases t st p Hp) as H. cbv zeta in H.
    destruct (bool_decide (_ ∈ revealedCountries st));
      [destruct H as (sl & Hsub & [-> | ->])|rewrite H].
    + unfold charts_inv, updateBorderStyle, on_target.
      store_simpl. by eapply sublist_charts.
    + exact Hinv.
    + unfold charts_inv, updateBorderStyle, addToSelectionList, on_target.
      store_simpl. apply Forall_app. split; [done|].
      constructor; [|constructor]. apply chart_ok_no_svg; [cbn; lia|].
      by intros c [=]%list_elem_of_singleton.
  - destruct (handleMouseEnter_frame t st) as [? ->].
    by eapply charts_inv_same.
  - destruct (handleMouseLeave_frame t st) as [? ->].
    by eapply charts_inv_same.
  - destruct (removeCountry_frame id st) as (sl & Hsub & ->).
    unfold charts_inv, updateBorderStyle.
    store_simpl. by eapply sublist_charts.
  - eapply charts_inv_same; [|exact Hinv].
    unfold togglePlay, clearInterval.
    by destruct (isPlaying st), (animationInterval st).
  - eapply charts_inv_same; [|exact Hinv].
    unfold slider_input, togglePlay, clearInterval. store_simpl.
    by destruct (isPlaying st), (animationInterval st).
  - unfold toggleAnomalyMode. cbv zeta.
    match goal with
    | |- context [refresh_items ?s ?l] =>
        pose proof (refresh_items_charts s l Hinv) as Hitems;
        destruct (refresh_items s l) as [items [|]]
    end; cbn [and_then fst] in *.
    + by apply renderHeatmap_charts.
    + done.
  - unfold advance. cbv zeta. by apply renderHeatmap_charts.
  - destruct (timeouts st !! k) as [j|]; [|done].
    unfold deferred_draw.
    destruct (calculateCountryTrend _ _) as [trendData|]; [|done].
    cbv zeta.
    match goal with
    | |- context [set_selectionList ?l ?s] =>
        assert (Hdrawn : charts_inv (set_selectionList l s))
    end.
    { unfold charts_inv. store_simpl. apply Forall_fmap.
      eapply Forall_impl; [exact Hinv|]. intros it Hit. cbn.
      destruct (decide (node it = job_node j)); [|done].
      apply draw_item_chart. }
    destruct trendData as [[|e series]|]; [done| |done].
    destruct (stats_raise (e :: series)); [done|].
    by apply updateChartsSync_charts.
  - unfold animation_frame. cbv zeta. by apply renderHeatmap_charts.
Qed.

Lemma loadTemperatureData_charts b st :
  charts_inv st → charts_inv (loadTemperatureData b st).
Proof.
  intros Hinv.
  pose proof (loadTemperatureData_cases b st) as Hcases. cbv zeta in Hcases.
  destruct b as [|parsedData]; [by rewrite Hcases|].
  destruct (coords parsedData) as [raw|]; [|by rewrite Hcases].
  destruct (temperature_source parsedData) as [allData|];
    [|by rewrite Hcases].
  rewrite Hcases.
  assert (H2 : charts_inv (before_first_frame raw allData
                             (set_timeDisplay "Downloading data..." st)))
    by done.
  revert H2. generalize (before_first_frame raw allData
                           (set_timeDisplay "Downloading data..." st)).
  intros st2 H2. pose proof (renderHeatmap_charts 0 st2 H2) as H3.
  destruct (renderHeatmap 0 st2) as [st' c]. by destruct c.
Qed.

Lemma reachable_charts features started st :
  reachable features started st → charts_inv st.
Proof.
  induction 1 as [|b st _ IH|started ev st _ IH Hen].
  - constructor.
  - by apply loadTemperatureData_charts.
  - by apply handle_charts.
Qed.

(** X16. In every store the page reaches, the chart container of every
    listed item holds at most one child - the loading text, the no-data
    text or one svg, never two charts; when the svg is drawn, the data the
    synchronisation reads is the series of the drawn line, and a visible
    marker points at an element of that series. *)
Theorem charts_well_formed (features : list feature) (started : bool)
    (st : state) (it : item) :
  reachable features started st →
  it ∈ selectionList st →
  length (children (chartContainer it)) ≤ 1
  ∧ ∀ c, Svg (Some c) ∈ children (chartContainer it) →
      chartMeta (chartContainer it) = Some (line c)
      ∧ ∀ p a, marker c = Some (p, a) → p ∈ line c.
Proof.
  intros Hinv%reachable_charts Hit. unfold charts_inv in Hinv.
  rewrite Forall_forall in Hinv. exact (Hinv it Hit).
Qed.

(** ** The seasonal figures of [updateCountryStats] *)

Section Seasons.

(** [Date.prototype.getMonth], in the time zone of the browser. *)
Variable getMonth : Date → nat.

Inductive season : Type :=
  | Winter
  | Spring
  | Summer
  | Autumn.

#[local] Instance season_eq_dec : EqDecision season.
Proof. solve_decision. Defined.

(** One accumulator [{ sum, count }] of the object [seasons]. *)
Record tally : Type := { season_sum : number; season_count : nat }.

Record seasons : Type := {
  winter : tally;
  spring : tally;
  summer : tally;
  autumn : tally
}.

(** The branch that the loop takes for the month [m]. *)
Definition season_of (m : nat) : season :=
  if (m =? 11) || (m =? 0) || (m =? 1) then Winter
  else if (2 <=? m) && (m <=? 4) then Spring
  else if (5 <=? m) && (m <=? 7) then Summer
  else Autumn.

Definition add_to (t : tally) (v : number) : tally :=
  {| season_sum := num_add (season_sum t) v;
     season_count := S (season_count t) |}.

(** The body of [data.forEach]: [d.date.getMonth()] raises when the date
    is [null]. *)
Definition season_step (s : seasons) (d : entry) : result seasons :=
  match date d with
  | None => TypeError
  | Some day =>
      Ok match season_of (getMonth day) with
         | Winter =>
             {| winter := add_to (winter s) (val d); spring := spring s;
                summer := summer s; autumn := autumn s |}
         | Spring =>
             {| winter := winter s; spring := add_to (spring s) (val d);
                summer := summer s; autumn := autumn s |}
         | Summer =>
             {| winter := winter s; spring := spring s;
                summer := add_to (summer s) (val d); autumn := autumn s |}
         | Autumn =>
             {| winter := winter s; spring := spring s;
                summer := summer s; autumn := add_to (autumn s) (val d) |}
         end
  end.

Definition no_tally : tally :=
  {| season_sum := num_zero; season_count := 0 |}.

Definition seasonal (data : list entry) : result seasons :=
  rfold_left season_step data
    {| winter := no_tally; spring := no_tally; summer := no_tally;
       autumn := no_tally |}.

(** [getAvg] before the formatting with [toFixed]; [None] is the dash. *)
Definition getAvg (s : tally) : option number :=
  if bool_decide (0 < season_count s)
  then Some (num_div (season_sum s) (num_of_nat (season_count s)))
  else None.

(** The values of the elements of a season, in order. *)
Definition values_in (x : season) (data : list entry) : list number :=
  map val
    (filter (λ d, option_map (λ day, season_of (getMonth day)) (date d)
                  = Some x) data).

Definition tally_from (t : tally) (values : list number) : tally :=
  {| season_sum := fold_left num_add values (season_sum t);
     season_count := season_count t + length values |}.

Lemma tally_from_nil t : tally_from t [] = t.
Proof. destruct t. unfold tally_from. cbn. by rewrite Nat.add_0_r. Qed.

Lemma tally_from_cons t v values :
  tally_from t (v :: values) = tally_from (add_to t v) values.
Proof. unfold tally_from, add_to. cbn. f_equal. lia. Qed.

Lemma values_in_cons_same x d day data :
  date d = Some day → season_of (getMonth day) = x →
  values_in x (d :: data) = val d :: values_in x data.
Proof.
  intros Hd Hs. unfold values_in.
  rewrite filter_cons_True; [done|]. by rewrite Hd; cbn; rewrite Hs.
Qed.

Lemma values_in_cons_other x d day data :
  date d = Some day → season_of (getMonth day) ≠ x →
  values_in x (d :: data) = values_in x data.
Proof.
  intros Hd Hs. unfold values_in.
  rewrite filter_cons_False; [done|]. rewrite Hd. cbn. congruence.
Qed.

Lemma seasonal_from s data :
  Forall (λ d, is_Some (date d)) data →
  rfold_left season_step data s
  = Ok {| winter := tally_from (winter s) (values_in Winter data);
          spring := tally_from (spring s) (values_in Spring data);
          summer := tally_from (summer s) (values_in Summer data);
          autumn := tally_from (autumn s) (values_in Autumn data) |}.
Proof.
  intros Hall. revert s.
  induction Hall as [|d data [day Hd] _ IH]; intros s.
  - cbn. unfold values_in. cbn. rewrite !tally_from_nil. by destruct s.
  - cbn [rfold_left]. unfold season_step at 1. rewrite Hd. cbn [rbind].
    rewrite IH.
    destruct (season_of (getMonth day)) eqn:Hs; cbn [winter spring summer
                                                      autumn];
      repeat first
        [ rewrite (values_in_cons_same _ d day data Hd Hs)
        | rewrite (values_in_cons_other _ d day data Hd)
            by (rewrite Hs; discriminate) ];
      by rewrite tally_from_cons.
Qed.

Lemma seasonal_null data :
  Exists (λ d, date d = None) data → ∀ s, rfold_left season_step data s
                                          = TypeError.
Proof.
  induction data as [|d data IH]; intros Hex s; [by inv Hex|].
  cbn [rfold_left]. unfold season_step at 1.
  destruct (date d) as [day|] eqn:Hd; [|done]. cbn [rbind].
  apply IH. inv Hex; first [congruence|done].
Qed.

Lemma season_lengths data :
  Forall (λ d, is_Some (date d)) data →
  length (values_in Winter data) + length (values_in Spring data)
  + length (values_in Summer data) + length (values_in Autumn data)
  = length data.
Proof.
  induction 1 as [|d data [day Hd] _ IH]; [done|].
  destruct (season_of (getMonth day)) eqn:Hs;
    repeat first
      [ rewrite (values_in_cons_same _ d day data Hd Hs)
      | rewrite (values_in_cons_other _ d day data Hd)
          by (rewrite Hs; discriminate) ];
    cbn [length]; lia.
Qed.

(** Settles a statement about the season of a month by running through
    the months. *)
Ltac by_month m :=
  unfold season_of;
  do 12 (destruct m as [|m];
         [cbn; split; intros H; first [discriminate H|reflexivity|lia]|]);
  cbn; split; intros H; first [discriminate H|lia].

(** X17. The seasonal loop of [updateCountryStats] raises exactly when
    some element of the series has no date.  Otherwise every element is
    counted in exactly one season - December to February in winter, March
    to May in spring, June to August in summer, every other month in
    autumn - so the four counts add up to the length of the series; each
    sum is the sum in double precision of the values of its season, added
    from the left in the order of the series with every addition rounded,
    and [getAvg] gives the dash exactly for a season without elements. *)
Theorem seasonal_partition (data : list entry) :
  (seasonal data = TypeError ↔ Exists (λ d, date d = None) data)
  ∧ (Forall (λ d, is_Some (date d)) data →
     ∃ s, seasonal data = Ok s
       ∧ season_count (winter s) + season_count (spring s)
         + season_count (summer s) + season_count (autumn s)
         = length data
       ∧ (∀ x t, t = match x with
                     | Winter => winter s
                     | Spring => spring s
                     | Summer => summer s
                     | Autumn => autumn s
                     end →
            season_count t = length (values_in x data)
            ∧ season_sum t = sum_list (values_in x data)
            ∧ (getAvg t = None ↔ values_in x data = [])))
  ∧ (∀ m, season_of m = Winter ↔ m = 11 ∨ m = 0 ∨ m = 1)
  ∧ (∀ m, season_of m = Spring ↔ 2 ≤ m ≤ 4)
  ∧ (∀ m, season_of m = Summer ↔ 5 ≤ m ≤ 7).
Proof.
  assert (Hok : Forall (λ d, is_Some (date d)) data →
            seasonal data
            = Ok {| winter := tally_from no_tally (values_in Winter data);
                    spring := tally_from no_tally (values_in Spring data);
                    summer := tally_from no_tally (values_in Summer data);
                    autumn := tally_from no_tally (values_in Autumn data) |})
    by apply seasonal_from.
  split; [|split; [|split; [|split]]].
  - split; [|intros Hex; by apply seasonal_null].
    intros Hraise.
    destruct (decide (Exists (λ d, date d = None) data)) as [|Hno];
      [done|].
    exfalso. rewrite Hok in Hraise; [done|].
    apply Forall_forall. intros d Hd.
    destruct (date d) eqn:E; [by eexists|].
    destruct Hno. apply Exists_exists. eauto.
  - intros Hall. eexists. split; [by apply Hok|].
    cbn [winter spring summer autumn tally_from season_count no_tally].
    split; [by apply season_lengths|].
    intros x t ->.
    assert (Ht : ∀ values,
              season_count (tally_from no_tally values) = length values
              ∧ season_sum (tally_from no_tally values) = sum_list values
              ∧ (getAvg (tally_from no_tally values) = None
                 ↔ values = [])).
    { intros values. cbn. split; [done|].
      split; [reflexivity|].
      unfold getAvg. cbn. destruct values; cbn; [done|].
      split; [|done]. by rewrite bool_decide_eq_true_2 by lia. }
    destruct x; apply Ht.
  - intros m. by_month m.
  - intros m. by_month m.
  - intros m. by_month m.
Qed.

(** The raising condition of the statistics covers the seasonal loop. *)
Lemma seasonal_raise_stats data :
  seasonal data = TypeError → stats_raise data = true.
Proof.
  intros Hraise. unfold stats_raise.
  destruct (forallb _ data) eqn:Hall; [|done]. exfalso.
  rewrite forallb_forall in Hall. unfold seasonal in Hraise.
  rewrite seasonal_from in Hraise; [done|].
  apply Forall_forall. intros d Hd%list_elem_of_In.
  exact (bool_decide_eq_true_1 _ (Hall d Hd)).
Qed.

End Seasons.

(** ** The hover class of a revealed country *)

(** X18. The hover class survives a reveal: when the pointer enters the
    path of a country that is not revealed, the country is clicked and the
    pointer leaves, the path keeps the hover class beside the revealed
    class, because [handleMouseLeave] does nothing for a revealed country;
    the remove button of the country then clears both classes. *)
Theorem hover_survives_reveal (st : state) (target : nat) (p : path_el) :
  countryPaths st !! target = Some p →
  getCountryId (datum_of p) ∉ revealedCountries st →
  let st' :=
    handle (MouseLeave target)
      (handle (Click target) (handle (MouseEnter target) st)) in
  countryPaths st' !! target
  = Some {| datum_of := datum_of p; revealedClass := true;
            hoverClass := true |}
  ∧ getCountryId (datum_of p) ∈ revealedCountries st'
  ∧ countryPaths (removeCountry (getCountryId (datum_of p)) st') !! target
    = Some {| datum_of := datum_of p; revealedClass := false;
              hoverClass := false |}.
Proof.
  intros Hp Hout. cbn [handle].
  set (cid := getCountryId (datum_of p)) in *.
  assert (Henter : handleMouseEnter target st
                   = on_target target (set_hoverClass true) st).
  { unfold handleMouseEnter. rewrite Hp. fold cid.
    by rewrite bool_decide_eq_false_2 by done. }
  rewrite Henter. clear Henter.
  set (st1 := on_target target (set_hoverClass true) st).
  assert (Hp1 : countryPaths st1 !! target = Some (set_hoverClass true p)).
  { unfold st1, on_target. store_simpl.
    by rewrite list_lookup_alter_eq, Hp. }
  assert (Hout1 : cid ∉ revealedCountries st1) by done.
  set (st2 := handleClick target st1).
  assert (Hclick : st2
            = updateBorderStyle cid true
                (addToSelectionList cid (getCountryName (datum_of p))
                   (datum_of p)
                   (on_target target (set_revealedClass true)
                      (set_revealedCountries ({[cid]} ∪ revealedCountries st1)
                         st1)))).
  { unfold st2.
    rewrite (handleClick_plain target st1 _ Hp1) by (by right).
    change (getCountryId (datum_of (set_hoverClass true p))) with cid.
    by rewrite (bool_decide_eq_false_2 (cid ∈ revealedCountries st1))
      by done. }
  assert (Hr2 : revealedCountries st2 = {[cid]} ∪ revealedCountries st1)
    by by rewrite Hclick.
  assert (Hp2 : countryPaths st2 !! target
                = Some (set_revealedClass true (set_hoverClass true p))).
  { rewrite Hclick.
    unfold updateBorderStyle, addToSelectionList, on_target. store_simpl.
    by rewrite list_lookup_alter_eq, Hp1. }
  assert (Hleave : handleMouseLeave target st2 = st2).
  { unfold handleMouseLeave. rewrite Hp2.
    change (getCountryId
              (datum_of (set_revealedClass true (set_hoverClass true p))))
      with cid.
    rewrite bool_decide_eq_true_2; [done|]. rewrite Hr2. set_solver. }
  rewrite Hleave. split; [by rewrite Hp2|]. split; [rewrite Hr2; set_solver|].
  destruct (removeCountry_frame cid st2) as (sl & _ & ->).
  unfold updateBorderStyle.
  store_simpl. rewrite list_lookup_fmap, Hp2. cbn.
  by rewrite decide_True.
Qed.

(** ** Switching the mode and back *)

Lemma calculateCountryTrend_same st st' feature :
  dataset_of st' = dataset_of st →
  isAnomalyMode st' = isAnomalyMode st →
  calculateCountryTrend st' feature = calculateCountryTrend st feature.
Proof.
  unfold dataset_of. intros [= Hraw _ Hdata Htimes Hbase] Hmode.
  unfold calculateCountryTrend, trend_entry, baseline_for.
  by rewrite Hraw, Hdata, Htimes, Hbase, Hmode.
Qed.

Lemma same_keys (l l' : list item) :
  map item_key l' = map item_key l →
  Forall2 (λ it it', item_key it' = item_key it) l l'.
Proof.
  intros Hkeys.
  apply (Forall2_fmap_1 item_key item_key (λ k k', k' = k)).
  change (Forall2 (λ k k', k' = k) (map item_key l) (map item_key l')).
  rewrite Hkeys. apply Forall_Forall2_diag, Forall_true. done.
Qed.

(** X21. Switching anomaly mode on and off again restores the absolute
    view, whether or not the first switch raised: when every listed
    country has a non-empty absolute series whose figures can be written,
    the page is back in absolute mode with the absolute colour scale and
    legend, every listed item shows the figures and the line of its
    country's absolute series with the marker at the slider's index, and
    the heatmap circles are filled with the absolute scale. *)
Theorem toggle_back_restores (features : list feature) (started : bool)
    (st : state) :
  reachable features started st →
  controlsReady st = true →
  (∀ it, it ∈ selectionList st →
     ∃ e series,
       calculateCountryTrend (set_isAnomalyMode false st) (featureData it)
       = Ok (Some (e :: series))
       ∧ stats_raise (e :: series) = false) →
  let st' := handle (AnomalyToggle false) (handle (AnomalyToggle true) st) in
  isAnomalyMode st' = false
  ∧ currentColorScale st' = absoluteColorScale
  ∧ legendAnomaly st' = false
  ∧ Forall2 (λ it it',
       item_key it' = item_key it
       ∧ ∃ series,
           calculateCountryTrend (set_isAnomalyMode false st)
             (featureData it) = Ok (Some series)
           ∧ shows false series (sliderValue st) it')
      (selectionList st) (selectionList st')
  ∧ (timePoints st ≠ [] →
     Forall (λ c, fst (fill c) = absoluteColorScale) (dataPoints st')).
Proof.
  intros Hreach Hready Hall. cbv zeta. cbn [handle].
  set (st1 := fst (toggleAnomalyMode true st)).
  assert (Hreach1 : reachable features started st1)
    by exact (reach_event features started (AnomalyToggle true) st Hreach
                Hready).
  assert (Hkeys : map item_key (selectionList st1)
                  = map item_key (selectionList st))
    by apply toggleAnomalyMode_keys.
  assert (Hdata : dataset_of st1 = dataset_of st)
    by apply (handle_dataset (AnomalyToggle true)).
  assert (Hview : sliderValue st1 = sliderValue st
                  ∧ timePoints st1 = timePoints st).
  { unfold st1.
    by destruct (toggleAnomalyMode_frame true st) as (? & ? & ? & ->). }
  destruct Hview as [Hvalue Htimes].
  assert (Hsame : ∀ feature,
            calculateCountryTrend (set_isAnomalyMode false st1) feature
            = calculateCountryTrend (set_isAnomalyMode false st) feature).
  { intros feature. apply calculateCountryTrend_same; [|done].
    unfold dataset_of in *. exact Hdata. }
  pose proof (same_keys _ _ Hkeys) as Hitems.
  destruct (toggleAnomalyMode_refreshes features started st1 false Hreach1)
    as (_ & Hshown & Hfill).
  { intros it1 Hit1.
    apply list_elem_of_lookup in Hit1 as [k Hk].
    destruct (Forall2_lookup_r _ _ _ _ _ Hitems Hk) as (it & Hit & Hkey).
    destruct (Hall it) as (e & series & Hcalc & Hstats);
      [by eapply list_elem_of_lookup_2|].
    exists e, series. split; [|done].
    rewrite Hsame. injection Hkey as _ _ _ ->. exact Hcalc. }
  destruct (toggleAnomalyMode_frame false st1) as (td & dp & sl & Hframe).
  split; [by rewrite Hframe|]. split; [by rewrite Hframe|].
  split; [by rewrite Hframe|]. split.
  - eapply Forall2_trans; [|exact Hitems|exact Hshown].
    intros it it1 it' Hkey (Hkey' & series & Hcalc & Hshows).
    split; [congruence|]. exists series.
    rewrite Hsame in Hcalc. injection Hkey as _ _ _ Hf.
    rewrite Hf in Hcalc. rewrite Hvalue in Hshows. done.
  - intros Hne. apply Hfill. by rewrite Htimes.
Qed.

(** ** The anomaly of a country *)

(** The anomalies of one date at the given indices: each reading less the
    baseline of its point, rounded. *)
Definition anomalies_at (temps base : list jsval) (indices : list nat)
    : list number :=
  map (λ i, SFsub 53 1024 (reading temps i) (reading base i)) indices.

(** X22. In anomaly mode on a loaded store, for a date whose month has a
    baseline array and a boundary with contained sample points, the value
    of the series for that date is the mean in double precision of the
    anomalies at the contained points: each reading less the baseline of its
    point, the differences added from the left in index order, and the sum
    divided by their number, with a rounding at every step. *)
Theorem anomaly_is_mean_of_differences (st : state) (raw : list coord)
    (allData : gmap string (list jsval)) (feature : feature)
    (timeIndex : nat) (currentTime : string) (temps base : list jsval) :
  loaded raw allData st →
  isAnomalyMode st = true →
  timePoints st !! timeIndex = Some currentTime →
  allData !! currentTime = Some temps →
  baselineData st !! prop_key (month_of currentTime) = Some base →
  contained_indices feature raw ≠ [] →
  ∃ series e,
    calculateCountryTrend st feature = Ok (Some series)
    ∧ series !! timeIndex = Some e
    ∧ rawDate e = currentTime
    ∧ val e
      = double_mean
          (anomalies_at temps base (contained_indices feature raw)).
Proof.
  intros Hl Hmode Ht Htemps Hbase Hne.
  rewrite (loaded_times _ _ _ Hl) in Ht.
  eexists _, _. split; [by apply (calculateCountryTrend_loaded _ raw)|].
  split; [by apply series_lookup|]. split; [done|].
  cbn [val entry_of]. rewrite Htemps, Hmode. unfold baseline_for.
  rewrite Hmode, (baseline_get_own _ _ _ Hbase).
  cbn [default point_value ToNumber].
  rewrite <- average_double_mean. unfold anomalies_at.
  rewrite length_map. do 2 f_equal. apply map_ext. intros i.
  cbn [ToNumber]. by rewrite !reading_ToNumber.
Qed.

Lemma fold_left_add_NaN (l : list number) :
  fold_left num_add l NaN = NaN.
Proof. induction l as [|b l IH]; [done|]. exact IH. Qed.

Lemma fold_left_add_has_NaN (l : list number) (a : number) :
  NaN ∈ l → fold_left num_add l a = NaN.
Proof.
  revert a. induction l as [|b l IH]; intros a; [by intros ?%elem_of_nil|].
  intros [<-|Hin]%elem_of_cons; cbn [fold_left]; [|by apply IH].
  replace (num_add a NaN) with (NaN : number) by (by destruct a as [[]|[]| |]).
  apply fold_left_add_NaN.
Qed.


(** X27. [baselineData] is a plain object: while it holds no baseline, a
    month that is the name of a property of [Object.prototype] (as in the
    date key "2016-constructor-01") still finds a value there, which is
    truthy and has no element at any index.  In anomaly mode on a loaded
    store the value of a country's series for such a date is then NaN, and
    the heatmap shows zero at every point. *)
Theorem inherited_baseline_gives_NaN (st : state) (raw : list coord)
    (allData : gmap string (list jsval)) (feature : feature)
    (timeIndex : nat) (currentTime month : string) (temps : list jsval) :
  loaded raw allData st →
  isAnomalyMode st = true →
  baselineData st = ∅ →
  timePoints st !! timeIndex = Some currentTime →
  allData !! currentTime = Some temps →
  month_of currentTime = Some month →
  month ∈ object_prototype_names →
  contained_indices feature raw ≠ [] →
  (∃ series e,
     calculateCountryTrend st feature = Ok (Some series)
     ∧ series !! timeIndex = Some e
     ∧ rawDate e = currentTime
     ∧ val e = NaN)
  ∧ ∀ i, frame_value true temps (frame_baseline st currentTime) i
         = JNum num_zero.
Proof.
  intros Hl Hmode Hempty Ht Htemps Hmonth Hin Hne.
  assert (Hbase : baseline_get (baselineData st)
                    (prop_key (month_of currentTime)) = Some []).
  { rewrite Hempty, Hmonth. unfold baseline_get. cbn [prop_key default].
    rewrite !lookup_empty. by rewrite bool_decide_eq_true_2. }
  split.
  - rewrite (loaded_times _ _ _ Hl) in Ht.
    eexists _, _. split; [by apply (calculateCountryTrend_loaded _ raw)|].
    split; [by apply series_lookup|]. split; [done|].
    cbn [val entry_of]. rewrite Htemps. unfold baseline_for.
    rewrite Hmode, Hbase. cbn [default].
    rewrite fold_left_add_has_NaN; [done|].
    destruct (contained_indices feature raw) as [|i l]; [done|].
    cbn [map]. apply elem_of_cons. left.
    cbn [point_value ToNumber]. unfold arr_get at 2. cbn [ToNumber].
    by destruct (ToNumber _) as [[]|[]| |].
  - intros i. unfold frame_baseline. by rewrite Hmode, Hbase.
Qed.

(** ** Date keys that the parser rejects *)

Lemma rmap_list_Forall2 {A B} (f : A → result B) (l : list A) bs :
  rmap_list f l = Ok bs → Forall2 (λ a b, f a = Ok b) l bs.
Proof.
  revert bs. induction l as [|a l IH]; intros bs; cbn.
  - intros [= <-]. constructor.
  - destruct (f a) as [b|] eqn:Hb; cbn; [|done].
    destruct (rmap_list f l) as [bs'|]; cbn; [|done].
    intros [= <-]. constructor; [done|]. by apply IH.
Qed.

Lemma trend_entry_date st indices dateStr e :
  trend_entry st indices dateStr = Ok e → date e = dateParser dateStr.
Proof.
  unfold trend_entry. destruct (allTemperatureData st); [|done].
  destruct (rfold_left _ _ _); cbn; [|done]. by intros [= <-].
Qed.

Lemma calculateCountryTrend_dates st feature series :
  calculateCountryTrend st feature = Ok (Some series) →
  Forall2 (λ dateStr e, date e = dateParser dateStr) (timePoints st) series.
Proof.
  unfold calculateCountryTrend.
  destruct (rawCoords st) as [[|c raw]|]; [done| |done].
  cbv zeta. destruct (indices_from feature 0 (c :: raw)) as [|i l]; [done|].
  destruct (rmap_list _ (timePoints st)) as [series'|] eqn:Hmap; cbn;
    [|done].
  intros [= <-]. apply rmap_list_Forall2 in Hmap.
  eapply Forall2_impl; [exact Hmap|].
  intros dateStr e. apply trend_entry_date.
Qed.

Lemma stats_raise_null_date series d :
  d ∈ series → date d = None → stats_raise series = true.
Proof.
  intros Hin Hnull. unfold stats_raise.
  destruct (forallb _ series) eqn:Hall; [|done]. exfalso.
  rewrite forallb_forall in Hall.
  specialize (Hall d (proj1 (list_elem_of_In _ _) Hin)).
  apply bool_decide_eq_true_1 in Hall. rewrite Hnull in Hall.
  by destruct Hall.
Qed.

(** X24. In every store the page reaches, when the date parser rejects
    some date key, the deferred draw of a country that has data raises
    while it writes the statistics ([d.date.getMonth()] on [null]): the
    item it closes over is left with an empty chart container - the
    loading text is gone and no chart is drawn - and with the statistics
    box switched to flex. *)
Theorem unparsed_date_stops_draw (features : list feature)
    (started : bool) (st : state) (k : nat) (j : job) (dateStr : string) :
  reachable features started st →
  timeouts st !! k = Some j →
  calculateCountryTrend st (job_feature j) ≠ Ok None →
  dateStr ∈ timePoints st →
  dateParser dateStr = None →
  snd (deferred_draw j (set_timeouts (delete k (timeouts st)) st)) = Thrown
  ∧ ∀ it, it ∈ selectionList (handle (TimeoutFires k) st) →
      node it = job_node j →
      children (chartContainer it) = []
      ∧ statsDisplay (statsBox it) = DisplayFlex.
Proof.
  intros Hreach Hj Hdata Hin Hnull.
  pose proof (reachable_data_inv _ _ _ Hreach) as Hinv.
  assert (Hseries : ∃ e series,
            calculateCountryTrend st (job_feature j)
            = Ok (Some (e :: series))
            ∧ stats_raise (e :: series) = true).
  { unfold calculateCountryTrend in Hdata |- *.
    destruct (rawCoords st) as [[|c raw]|]; [done| |done].
    cbv zeta in Hdata |- *.
    destruct (indices_from (job_feature j) 0 (c :: raw)) as [|i l] eqn:Hidx;
      [done|].
    destruct (rmap_list_total (trend_entry st (i :: l)) (timePoints st))
      as (series & Hs & Hlen);
      [intros key Hkey; by apply trend_entry_ok|].
    pose proof (rmap_list_Forall2 _ _ _ Hs) as Hall.
    apply list_elem_of_lookup in Hin as [n Hn].
    destruct (Forall2_lookup_l _ _ _ _ _ Hall Hn) as (d & Hd & Hentry).
    apply trend_entry_date in Hentry.
    assert (Hraise : stats_raise series = true).
    { apply (stats_raise_null_date series d);
        [by eapply list_elem_of_lookup_2|congruence]. }
    rewrite Hs. cbn. destruct series as [|e series]; [done|].
    by exists e, series. }
  destruct Hseries as (e & series & Hcalc & Hraise).
  cbn [handle]. rewrite Hj. unfold deferred_draw.
  change (calculateCountryTrend
            (set_timeouts (delete k (timeouts st)) st) (job_feature j))
    with (calculateCountryTrend st (job_feature j)).
  rewrite Hcalc. cbv zeta. rewrite Hraise. cbn [fst snd]. split; [done|].
  store_simpl. intros it (it0 & -> & Hit0)%list_elem_of_fmap.
  destruct (decide (node it0 = job_node j)) as [Hnode|Hne]; [|done].
  intros _. unfold draw_item. cbv zeta. unfold updateCountryStats.
  by rewrite Hraise.
Qed.

End Program.

(** * The earlier version of the script

    [src/unnamed/part_000] is the script before the anomaly mode, the
    sidebar charts and the playback were added.  Its loader and its frame
    are modelled on the same store; the fields that the earlier version
    does not have stay as they are. *)

Module Legacy.
Section Legacy.

Variable projection : coord → option (number * number).

(** The loop that assembles [renderData], from index [i] on. *)
Fixpoint assemble (currentTemps : option (list jsval)) (i : nat)
    (coords : list (option point)) : result (list datum) :=
  match coords with
  | [] => Ok []
  | None :: rest => assemble currentTemps (S i) rest
  | Some coord :: rest =>
      match currentTemps with
      | None => TypeError
      | Some temps =>
          rbind (assemble currentTemps (S i) rest)
            (λ renderData,
               Ok ({| dx := x coord; dy := y coord;
                      dval := arr_get temps i |} :: renderData))
      end
  end.

(** [renderHeatmap] without a guard on the time points, with the fixed
    [colorScale]. *)
Definition renderHeatmap (timeIndex : nat) (st : state)
    : state * completion :=
  let currentTime := timePoints st !! timeIndex in
  let st := set_timeDisplay (default "" currentTime) st in
  match allTemperatureData st with
  | None => (st, Thrown)
  | Some data =>
      let currentTemps := data !! prop_key currentTime in
      match assemble currentTemps 0 (screenCoords st) with
      | TypeError => (st, Thrown)
      | Ok renderData =>
          (set_dataPoints (map (circle_of absoluteColorScale) renderData) st,
           Normal)
      end
  end.

(** The [try] block of [loadTemperatureData] once the payload is parsed;
    [rawCoords] is a local constant, and the controls are ready once
    [slider.oninput] is assigned. *)
Definition load_body (parsedData : parsed) (st : state)
    : state * completion :=
  match coords parsedData with
  | None => (st, Thrown)
  | Some rawCoords =>
      let st := set_screenCoords (map (project projection) rawCoords) st in
      let st := set_allTemperatureData (temperature_source parsedData) st in
      match allTemperatureData st with
      | None => (st, Thrown)
      | Some allData =>
          let st := set_timePoints (sorted_keys allData) st in
          let st :=
            set_sliderMax (Z.of_nat (length (timePoints st)) - 1)%Z st in
          let st := set_sliderValue 0 st in
          let st := set_controlsReady true st in
          renderHeatmap 0 st
      end
  end.

Definition loadTemperatureData (b : bundle) (st : state) : state :=
  let st := set_timeDisplay "Loading..." st in
  match b with
  | Unavailable => set_timeDisplay "Failed to load data" st
  | Payload parsedData =>
      match load_body parsedData st with
      | (st', Normal) => st'
      | (st', Thrown) => set_timeDisplay "Failed to load data" st'
      end
  end.

End Legacy.
End Legacy.

(** ** The two versions compared *)

Lemma assemble_absolute currentTemps i coords :
  assemble false currentTemps None i coords
  = Legacy.assemble currentTemps i coords.
Proof.
  revert i. induction coords as [|[p|] coords IH]; intros i; cbn.
  - done.
  - destruct currentTemps; [|done]. by rewrite IH.
  - apply IH.
Qed.

Lemma assemble_undefined i coords :
  Exists is_Some coords → Legacy.assemble None i coords = TypeError.
Proof.
  intros Hex. revert i.
  induction Hex as [c coords [p ->]|[p|] coords _ IH]; intros i; cbn;
    done.
Qed.

Lemma sorted_keys_empty {V} : sorted_keys (∅ : gmap string V) = [].
Proof.
  apply length_zero_iff_nil. by rewrite sorted_keys_length, map_size_empty.
Qed.

(** X19. In absolute mode and with time points, a frame of the current
    script draws what the earlier version drew: both complete or both
    raise, and they show the same date and the same circles. *)
Theorem legacy_frame_agrees (timeIndex : nat) (st : state) :
  isAnomalyMode st = false →
  currentColorScale st = absoluteColorScale →
  timePoints st ≠ [] →
  snd (renderHeatmap timeIndex st) = snd (Legacy.renderHeatmap timeIndex st)
  ∧ timeDisplay (fst (renderHeatmap timeIndex st))
    = timeDisplay (fst (Legacy.renderHeatmap timeIndex st))
  ∧ dataPoints (fst (renderHeatmap timeIndex st))
    = dataPoints (fst (Legacy.renderHeatmap timeIndex st)).
Proof.
  intros Hmode Hscale Hne. unfold renderHeatmap, Legacy.renderHeatmap.
  destruct (timePoints st) as [|k ks] eqn:Htimes; [done|]. cbv zeta.
  cbn. rewrite Hmode, Hscale.
  destruct (allTemperatureData st) as [allData|]; [|done].
  rewrite assemble_absolute.
  by destruct (Legacy.assemble _ 0 (screenCoords st)).
Qed.

Lemma legacy_frame_raises timeIndex st :
  timePoints st = [] →
  allTemperatureData st = Some ∅ →
  Exists is_Some (screenCoords st) →
  Legacy.renderHeatmap timeIndex st = (set_timeDisplay "" st, Thrown).
Proof.
  intros Ht Hd Hex. unfold Legacy.renderHeatmap. cbv zeta.
  change (allTemperatureData (set_timeDisplay ?v st))
    with (allTemperatureData st).
  change (screenCoords (set_timeDisplay ?v st)) with (screenCoords st).
  rewrite Ht, Hd. cbn [lookup list_lookup default prop_key].
  by rewrite lookup_empty, assemble_undefined.
Qed.

Lemma legacy_load_empty
    (projection : coord → option (number * number)) (parsedData : parsed)
    (st : state) (raw : list coord) :
  coords parsedData = Some raw →
  temperature_source parsedData = Some ∅ →
  Exists (λ d, is_Some (projection d)) raw →
  ∃ st', Legacy.loadTemperatureData projection (Payload parsedData) st
         = set_timeDisplay "Failed to load data"
             (set_timeDisplay "" (set_controlsReady true st')).
Proof.
  intros Hraw Hsrc Hex.
  unfold Legacy.loadTemperatureData, Legacy.load_body. cbv zeta.
  rewrite Hraw. cbv beta iota.
  change (allTemperatureData (set_allTemperatureData ?v _)) with v.
  rewrite Hsrc. cbv beta iota.
  change (timePoints (set_timePoints ?v _)) with v.
  rewrite (@sorted_keys_empty (list jsval)).
  eexists. rewrite legacy_frame_raises; [reflexivity|done|done|].
  change (Exists is_Some (map (project projection) raw)).
  apply Exists_fmap. eapply Exists_impl; [exact Hex|].
  intros d [p Hp]. unfold project. cbn. rewrite Hp. by eexists.
Qed.

(** X20. On a payload whose temperature mapping is empty while some
    coordinate has a screen position, the earlier version fails the load
    in its first frame, after it has already given the slider its
    listener; the guard of the current version returns from that frame,
    so that the load completes with the status "Processing...". *)
Theorem legacy_empty_mapping_fails
    (projection : coord → option (number * number)) (parsedData : parsed)
    (st : state) (raw : list coord) :
  coords parsedData = Some raw →
  temperature_source parsedData = Some ∅ →
  Exists (λ d, is_Some (projection d)) raw →
  timeDisplay (Legacy.loadTemperatureData projection (Payload parsedData) st)
  = "Failed to load data"
  ∧ controlsReady
      (Legacy.loadTemperatureData projection (Payload parsedData) st) = true
  ∧ timeDisplay (loadTemperatureData projection (Payload parsedData) st)
    = "Processing..."
  ∧ controlsReady (loadTemperatureData projection (Payload parsedData) st)
    = true.
Proof.
  intros Hraw Hsrc Hex.
  destruct (legacy_load_empty projection parsedData st raw Hraw Hsrc Hex)
    as [st' ->].
  split; [done|]. split; [done|].
  pose proof (loadTemperatureData_cases projection (Payload parsedData) st)
    as Hcases.
  cbv beta iota zeta in Hcases. rewrite Hraw, Hsrc in Hcases.
  rewrite Hcases.
  destruct (before_first_frame_view projection raw ∅
              (set_timeDisplay "Downloading data..." st))
    as (_ & _ & Ht & _ & _ & _ & Hready & _ & _ & Htd).
  rewrite (@sorted_keys_empty (list jsval)) in Ht. revert Ht Hready Htd.
  generalize (before_first_frame projection raw ∅
                (set_timeDisplay "Downloading data..." st)).
  intros st2 Ht Hready Htd. rewrite renderHeatmap_guard by exact Ht.
  split; [exact Htd|exact Hready].
Qed.

(** * Concrete stores

    The d3 primitives are replaced by simple stand-ins: a projection that
    is the identity (or undefined at one coordinate), a containment test
    that holds for the vertices of a boundary, and a date parser that
    accepts every key; the document rejects every selector that is not
    plain. *)

Definition sample_projection (d : coord) : option (number * number) :=
  Some d.


Definition vertices (g : geometry) : list coord :=
  match g with
  | Polygon rings => concat rings
  | MultiPolygon polygons => concat (concat polygons)
  end.

Definition vertex_contains (feature : feature) (d : coord) : bool :=
  bool_decide (d ∈ vertices (geom feature)).

Definition sample_dateParser (dateStr : string) : option Date := Some 0%Z.

Definition sample_querySelector (id : string) (items : list item)
    : query_result :=
  QueryRaises.

(** A country around the first sample point and one without any. *)
Definition country_a : feature :=
  {| iso_a3 := Some "AAA"; adm0_a3 := None; fid := Some "001";
     name := Some "Aland";
     geom := Polygon [[(num_of_Z 0, num_of_Z 0)]] |}.

Definition country_b : feature :=
  {| iso_a3 := None; adm0_a3 := None; fid := Some "002";
     name := Some "Bland";
     geom := Polygon [[(num_of_Z 5, num_of_Z 5)]] |}.

Definition sample_features : list feature := [country_a; country_b].

(** The dates and values of the result of [calculateCountryTrend]. *)
Definition trend_points (r : result (option (list entry)))
    : result (option (list (string * number))) :=
  match r with
  | Ok trendData => Ok (option_map points_of trendData)
  | TypeError => TypeError
  end.

(** The page after the example dataset is loaded. *)
Definition sample_store : state :=
  loadTemperatureData sample_projection (Payload example_payload)
    (init_state sample_features).

Abbreviation sample_handle :=
  (handle vertex_contains sample_dateParser sample_querySelector).
Abbreviation sample_reachable :=
  (reachable sample_projection vertex_contains sample_dateParser
     sample_querySelector sample_features).

Lemma sample_features_plain : plain_ids sample_features.
Proof. repeat constructor. Qed.

Lemma sample_store_reachable : sample_reachable true sample_store.
Proof. apply reach_load, reach_init. Qed.

Lemma sample_store_loaded :
  loaded sample_projection example_coords example_temperatures sample_store.
Proof. constructor; vm_compute; reflexivity. Qed.

(** The example with anomaly mode switched on. *)
Definition sample_anomaly_store : state :=
  sample_handle (AnomalyToggle true) sample_store.

Lemma sample_anomaly_store_loaded :
  loaded sample_projection example_coords example_temperatures
    sample_anomaly_store.
Proof. constructor; vm_compute; reflexivity. Qed.

(** The amended C1 at the example: the series of [country_a] has one
    element per date key, and the value for 2015 is the double-precision
    mean of the one contained reading, 280. *)
Lemma calculateCountryTrend_series_witness :
  loaded sample_projection example_coords example_temperatures sample_store
  ∧ isAnomalyMode sample_store = false
  ∧ ∃ series,
      calculateCountryTrend vertex_contains sample_dateParser sample_store
        country_a = Ok (Some series)
      ∧ map rawDate series = ["2015-01-01"; "2016-01-01"]
      ∧ length series = size example_temperatures
      ∧ ∀ e, e ∈ series →
          rawDate e = "2015-01-01" → val e = num_of_Z 280.
Proof.
  split; [constructor; vm_compute; reflexivity|].
  split; [vm_compute; reflexivity|].
  destruct (calculateCountryTrend_series sample_projection vertex_contains
              sample_dateParser sample_store example_coords
              example_temperatures country_a)
    as (series & Hs & Hd & _ & _ & Hlen & Hval).
  - constructor; vm_compute; reflexivity.
  - exists 0, (num_of_Z 0, num_of_Z 0). split; vm_compute; reflexivity.
  - exists series. split; [exact Hs|].
    split; [rewrite Hd; vm_compute; reflexivity|]. split; [exact Hlen|].
    intros e He Hdate.
    destruct (Hval eq_refl e He) as (temps & Htemps & ->).
    rewrite Hdate in Htemps. vm_compute in Htemps.
    injection Htemps as <-. vm_compute. reflexivity.
Defined.

(** ** Readings with decimals *)

(** Three sample points inside one country, with the readings 273.15, 288.7
    and 280.05 for the only date. *)
Definition decimal_coords : list coord :=
  [(num_of_Z 0, num_of_Z 0); (num_of_Z 1, num_of_Z 1);
   (num_of_Z 2, num_of_Z 2)].

Definition decimal_readings : list jsval :=
  [JNum (decimal 27315 2); JNum (decimal 2887 1); JNum (decimal 28005 2)].

Definition decimal_payload : parsed :=
  {| coords := Some decimal_coords;
     temperatures := Some (<["2016-01-01" := decimal_readings]> ∅);
     data := None |}.

Definition country_d : feature :=
  {| iso_a3 := Some "DDD"; adm0_a3 := None; fid := Some "004";
     name := Some "Dland"; geom := Polygon [decimal_coords] |}.

Definition decimal_store : state :=
  loadTemperatureData sample_projection (Payload decimal_payload)
    (init_state [country_d]).

(** The value that [calculateCountryTrend] gives for the three readings,
    280.63333333333327, and the double next to it, 280.6333333333333. *)
Definition decimal_value : number :=
  S754_finite false 4936953810264609 (-44).

Definition decimal_nearer : number :=
  S754_finite false 4936953810264610 (-44).

(** C1 fails as stated: in absolute mode the value of the series for the
    three contained readings 273.15, 288.7 and 280.05 is
    280.63333333333327.  That is not their arithmetic mean, and not the
    number nearest to it either (280.6333333333333 is nearer, and is what
    adding the same readings in the reverse order gives): every addition
    of the loop is rounded. *)
Lemma arithmetic_mean_counterexample :
  loaded sample_projection decimal_coords
    (<["2016-01-01" := decimal_readings]> ∅) decimal_store
  ∧ isAnomalyMode decimal_store = false
  ∧ contained_indices vertex_contains country_d decimal_coords = [0; 1; 2]
  ∧ trend_points
      (calculateCountryTrend vertex_contains sample_dateParser decimal_store
         country_d)
    = Ok (Some [("2016-01-01", decimal_value)])
  ∧ ¬ is_arithmetic_mean decimal_value
        (readings_at decimal_readings [0; 1; 2])
  ∧ double_mean (readings_at decimal_readings [2; 1; 0]) = decimal_nearer
  ∧ ∃ q q' r,
      exact_value decimal_value = Some q
      ∧ exact_value decimal_nearer = Some q'
      ∧ arithmetic_mean (readings_at decimal_readings [0; 1; 2]) = Some r
      ∧ Qlt q q' ∧ Qle q' r.
Proof.
  split; [constructor; vm_compute; reflexivity|].
  split; [vm_compute; reflexivity|]. split; [vm_compute; reflexivity|].
  split; [vm_compute; reflexivity|].
  split.
  { intros (q & r & Hq & Hr & Heq).
    vm_compute in Hq. vm_compute in Hr.
    injection Hq as <-. injection Hr as <-.
    vm_compute in Heq. discriminate Heq. }
  split; [vm_compute; reflexivity|].
  eexists _, _, _. split; [reflexivity|]. split; [reflexivity|].
  split; [reflexivity|]. split; [vm_compute; reflexivity|].
  vm_compute. discriminate.
Qed.

(** C10 at the initial page. *)
Lemma renderHeatmap_no_timePoints_witness :
  timePoints (init_state sample_features) = []
  ∧ renderHeatmap 3 (init_state sample_features)
    = (init_state sample_features, Normal).
Proof.
  split; [reflexivity|].
  apply (renderHeatmap_no_timePoints 3 (init_state sample_features)).
  reflexivity.
Defined.

(** C4 with the stand-ins. *)
Lemma example_trend_witness :
  vertex_contains country_a (num_of_Z 0, num_of_Z 0) = true
  ∧ vertex_contains country_a (num_of_Z 10, num_of_Z 10) = false
  ∧ ∃ series,
      calculateCountryTrend vertex_contains sample_dateParser
        (fst (toggleAnomalyMode vertex_contains sample_dateParser true
                sample_store)) country_a = Ok (Some series)
      ∧ points_of series
        = [("2015-01-01", num_of_Z 0); ("2016-01-01", num_of_Z 2)].
Proof.
  split; [vm_compute; reflexivity|]. split; [vm_compute; reflexivity|].
  apply (example_trend sample_projection vertex_contains sample_dateParser
           sample_features country_a); vm_compute; reflexivity.
Defined.

(** ** A dataset without any record of 2015 *)

Definition late_payload : parsed :=
  {| coords := Some [(num_of_Z 0, num_of_Z 0)];
     temperatures :=
       Some (<["2016-01-01" := [JNum (num_of_Z 282)]]> ∅);
     data := None |}.

(** The page after [late_payload] is loaded and anomaly mode switched on. *)
Definition late_store : state :=
  sample_handle (AnomalyToggle true)
    (loadTemperatureData sample_projection (Payload late_payload)
       (init_state sample_features)).

(** C2 fails as stated: in anomaly mode, for a month without any baseline
    record, the frame value and the aggregated value of the only point are
    its raw reading 282, not zero. *)
Lemma anomaly_zero_counterexample :
  isAnomalyMode late_store = true
  ∧ baselineData late_store = ∅
  ∧ baseline_get (baselineData late_store) (prop_key (month_of "2016-01-01"))
    = None
  ∧ snd (renderHeatmap 0 late_store) = Normal
  ∧ map fill (dataPoints (fst (renderHeatmap 0 late_store)))
    = [(anomalyColorScale, JNum (num_of_Z 282))]
  ∧ trend_points
      (calculateCountryTrend vertex_contains sample_dateParser late_store
         country_a)
    = Ok (Some [("2016-01-01", num_of_Z 282)])
  ∧ num_of_Z 282 ≠ num_zero.
Proof.
  split; [vm_compute; reflexivity|]. split; [vm_compute; reflexivity|].
  split; [vm_compute; reflexivity|]. split; [vm_compute; reflexivity|].
  split; [vm_compute; reflexivity|]. split; [vm_compute; reflexivity|].
  discriminate.
Qed.

(** The amended C2 at that store: the month has no baseline, and the value
    of the series is the raw reading 282. *)
Lemma anomaly_missing_baseline_witness :
  loaded sample_projection [(num_of_Z 0, num_of_Z 0)]
    (<["2016-01-01" := [JNum (num_of_Z 282)]]> ∅) late_store
  ∧ isAnomalyMode late_store = true
  ∧ timePoints late_store !! 0 = Some "2016-01-01"
  ∧ baseline_get (baselineData late_store) (prop_key (month_of "2016-01-01"))
    = None
  ∧ ∃ series e,
      calculateCountryTrend vertex_contains sample_dateParser late_store
        country_a = Ok (Some series)
      ∧ series !! 0 = Some e
      ∧ rawDate e = "2016-01-01"
      ∧ val e = num_of_Z 282.
Proof.
  assert (Hl : loaded sample_projection [(num_of_Z 0, num_of_Z 0)]
                 (<["2016-01-01" := [JNum (num_of_Z 282)]]> ∅) late_store)
    by (constructor; vm_compute; reflexivity).
  split; [exact Hl|]. split; [vm_compute; reflexivity|].
  split; [vm_compute; reflexivity|]. split; [vm_compute; reflexivity|].
  destruct (anomaly_missing_baseline sample_projection vertex_contains
              sample_dateParser late_store _ _ 0 "2016-01-01"
              [JNum (num_of_Z 282)] Hl eq_refl eq_refl eq_refl)
    as (_ & Htrend & Hnone).
  destruct (Htrend country_a)
    as (series & e & Hcalc & He & Hdate & Hval).
  - vm_compute. discriminate.
  - apply Hnone; [vm_compute; reflexivity..|].
    vm_compute. intros Hin. repeat (apply elem_of_cons in Hin
                                     as [Hin|Hin]; [discriminate Hin|]).
    by apply elem_of_nil in Hin.
  - exists series, e. split; [exact Hcalc|]. split; [exact He|].
    split; [exact Hdate|]. rewrite Hval. vm_compute. reflexivity.
Defined.

(** ** A dataset with two records in January 2015 *)

Definition twice_payload : parsed :=
  {| coords := Some [(num_of_Z 0, num_of_Z 0)];
     temperatures :=
       Some (<["2015-01-01" := [JNum (num_of_Z 280)]]>
               (<["2015-01-15" := [JNum (num_of_Z 285)]]> ∅));
     data := None |}.

Definition twice_store : state :=
  sample_handle (AnomalyToggle true)
    (loadTemperatureData sample_projection (Payload twice_payload)
       (init_state sample_features)).

(** C5 fails as stated: both keys lie in 2015, the only sample point is
    contained and its readings are numbers, yet the stored baseline of
    January is the later record, so the anomaly of "2015-01-01" is
    280 - 285 = -5. *)
Lemma self_baseline_counterexample :
  isAnomalyMode twice_store = true
  ∧ startsWith "2015-01-01" "2015" = true
  ∧ contained_indices vertex_contains country_a [(num_of_Z 0, num_of_Z 0)]
    = [0]
  ∧ baselineData twice_store !! "01" = Some [JNum (num_of_Z 285)]
  ∧ trend_points
      (calculateCountryTrend vertex_contains sample_dateParser twice_store
         country_a)
    = Ok (Some [("2015-01-01", num_of_Z (-5)); ("2015-01-15", num_of_Z 0)])
  ∧ num_of_Z (-5) ≠ num_zero.
Proof.
  split; [vm_compute; reflexivity|]. split; [vm_compute; reflexivity|].
  split; [vm_compute; reflexivity|]. split; [vm_compute; reflexivity|].
  split; [vm_compute; reflexivity|]. discriminate.
Qed.

Lemma example_last_key k :
  sets_baseline example_temperatures "01" k → String.le k "2015-01-01".
Proof.
  intros (H15 & _ & Hk). apply elem_of_sorted_keys in Hk.
  rewrite example_sorted_keys in Hk.
  apply elem_of_cons in Hk as [->|Hk]; [by vm_compute|].
  apply list_elem_of_singleton in Hk as ->. vm_compute in H15. discriminate.
Qed.

(** The amended C5 at the example in anomaly mode: the baseline year's own
    date has anomaly zero. *)
Lemma self_baseline_zero_witness :
  isAnomalyMode sample_anomaly_store = true
  ∧ startsWith "2015-01-01" "2015" = true
  ∧ month_of "2015-01-01" = Some "01"
  ∧ ∃ series timeIndex e,
      calculateCountryTrend vertex_contains sample_dateParser
        sample_anomaly_store country_a = Ok (Some series)
      ∧ series !! timeIndex = Some e
      ∧ rawDate e = "2015-01-01"
      ∧ val e = num_zero.
Proof.
  split; [vm_compute; reflexivity|]. split; [vm_compute; reflexivity|].
  split; [vm_compute; reflexivity|].
  refine (proj2 (self_baseline_zero sample_projection vertex_contains
                   sample_dateParser sample_anomaly_store example_coords
                   example_temperatures country_a "2015-01-01" "01"
                   [JNum (num_of_Z 280); JNum (num_of_Z 290)]
                   sample_anomaly_store_loaded _ _ _ _ _ example_last_key
                   _ _)).
  - exists ∅. vm_compute. reflexivity.
  - vm_compute. reflexivity.
  - vm_compute. reflexivity.
  - vm_compute. reflexivity.
  - vm_compute. reflexivity.
  - vm_compute. discriminate.
  - intros i Hi.
    assert (Hidx : contained_indices vertex_contains country_a example_coords
                   = [0]) by (vm_compute; reflexivity).
    rewrite Hidx in Hi. apply list_elem_of_singleton in Hi as ->.
    vm_compute. reflexivity.
Defined.

(** ** A coordinate without a screen position *)



(** ** Clicks and playback at the example *)

(** X25 at the loaded page: two clicks on the first country. *)
Lemma click_twice_restores_witness :
  plain_ids sample_features
  ∧ sample_reachable true sample_store
  ∧ countryPaths sample_store !! 0
    = Some {| datum_of := country_a; revealedClass := false;
              hoverClass := false |}
  ∧ revealedCountries
      (handleClick sample_querySelector 0
         (handleClick sample_querySelector 0 sample_store))
    = revealedCountries sample_store
  ∧ countryBorders
      (handleClick sample_querySelector 0
         (handleClick sample_querySelector 0 sample_store))
    = countryBorders sample_store.
Proof.
  split; [repeat constructor|].
  split; [apply reach_load, reach_init|].
  split; [vm_compute; reflexivity|].
  refine (proj2 (click_twice_restores sample_projection vertex_contains
                   sample_dateParser sample_querySelector sample_features
                   true sample_store 0
                   {| datum_of := country_a; revealedClass := false;
                      hoverClass := false |} _ _ _)).
  - repeat constructor.
  - apply reach_load, reach_init.
  - vm_compute. reflexivity.
Defined.

(** The loaded page after a click on the play button. *)
Definition playing_store : state := sample_handle PlayButton sample_store.

Lemma playing_store_reachable : sample_reachable true playing_store.
Proof.
  apply reach_event; [apply reach_load, reach_init|].
  vm_compute. reflexivity.
Qed.

(** C9 while playing: one timer, and a slider input leaves none. *)
Lemma one_playback_timer_witness :
  sample_reachable true playing_store
  ∧ isPlaying playing_store = true
  ∧ length (intervals playing_store) ≤ 1
  ∧ (∀ v, isPlaying (slider_input v playing_store) = false
          ∧ intervals (slider_input v playing_store) = []).
Proof.
  split.
  { apply reach_event; [apply reach_load, reach_init|].
    vm_compute. reflexivity. }
  split; [vm_compute; reflexivity|].
  destruct (one_playback_timer sample_projection vertex_contains
              sample_dateParser sample_querySelector sample_features true
              playing_store)
    as (Hone & _ & _ & Hdrag & _).
  - apply reach_event; [apply reach_load, reach_init|].
    vm_compute. reflexivity.
  - split; [exact Hone|exact Hdrag].
Defined.

(** ** Further stores *)

(** The loaded page after a click on the first country, which has data. *)
Definition clicked_store : state := sample_handle (Click 0) sample_store.

Lemma clicked_store_reachable : sample_reachable true clicked_store.
Proof. apply reach_event; [apply reach_load, reach_init|reflexivity]. Qed.

Lemma clicked_store_list :
  selectionList clicked_store = [initial_item 0 "AAA" "Aland" country_a].
Proof. vm_compute. reflexivity. Qed.

(** The loaded page after a click on the second country, which has no
    sample point. *)
Definition nodata_store : state := sample_handle (Click 1) sample_store.

Lemma sample_anomaly_store_reachable :
  sample_reachable true sample_anomaly_store.
Proof.
  apply reach_event; [apply reach_load, reach_init|].
  vm_compute. reflexivity.
Qed.

(** A payload with coordinates and an empty temperature mapping. *)
Definition empty_payload : parsed :=
  {| coords := Some example_coords; temperatures := Some ∅; data := None |}.

(** X2 after one click: one item for one revealed country. *)
Lemma sidebar_lists_revealed_witness :
  plain_ids sample_features
  ∧ sample_reachable true clicked_store
  ∧ map countryId (selectionList clicked_store) = ["AAA"]
  ∧ length (selectionList clicked_store)
    = size (revealedCountries clicked_store).
Proof.
  split; [exact sample_features_plain|].
  split; [exact clicked_store_reachable|].
  split; [vm_compute; reflexivity|].
  destruct (sidebar_lists_revealed sample_projection vertex_contains
              sample_dateParser sample_querySelector sample_features true
              clicked_store)
    as (_ & _ & Hlen).
  - exact sample_features_plain.
  - exact clicked_store_reachable.
  - exact Hlen.
Defined.

(** X3: the remove button of the revealed country. *)
Lemma removeCountry_removes_witness :
  plain_ids sample_features
  ∧ selector_plain "AAA" = true
  ∧ sample_reachable true clicked_store
  ∧ selectionList (removeCountry sample_querySelector "AAA" clicked_store)
    = filter (λ it, countryId it ≠ "AAA") (selectionList clicked_store)
  ∧ selectionList (removeCountry sample_querySelector "AAA" clicked_store)
    = [].
Proof.
  split; [exact sample_features_plain|]. split; [reflexivity|].
  split; [exact clicked_store_reachable|].
  destruct (removeCountry_removes sample_projection vertex_contains
              sample_dateParser sample_querySelector sample_features true
              clicked_store "AAA")
    as (_ & _ & Hlist & _).
  - exact sample_features_plain.
  - reflexivity.
  - exact clicked_store_reachable.
  - split; [exact Hlist|]. vm_compute. reflexivity.
Defined.

Lemma sample_features_distinct : NoDup (map getCountryId sample_features).
Proof.
  apply NoDup_cons. split.
  - intros Hin. apply list_elem_of_singleton in Hin. discriminate Hin.
  - apply NoDup_singleton.
Qed.

(** X4: the paths of the two sample countries. *)
Lemma revealed_class_matches_witness :
  NoDup (map getCountryId sample_features)
  ∧ sample_reachable true clicked_store
  ∧ map datum_of (countryPaths clicked_store) = sample_features.
Proof.
  split; [exact sample_features_distinct|].
  split; [exact clicked_store_reachable|].
  destruct (revealed_class_matches sample_projection vertex_contains
              sample_dateParser sample_querySelector sample_features true
              clicked_store)
    as [Hdatum _].
  - exact sample_features_distinct.
  - exact clicked_store_reachable.
  - exact Hdatum.
Defined.

(** X5 in anomaly mode. *)
Lemma scale_follows_mode_witness :
  sample_reachable true sample_anomaly_store
  ∧ currentColorScale sample_anomaly_store
    = (if isAnomalyMode sample_anomaly_store then anomalyColorScale
       else absoluteColorScale).
Proof.
  split; [exact sample_anomaly_store_reachable|].
  destruct (scale_follows_mode sample_projection vertex_contains
              sample_dateParser sample_querySelector sample_features true
              sample_anomaly_store)
    as [Hscale _].
  - exact sample_anomaly_store_reachable.
  - exact Hscale.
Defined.

(** X6 for the country without sample points. *)
Lemma calculateCountryTrend_never_raises_witness :
  sample_reachable true sample_store
  ∧ (calculateCountryTrend vertex_contains sample_dateParser sample_store
       country_b = Ok None
     ∨ ∃ series,
         calculateCountryTrend vertex_contains sample_dateParser
           sample_store country_b = Ok (Some series)
         ∧ length series = length (timePoints sample_store)).
Proof.
  split; [exact sample_store_reachable|].
  apply (calculateCountryTrend_never_raises sample_projection
           vertex_contains sample_dateParser sample_querySelector
           sample_features true
           sample_store country_b).
  exact sample_store_reachable.
Defined.

(** X7 while playing. *)
Lemma frames_complete_witness :
  sample_reachable true playing_store
  ∧ snd (advance playing_store) = Normal.
Proof.
  split; [exact playing_store_reachable|].
  destruct (frames_complete sample_projection vertex_contains
              sample_dateParser sample_querySelector sample_features true
              playing_store)
    as (_ & Hadvance & _).
  - exact playing_store_reachable.
  - exact Hadvance.
Defined.

(** X8 when the download fails. *)
Lemma failed_load_disables_witness :
  sample_reachable false (init_state sample_features)
  ∧ load_fails Unavailable
  ∧ timeDisplay (loadTemperatureData sample_projection Unavailable
                   (init_state sample_features)) = "Data Load Failed"
  ∧ enabled PlayButton
      (loadTemperatureData sample_projection Unavailable
         (init_state sample_features)) = false.
Proof.
  split; [apply reach_init|]. split; [exact I|].
  destruct (failed_load_disables sample_projection vertex_contains
              sample_dateParser sample_querySelector sample_features
              (init_state sample_features)
              Unavailable) as [Hfail _].
  - apply reach_init.
  - destruct (Hfail I) as (Hstatus & _ & _ & _ & Hplay & _).
    split; [exact Hstatus|exact Hplay].
Defined.

(** X9 for the example payload. *)
Lemma successful_load_shows_first_frame_witness :
  coords example_payload = Some example_coords
  ∧ temperature_source example_payload = Some example_temperatures
  ∧ controlsReady sample_store = true
  ∧ sliderValue sample_store = 0.
Proof.
  split; [reflexivity|]. split; [reflexivity|].
  pose proof (successful_load_shows_first_frame sample_projection
                example_payload (init_state sample_features) example_coords
                example_temperatures eq_refl eq_refl) as H.
  cbv zeta in H. destruct H as (Hready & Hvalue & _).
  split; [exact Hready|exact Hvalue].
Defined.

(** X10 for January in the example. *)
Lemma baseline_is_last_2015_record_witness :
  sample_reachable true sample_store
  ∧ (baselineData sample_store !! "01"
     = Some [JNum (num_of_Z 280); JNum (num_of_Z 290)]
     ↔ ∃ allData dateStr,
         allTemperatureData sample_store = Some allData
         ∧ allData !! dateStr
           = Some [JNum (num_of_Z 280); JNum (num_of_Z 290)]
         ∧ startsWith dateStr "2015" = true
         ∧ month_of dateStr = Some "01"
         ∧ ∀ k, sets_baseline allData "01" k → String.le k dateStr).
Proof.
  split; [exact sample_store_reachable|].
  apply (baseline_is_last_2015_record sample_projection vertex_contains
           sample_dateParser sample_querySelector sample_features true
           sample_store).
  exact sample_store_reachable.
Defined.

(** X11 with the country without sample points in the sidebar. *)
Lemma toggle_stops_at_no_data_witness :
  selectionList nodata_store
  = [] ++ initial_item 0 "002" "Bland" country_b :: []
  ∧ calculateCountryTrend vertex_contains sample_dateParser nodata_store
      (featureData (initial_item 0 "002" "Bland" country_b)) = Ok None
  ∧ snd (toggleAnomalyMode vertex_contains sample_dateParser true
           nodata_store) = Thrown
  ∧ dataPoints (fst (toggleAnomalyMode vertex_contains sample_dateParser
                       true nodata_store))
    = dataPoints nodata_store.
Proof.
  split; [vm_compute; reflexivity|]. split; [vm_compute; reflexivity|].
  destruct (toggle_stops_at_no_data vertex_contains sample_dateParser
              nodata_store true [] (initial_item 0 "002" "Bland" country_b)
              [])
    as (Hthrown & _ & _ & _ & Hpoints & _).
  - vm_compute. reflexivity.
  - vm_compute. reflexivity.
  - split; [exact Hthrown|exact Hpoints].
Defined.

Lemma clicked_store_drawable (it : item) :
  it ∈ selectionList clicked_store →
  ∃ e series,
    calculateCountryTrend vertex_contains sample_dateParser
      (set_isAnomalyMode true clicked_store) (featureData it)
    = Ok (Some (e :: series))
    ∧ stats_raise (e :: series) = false.
Proof.
  rewrite clicked_store_list. intros ->%list_elem_of_singleton.
  exists {| date := Some 0%Z; val := num_of_Z 0; rawDate := "2015-01-01" |},
         [{| date := Some 0%Z; val := num_of_Z 2;
             rawDate := "2016-01-01" |}].
  split; [vm_compute; reflexivity|vm_compute; reflexivity].
Qed.

(** X12 with the first country in the sidebar. *)
Lemma toggle_refreshes_all_witness :
  sample_reachable true clicked_store
  ∧ (∀ it, it ∈ selectionList clicked_store →
       ∃ e series,
         calculateCountryTrend vertex_contains sample_dateParser
           (set_isAnomalyMode true clicked_store) (featureData it)
         = Ok (Some (e :: series))
         ∧ stats_raise (e :: series) = false)
  ∧ snd (toggleAnomalyMode vertex_contains sample_dateParser true
           clicked_store) = Normal.
Proof.
  split; [exact clicked_store_reachable|].
  split; [exact clicked_store_drawable|].
  destruct (toggle_refreshes_all sample_projection vertex_contains
              sample_dateParser sample_querySelector sample_features true
              clicked_store true)
    as [Hnormal _].
  - exact clicked_store_reachable.
  - exact clicked_store_drawable.
  - exact Hnormal.
Defined.

(** X13 with one pending draw. *)
Lemma pending_draws_match_items_witness :
  sample_reachable true clicked_store
  ∧ NoDup (map node (selectionList clicked_store))
  ∧ NoDup (map job_node (timeouts clicked_store)).
Proof.
  split; [exact clicked_store_reachable|].
  destruct (pending_draws_match_items sample_projection vertex_contains
              sample_dateParser sample_querySelector sample_features true
              clicked_store)
    as (Hnodes & Hjobs & _).
  - exact clicked_store_reachable.
  - split; [exact Hnodes|exact Hjobs].
Defined.

Definition first_draw : job :=
  {| job_node := 0; job_id := "AAA"; job_feature := country_a |}.

Definition first_series : list entry :=
  [{| date := Some 0%Z; val := num_of_Z 282; rawDate := "2016-01-01" |}].

Definition first_entry : entry :=
  {| date := Some 0%Z; val := num_of_Z 280; rawDate := "2015-01-01" |}.

Lemma clicked_store_trend :
  calculateCountryTrend vertex_contains sample_dateParser clicked_store
    (job_feature first_draw) = Ok (Some (first_entry :: first_series)).
Proof. vm_compute. reflexivity. Qed.

(** X14: the deferred draw of the first country. *)
Lemma deferred_draw_shows_series_witness :
  sample_reachable true clicked_store
  ∧ timeouts clicked_store !! 0 = Some first_draw
  ∧ calculateCountryTrend vertex_contains sample_dateParser clicked_store
      (job_feature first_draw) = Ok (Some (first_entry :: first_series))
  ∧ stats_raise (first_entry :: first_series) = false
  ∧ timeouts (sample_handle (TimeoutFires 0) clicked_store)
    = delete 0 (timeouts clicked_store).
Proof.
  split; [exact clicked_store_reachable|].
  split; [vm_compute; reflexivity|].
  split; [exact clicked_store_trend|].
  split; [vm_compute; reflexivity|].
  destruct (deferred_draw_shows_series sample_projection vertex_contains
              sample_dateParser sample_querySelector sample_features true
              clicked_store 0
              first_draw first_entry first_series)
    as [Hpending _].
  - exact clicked_store_reachable.
  - vm_compute. reflexivity.
  - exact clicked_store_trend.
  - vm_compute. reflexivity.
  - exact Hpending.
Defined.

Lemma sample_store_times : timePoints sample_store ≠ [].
Proof. vm_compute. discriminate. Qed.

(** X15 on the loaded page. *)
Lemma frame_shows_slider_date_witness :
  sample_reachable true sample_store
  ∧ timePoints sample_store ≠ []
  ∧ timePoints sample_store !! sliderValue (fst (advance sample_store))
    = Some (timeDisplay (fst (advance sample_store))).
Proof.
  split; [exact sample_store_reachable|].
  split; [exact sample_store_times|].
  destruct (frame_shows_slider_date sample_projection vertex_contains
              sample_dateParser sample_querySelector sample_features true
              sample_store)
    as [Hdate _].
  - exact sample_store_reachable.
  - exact sample_store_times.
  - exact Hdate.
Defined.

Lemma clicked_store_item :
  initial_item 0 "AAA" "Aland" country_a ∈ selectionList clicked_store.
Proof. rewrite clicked_store_list. left. Qed.

(** X16 for the item that waits for its draw. *)
Lemma charts_well_formed_witness :
  sample_reachable true clicked_store
  ∧ initial_item 0 "AAA" "Aland" country_a ∈ selectionList clicked_store
  ∧ length (children (chartContainer
                        (initial_item 0 "AAA" "Aland" country_a))) ≤ 1.
Proof.
  split; [exact clicked_store_reachable|].
  split; [exact clicked_store_item|].
  destruct (charts_well_formed sample_projection vertex_contains
              sample_dateParser sample_querySelector sample_features true
              clicked_store
              (initial_item 0 "AAA" "Aland" country_a))
    as [Hlen _].
  - exact clicked_store_reachable.
  - exact clicked_store_item.
  - exact Hlen.
Defined.

Definition first_path : path_el :=
  {| datum_of := country_a; revealedClass := false; hoverClass := false |}.

Lemma sample_store_hidden :
  getCountryId (datum_of first_path) ∉ revealedCountries sample_store.
Proof.
  assert (Hnone : revealedCountries sample_store = ∅)
    by (vm_compute; reflexivity).
  rewrite Hnone. apply not_elem_of_empty.
Qed.

(** X18 on the first country of the loaded page. *)
Lemma hover_survives_reveal_witness :
  countryPaths sample_store !! 0 = Some first_path
  ∧ (getCountryId (datum_of first_path) ∉ revealedCountries sample_store)
  ∧ countryPaths
      (sample_handle (MouseLeave 0)
         (sample_handle (Click 0) (sample_handle (MouseEnter 0)
                                     sample_store))) !! 0
    = Some {| datum_of := country_a; revealedClass := true;
              hoverClass := true |}.
Proof.
  split; [vm_compute; reflexivity|].
  split; [exact sample_store_hidden|].
  pose proof (hover_survives_reveal vertex_contains sample_dateParser
                sample_querySelector sample_store 0 first_path) as H.
  cbv zeta in H. destruct H as [Hpath _].
  - vm_compute. reflexivity.
  - exact sample_store_hidden.
  - exact Hpath.
Defined.

(** X19 for the second frame of the loaded page. *)
Lemma legacy_frame_agrees_witness :
  isAnomalyMode sample_store = false
  ∧ currentColorScale sample_store = absoluteColorScale
  ∧ timePoints sample_store ≠ []
  ∧ dataPoints (fst (renderHeatmap 1 sample_store))
    = dataPoints (fst (Legacy.renderHeatmap 1 sample_store)).
Proof.
  split; [vm_compute; reflexivity|]. split; [vm_compute; reflexivity|].
  split; [exact sample_store_times|].
  destruct (legacy_frame_agrees 1 sample_store) as (_ & _ & Hpoints).
  - vm_compute. reflexivity.
  - vm_compute. reflexivity.
  - exact sample_store_times.
  - exact Hpoints.
Defined.

Lemma example_coords_visible :
  Exists (λ d, is_Some (sample_projection d)) example_coords.
Proof. left. by eexists. Qed.

(** X20 for the example coordinates with an empty mapping. *)
Lemma legacy_empty_mapping_fails_witness :
  coords empty_payload = Some example_coords
  ∧ temperature_source empty_payload = Some ∅
  ∧ Exists (λ d, is_Some (sample_projection d)) example_coords
  ∧ timeDisplay (Legacy.loadTemperatureData sample_projection
                   (Payload empty_payload) (init_state sample_features))
    = "Failed to load data"
  ∧ timeDisplay (loadTemperatureData sample_projection
                   (Payload empty_payload) (init_state sample_features))
    = "Processing...".
Proof.
  split; [reflexivity|]. split; [reflexivity|].
  split; [exact example_coords_visible|].
  destruct (legacy_empty_mapping_fails sample_projection empty_payload
              (init_state sample_features) example_coords eq_refl eq_refl
              example_coords_visible)
    as (Hlegacy & _ & Hcurrent & _).
  split; [exact Hlegacy|exact Hcurrent].
Defined.

Lemma clicked_store_absolute (it : item) :
  it ∈ selectionList clicked_store →
  ∃ e series,
    calculateCountryTrend vertex_contains sample_dateParser
      (set_isAnomalyMode false clicked_store) (featureData it)
    = Ok (Some (e :: series))
    ∧ stats_raise (e :: series) = false.
Proof.
  rewrite clicked_store_list. intros ->%list_elem_of_singleton.
  exists first_entry, first_series.
  split; [vm_compute; reflexivity|vm_compute; reflexivity].
Qed.

(** X21 with the first country in the sidebar. *)
Lemma toggle_back_restores_witness :
  sample_reachable true clicked_store
  ∧ controlsReady clicked_store = true
  ∧ (∀ it, it ∈ selectionList clicked_store →
       ∃ e series,
         calculateCountryTrend vertex_contains sample_dateParser
           (set_isAnomalyMode false clicked_store) (featureData it)
         = Ok (Some (e :: series))
         ∧ stats_raise (e :: series) = false)
  ∧ isAnomalyMode
      (sample_handle (AnomalyToggle false)
         (sample_handle (AnomalyToggle true) clicked_store)) = false
  ∧ currentColorScale
      (sample_handle (AnomalyToggle false)
         (sample_handle (AnomalyToggle true) clicked_store))
    = absoluteColorScale.
Proof.
  split; [exact clicked_store_reachable|].
  split; [vm_compute; reflexivity|].
  split; [exact clicked_store_absolute|].
  pose proof (toggle_back_restores sample_projection vertex_contains
                sample_dateParser sample_querySelector sample_features true
                clicked_store)
    as H.
  cbv zeta in H. destruct H as (Hmode & Hscale & _).
  - exact clicked_store_reachable.
  - vm_compute. reflexivity.
  - exact clicked_store_absolute.
  - split; [exact Hmode|exact Hscale].
Defined.

Lemma country_a_contained :
  contained_indices vertex_contains country_a example_coords ≠ [].
Proof. vm_compute. discriminate. Qed.

(** X22 for 2016 in the example: 282 - 280. *)
Lemma anomaly_is_mean_of_differences_witness :
  loaded sample_projection example_coords example_temperatures
    sample_anomaly_store
  ∧ isAnomalyMode sample_anomaly_store = true
  ∧ timePoints sample_anomaly_store !! 1 = Some "2016-01-01"
  ∧ example_temperatures !! "2016-01-01"
    = Some [JNum (num_of_Z 282); JNum (num_of_Z 285)]
  ∧ baselineData sample_anomaly_store !! prop_key (month_of "2016-01-01")
    = Some [JNum (num_of_Z 280); JNum (num_of_Z 290)]
  ∧ contained_indices vertex_contains country_a example_coords ≠ []
  ∧ ∃ series e,
      calculateCountryTrend vertex_contains sample_dateParser
        sample_anomaly_store country_a = Ok (Some series)
      ∧ series !! 1 = Some e
      ∧ rawDate e = "2016-01-01"
      ∧ val e
        = double_mean
            (anomalies_at [JNum (num_of_Z 282); JNum (num_of_Z 285)]
               [JNum (num_of_Z 280); JNum (num_of_Z 290)]
               (contained_indices vertex_contains country_a example_coords))
      ∧ val e = num_of_Z 2.
Proof.
  split; [exact sample_anomaly_store_loaded|].
  split; [vm_compute; reflexivity|]. split; [vm_compute; reflexivity|].
  split; [vm_compute; reflexivity|]. split; [vm_compute; reflexivity|].
  split; [exact country_a_contained|].
  destruct (anomaly_is_mean_of_differences sample_projection vertex_contains
              sample_dateParser sample_anomaly_store example_coords
              example_temperatures country_a 1 "2016-01-01"
              [JNum (num_of_Z 282); JNum (num_of_Z 285)]
              [JNum (num_of_Z 280); JNum (num_of_Z 290)])
    as (series & e & Hcalc & He & Hdate & Hval).
  - exact sample_anomaly_store_loaded.
  - vm_compute. reflexivity.
  - vm_compute. reflexivity.
  - vm_compute. reflexivity.
  - vm_compute. reflexivity.
  - exact country_a_contained.
  - exists series, e. split; [exact Hcalc|]. split; [exact He|].
    split; [exact Hdate|]. split; [exact Hval|].
    rewrite Hval. vm_compute. reflexivity.
Defined.

(** ** A baseline array without the value of a point *)

Definition short_coords : list coord := [(num_of_Z 0, num_of_Z 0)].







(** ** A month that names an inherited property *)

Definition odd_temperatures : gmap string (list jsval) :=
  <["2016-constructor-01" := [JNum (num_of_Z 282)]]> ∅.

Definition odd_payload : parsed :=
  {| coords := Some short_coords; temperatures := Some odd_temperatures;
     data := None |}.

(** The page after [odd_payload] is loaded and anomaly mode switched on. *)
Definition odd_store : state :=
  sample_handle (AnomalyToggle true)
    (loadTemperatureData sample_projection (Payload odd_payload)
       (init_state sample_features)).

Lemma odd_store_loaded :
  loaded sample_projection short_coords odd_temperatures odd_store.
Proof. constructor; vm_compute; reflexivity. Qed.

(** X27 for the date key "2016-constructor-01": the series value is NaN and
    the circle shows zero. *)
Lemma inherited_baseline_gives_NaN_witness :
  loaded sample_projection short_coords odd_temperatures odd_store
  ∧ isAnomalyMode odd_store = true
  ∧ baselineData odd_store = ∅
  ∧ timePoints odd_store !! 0 = Some "2016-constructor-01"
  ∧ month_of "2016-constructor-01" = Some "constructor"
  ∧ trend_points
      (calculateCountryTrend vertex_contains sample_dateParser odd_store
         country_a)
    = Ok (Some [("2016-constructor-01", NaN)])
  ∧ map fill (dataPoints odd_store)
    = [(anomalyColorScale, JNum num_zero)]
  ∧ ∃ series e,
      calculateCountryTrend vertex_contains sample_dateParser odd_store
        country_a = Ok (Some series)
      ∧ series !! 0 = Some e
      ∧ rawDate e = "2016-constructor-01"
      ∧ val e = NaN.
Proof.
  split; [exact odd_store_loaded|].
  split; [vm_compute; reflexivity|]. split; [vm_compute; reflexivity|].
  split; [vm_compute; reflexivity|]. split; [vm_compute; reflexivity|].
  split; [vm_compute; reflexivity|]. split; [vm_compute; reflexivity|].
  apply (inherited_baseline_gives_NaN sample_projection vertex_contains
           sample_dateParser odd_store short_coords odd_temperatures
           country_a 0 "2016-constructor-01" "constructor"
           [JNum (num_of_Z 282)]).
  - exact odd_store_loaded.
  - vm_compute. reflexivity.
  - vm_compute. reflexivity.
  - vm_compute. reflexivity.
  - vm_compute. reflexivity.
  - vm_compute. reflexivity.
  - unfold object_prototype_names. left.
  - vm_compute. discriminate.
Defined.

(** ** A parser that rejects the date keys *)

(** The date keys of the example have no time of day, which the format of
    [dateParser] requires. *)
Definition strict_dateParser (dateStr : string) : option Date :=
  if String.length dateStr =? 19 then Some 0%Z else None.

Abbreviation strict_reachable :=
  (reachable sample_projection vertex_contains strict_dateParser
     sample_querySelector sample_features).

(** The loaded page after a click on the first country, with the strict
    parser. *)
Definition strict_store : state :=
  handle vertex_contains strict_dateParser sample_querySelector (Click 0)
    sample_store.

Lemma strict_store_reachable : strict_reachable true strict_store.
Proof. apply reach_event; [apply reach_load, reach_init|reflexivity]. Qed.

Lemma strict_store_has_data :
  calculateCountryTrend vertex_contains strict_dateParser strict_store
    (job_feature first_draw) ≠ Ok None.
Proof. vm_compute. discriminate. Qed.

Lemma strict_store_key : "2015-01-01" ∈ timePoints strict_store.
Proof.
  assert (Hkeys : timePoints strict_store = ["2015-01-01"; "2016-01-01"])
    by (vm_compute; reflexivity).
  rewrite Hkeys. left.
Qed.

(** X24: the draw of the first country with the strict parser. *)
Lemma unparsed_date_stops_draw_witness :
  strict_reachable true strict_store
  ∧ timeouts strict_store !! 0 = Some first_draw
  ∧ calculateCountryTrend vertex_contains strict_dateParser strict_store
      (job_feature first_draw) ≠ Ok None
  ∧ "2015-01-01" ∈ timePoints strict_store
  ∧ strict_dateParser "2015-01-01" = None
  ∧ snd (deferred_draw vertex_contains strict_dateParser first_draw
           (set_timeouts (delete 0 (timeouts strict_store)) strict_store))
    = Thrown.
Proof.
  split; [exact strict_store_reachable|].
  split; [vm_compute; reflexivity|].
  split; [exact strict_store_has_data|].
  split; [exact strict_store_key|]. split; [reflexivity|].
  destruct (unparsed_date_stops_draw sample_projection vertex_contains
              strict_dateParser sample_querySelector sample_features true
              strict_store 0
              first_draw "2015-01-01")
    as [Hthrown _].
  - exact strict_store_reachable.
  - vm_compute. reflexivity.
  - exact strict_store_has_data.
  - exact strict_store_key.
  - reflexivity.
  - exact Hthrown.
Defined.

(** ** A country without data before one with data *)









(** ** A country id with a double quote *)

(** A country whose only identifier is its name: the letter A, a double
    quote and the letter B. *)
Definition quoted_id : string :=
  String "A" (String (ascii_of_nat 34) (String "B" EmptyString)).

Definition country_q : feature :=
  {| iso_a3 := None; adm0_a3 := None; fid := None;
     name := Some quoted_id; geom := Polygon [[(num_of_Z 0, num_of_Z 0)]] |}.

Definition quoted_store : state :=
  loadTemperatureData sample_projection (Payload example_payload)
    (init_state [country_q]).

Abbreviation quoted_click :=
  (handleClick sample_querySelector 0).

(** C8 at a country whose identifier holds a double quote, where the
    document rejects the selector built from it: the first
    click reveals the country and gives its border the revealed stroke; the
    second click takes the identifier out of the revealed set and raises in
    [removeFromSelectionList], before [updateBorderStyle] is called, so that
    the border keeps the revealed stroke and width and the item stays in
    the sidebar. *)
Lemma click_twice_keeps_border :
  reachable sample_projection vertex_contains sample_dateParser
    sample_querySelector [country_q] true quoted_store
  ∧ map datum_of (countryPaths quoted_store) = [country_q]
  ∧ getCountryId country_q = quoted_id
  ∧ selector_plain quoted_id = false
  ∧ elements (revealedCountries quoted_store) = []
  ∧ elements (revealedCountries (quoted_click quoted_store)) = [quoted_id]
  ∧ elements (revealedCountries (quoted_click (quoted_click quoted_store)))
    = []
  ∧ map (λ b, (stroke b, stroke_width b)) (countryBorders quoted_store)
    = [("#94a3b8", "0.5px")]
  ∧ map (λ b, (stroke b, stroke_width b))
      (countryBorders (quoted_click (quoted_click quoted_store)))
    = [("#3b82f6", "1.2px")]
  ∧ map countryId (selectionList (quoted_click (quoted_click quoted_store)))
    = [quoted_id].
Proof.
  split; [apply reach_load, reach_init|].
  split; [vm_compute; reflexivity|]. split; [vm_compute; reflexivity|].
  split; [vm_compute; reflexivity|]. split; [vm_compute; reflexivity|].
  split; [vm_compute; reflexivity|]. split; [vm_compute; reflexivity|].
  split; [vm_compute; reflexivity|]. split; [vm_compute; reflexivity|].
  vm_compute. reflexivity.
Qed.
